(** * Dotfiles Kaizen: the pipeline of [dotfiles_kaizen/main.py]

    A shallow embedding of the Python module and the properties its
    specification states about it.

    Modelling conventions.
    - A Python [str] is a [string] that holds the text in UTF-8, one byte per
      character of the Standard Library, the way the literals of this file
      hold it.  Search, concatenation and comparison of texts act on the
      bytes as they act on the code points.  Positions within a text
      ([str.index], [str.find], the bounds of a slice) are byte offsets; the
      code adds to them nothing but the length of a text, measured by [len]
      in the same unit.  Where the code counts characters against a number,
      as [_format_sources] does, the model counts code points ([str_len],
      [str_prefix]).  [str.strip] removes the code points [str.isspace]
      accepts.  [str.lower] is the ASCII mapping on ASCII text; on other text
      it is what the Unicode tables of the interpreter say, which the
      environment gives.
    - JSON documents (the configuration, the bodies of HTTP responses) are
      records that follow their schema: a key the code reads with
      [d.get(k, default)] is an optional field, a key read with [d[k]] is a
      field.  Dataclasses are records.  [get_domain_config] is modelled on
      the document as [json.load] returns it, a [json] of any shape, with
      the errors of a missing key and of a value of another type; the lookup
      on records is the same function on documents that follow the schema.
    - Exceptions are values of [exn]; a function that can raise returns a
      [result].
    - The three HTTP services, the clock, standard output and [time.sleep] are
      the environment.  Every interaction is appended to a trace of events;
      the answer of a service is a function of the trace so far and of the
      request.
    - List objects that are reachable from the configuration live in a store
      of list objects and are held by reference, so that aliasing and in-place
      [append] are visible.
    - The process environment, the configuration file and the files under the
      content base are the host.  What the host answers is given by the
      functions of [Host.t]; lines written to standard error are kept apart
      from the trace.  A [pathlib.Path] is the constructor [Path] on the text
      it was built from.  [main] is modelled from the parsed arguments on. *)

From Stdlib Require Import ZArith Ascii String Floats.
From stdpp Require Import base gmap strings list pretty.

(** ** Exceptions and results *)

(** What [str(e)] prints for an exception of the [requests] library. *)
Record requests_error := RequestsError {
  error_class : string;
  error_text : string;
}.

Inductive exn :=
| ValueError (msg : string)
| IndexError (msg : string)
| KeyError (key : string)
| TypeError (msg : string)
| AttributeError (msg : string)
| RequestException (e : requests_error)
| Exception (msg : string).

Inductive result (A : Type) :=
| Ok (a : A)
| Raise (e : exn).
Arguments Ok {A} a.
Arguments Raise {A} e.

Definition result_bind {A B} (f : A → result B) (r : result A) : result B :=
  match r with
  | Ok a => f a
  | Raise e => Raise e
  end.

#[global] Instance result_mret : MRet result := λ A a, Ok a.
#[global] Instance result_mbind : MBind result := λ A B f r, result_bind f r.

(** [try: body except ValueError: handler] *)
Definition try_except_ValueError {A} (body : result A) (handler : result A) : result A :=
  match body with
  | Raise (ValueError _) => handler
  | r => r
  end.

(** ** Strings *)

Definition nl : string := String "010" "".

Definition chars (s : string) : list ascii := String.list_ascii_of_string s.
Definition of_chars (l : list ascii) : string := String.string_of_list_ascii l.

(** The length of a text in bytes, the unit of positions. *)
Definition len (s : string) : Z := Z.of_nat (String.length s).

(** A byte that continues a code point: [10xxxxxx]. *)
Definition is_continuation (c : ascii) : bool :=
  let n := nat_of_ascii c in
  Nat.leb 0x80 n && Nat.ltb n 0xC0.

(** The text goes on inside a code point. *)
Definition continues (l : list ascii) : bool :=
  match l with
  | c :: _ => is_continuation c
  | [] => false
  end.

(** The code points of a text, each as the bytes that encode it. *)
Fixpoint code_points (l : list ascii) : list (list ascii) :=
  match l with
  | [] => []
  | c :: rest =>
      match code_points rest with
      | cp :: cps => if continues rest then (c :: cp) :: cps else [c] :: cp :: cps
      | [] => [[c]]
      end
  end.

(** [len(s)], in code points. *)
Definition str_len (s : string) : Z :=
  Z.of_nat (length (code_points (chars s))).

(** [s[:n]] for an [n] that is not negative: the first [n] code points. *)
Definition str_prefix (s : string) (n : nat) : string :=
  of_chars (concat (take n (code_points (chars s)))).

(** An index of a slice, brought into [0..n] the way Python does it. *)
Definition slice_index (n i : Z) : Z :=
  if (i <? 0)%Z then Z.max 0 (i + n) else Z.min i n.

(** [s[lo:hi]] *)
Definition str_slice (s : string) (lo hi : Z) : string :=
  let lo' := slice_index (len s) lo in
  let hi' := slice_index (len s) hi in
  of_chars (take (Z.to_nat (hi' - lo')) (drop (Z.to_nat lo') (chars s))).

(** [s[lo:]] *)
Definition str_slice_from (s : string) (lo : Z) : string :=
  str_slice s lo (len s).

Fixpoint starts_with (sub l : list ascii) : bool :=
  match sub, l with
  | [], _ => true
  | _ :: _, [] => false
  | a :: sub', b :: l' => Ascii.eqb a b && starts_with sub' l'
  end.

(** The lowest position, counted from [i], at which [sub] starts in [l];
    [-1] when there is none. *)
Fixpoint find_chars (sub l : list ascii) (i : Z) : Z :=
  if starts_with sub l then i
  else match l with
       | [] => (-1)%Z
       | _ :: l' => find_chars sub l' (i + 1)%Z
       end.

(** [s.find(sub, start)] *)
Definition str_find (s sub : string) (start : Z) : Z :=
  let st := if (start <? 0)%Z then Z.max 0 (start + len s) else start in
  if (len s <? st)%Z then (-1)%Z
  else find_chars (chars sub) (drop (Z.to_nat st) (chars s)) st.

(** [s.index(sub)] *)
Definition str_index (s sub : string) : result Z :=
  let k := str_find s sub 0 in
  if (k =? -1)%Z then Raise (ValueError "substring not found") else Ok k.

(** [sub in s] *)
Definition str_in (sub s : string) : bool :=
  negb (find_chars (chars sub) (chars s) 0 =? -1)%Z.

Definition utf8 (bytes : list nat) : list ascii := ascii_of_nat <$> bytes.

(** The code points [str.isspace] accepts, in UTF-8: U+0009 to U+000D,
    U+001C to U+0020, U+0085, U+00A0, U+1680, U+2000 to U+200A, U+2028,
    U+2029, U+202F, U+205F and U+3000. *)
Definition whitespace : list (list ascii) :=
  ((λ n, utf8 [n]) <$> seq 0x09 5)
  ++ ((λ n, utf8 [n]) <$> seq 0x1C 5)
  ++ [utf8 [0xC2; 0x85]; utf8 [0xC2; 0xA0]; utf8 [0xE1; 0x9A; 0x80]]
  ++ ((λ n, utf8 [0xE2; 0x80; n]) <$> seq 0x80 11)
  ++ [utf8 [0xE2; 0x80; 0xA8]; utf8 [0xE2; 0x80; 0xA9]; utf8 [0xE2; 0x80; 0xAF];
      utf8 [0xE2; 0x81; 0x9F]; utf8 [0xE3; 0x80; 0x80]].

(** What is left of [l] after the first of [tokens] it starts with. *)
Fixpoint strip_token (tokens : list (list ascii)) (l : list ascii) : option (list ascii) :=
  match tokens with
  | [] => None
  | token :: rest =>
      if starts_with token l then Some (drop (length token) l) else strip_token rest l
  end.

(** [l] without the tokens it starts with; a [fuel] of the length of [l] is
    enough, every token taking a byte at least. *)
Fixpoint lstrip_chars (tokens : list (list ascii)) (fuel : nat) (l : list ascii)
    : list ascii :=
  match fuel with
  | 0 => l
  | S fuel =>
      match strip_token tokens l with
      | Some rest => lstrip_chars tokens fuel rest
      | None => l
      end
  end.

(** In UTF-8 text the bytes of a code point at the start or at the end of
    the text are the bytes of the first or of the last code point, so that
    whitespace is removed at both ends code point by code point. *)
Definition strip_chars (l : list ascii) : list ascii :=
  let left := lstrip_chars whitespace (length l) l in
  rev (lstrip_chars (@rev ascii <$> whitespace) (length left) (rev left)).

(** [s.strip()] *)
Definition str_strip (s : string) : string := of_chars (strip_chars (chars s)).

Definition is_ascii (s : string) : bool :=
  forallb (λ c, Nat.ltb (nat_of_ascii c) 0x80) (chars s).

Definition lower_char (c : ascii) : ascii :=
  let n := nat_of_ascii c in
  if Nat.leb 65 n && Nat.leb n 90 then ascii_of_nat (n + 32) else c.

(** [s.lower()].  On ASCII text the letters [A] to [Z] become [a] to [z] and
    nothing else changes; on other text the mapping is that of the Unicode
    tables of the interpreter, [unicode_lower]. *)
Definition str_lower (unicode_lower : string → string) (s : string) : string :=
  if is_ascii s then of_chars (lower_char <$> chars s) else unicode_lower s.

(** [sep.join(items)] *)
Fixpoint str_join (sep : string) (items : list string) : string :=
  match items with
  | [] => ""
  | [x] => x
  | x :: rest => x +:+ sep +:+ str_join sep rest
  end.

(** [l[0]] *)
Definition subscript0 {A} (l : list A) : result A :=
  match l with
  | [] => Raise (IndexError "list index out of range")
  | x :: _ => Ok x
  end.

(** ** JSON documents *)

(** What [json.load] returns.  A dict lists each of its keys once. *)
#[local] Unset Elimination Schemes.
Inductive json :=
| JNull
| JBool (b : bool)
| JInt (n : Z)
| JFloat (x : float)
| JString (s : string)
| JList (items : list json)
| JDict (members : list (string * json)).
#[local] Set Elimination Schemes.

(** [type(v).__name__] *)
Definition type_name (v : json) : string :=
  match v with
  | JNull => "NoneType"
  | JBool _ => "bool"
  | JInt _ => "int"
  | JFloat _ => "float"
  | JString _ => "str"
  | JList _ => "list"
  | JDict _ => "dict"
  end.

(** The value of a key among the members of a dict. *)
Fixpoint dict_get (key : string) (members : list (string * json)) : option json :=
  match members with
  | [] => None
  | (k, v) :: rest => if String.eqb k key then Some v else dict_get key rest
  end.

(** [v.get(key, fallback)] *)
Definition get_or (v : json) (key : string) (fallback : json) : result json :=
  match v with
  | JDict members => Ok (default fallback (dict_get key members))
  | _ => Raise (AttributeError ("'" +:+ type_name v +:+ "' object has no attribute 'get'"))
  end.

(** [v[key]] for a key that is a string. *)
Definition subscript (v : json) (key : string) : result json :=
  match v with
  | JDict members =>
      match dict_get key members with
      | Some x => Ok x
      | None => Raise (KeyError key)
      end
  | JList _ => Raise (TypeError "list indices must be integers or slices, not str")
  | JString _ => Raise (TypeError "string indices must be integers, not 'str'")
  | _ => Raise (TypeError ("'" +:+ type_name v +:+ "' object is not subscriptable"))
  end.

(** The values [for x in v] takes: the items of a list, the keys of a dict,
    the characters of a string. *)
Definition iterate (v : json) : result (list json) :=
  match v with
  | JList items => Ok items
  | JDict members => Ok ((λ member, JString member.1) <$> members)
  | JString s => Ok ((λ cp, JString (of_chars cp)) <$> code_points (chars s))
  | _ => Raise (TypeError ("'" +:+ type_name v +:+ "' object is not iterable"))
  end.

(** [v == s] for a string [s]. *)
Definition equals_str (v : json) (s : string) : bool :=
  match v with
  | JString t => String.eqb t s
  | _ => false
  end.

(** ** Data model *)

(** The dataclasses of the module. *)
Module SearchResult.
Record t := mk {
  title : string;
  url : string;
  content : string;
  score : float;
}.
End SearchResult.

Module ResearchOutput.
Record t := mk {
  sources : list SearchResult.t;
  summary : string;
  search_query : string;
}.
End ResearchOutput.

Module AnalysisOutput.
Record t := mk {
  gap_analysis : string;
  recommendations : string;
  implementation_guide : string;
  full_response : string;
}.
End AnalysisOutput.

(** A reference to a list object of the store. *)
Definition loc := positive.

(** The configuration document. *)
Module SearchHints.
Record t := mk {
  primary_keywords : list string;
  focus_areas : list string;
  exclude_domains : option (list string);
  exclude_terms : option (list string);
}.
End SearchHints.

Module Domain.
Record t := mk {
  id : string;
  name : string;
  description : string;
  target_files : list string;
  search_hints : SearchHints.t;
}.
End Domain.

Module GlobalSettings.
Record t := mk {
  max_search_results : option Z;
  analysis_temperature : option float;
  issue_labels : option loc;
}.
(** The empty dictionary [{}]. *)
Definition empty : t := mk None None None.
End GlobalSettings.

Module Config.
Record t := mk {
  domains : option (list Domain.t);
  global_settings : option GlobalSettings.t;
}.
End Config.

(** The bodies of the HTTP responses, with the keys the module reads. *)
Module TavilyResult.
Record t := mk {
  title : string;
  url : string;
  content : string;
  score : float;
}.
End TavilyResult.

Module TavilyResponse.
Record t := mk {
  results : option (list TavilyResult.t);
  answer : option string;
}.
End TavilyResponse.

Module ContentBlock.
Record t := mk { text : string }.
End ContentBlock.

Module AnthropicResponse.
Record t := mk { content : list ContentBlock.t }.
End AnthropicResponse.

Module Issue.
Record t := mk {
  number : Z;
  html_url : string;
}.
End Issue.

Module IssueSearch.
Record t := mk {
  total_count : Z;
  items : list Issue.t;
}.
End IssueSearch.

Module Comment.
Record t := mk { id : Z }.
End Comment.

(** [datetime.now()], broken down. *)
Module Datetime.
Record t := mk {
  year : nat;
  month : nat;
  day : nat;
  hour : nat;
  minute : nat;
  second : nat;
}.
End Datetime.

Definition pad2 (n : nat) : string :=
  if Nat.ltb n 10 then "0" +:+ pretty n else pretty n.

(** [strftime("%Y-%m-%d")] *)
Definition strftime_date (t : Datetime.t) : string :=
  pretty (Datetime.year t) +:+ "-" +:+ pad2 (Datetime.month t) +:+ "-" +:+ pad2 (Datetime.day t).

(** [strftime("%Y-%m-%d %H:%M:%S UTC")] *)
Definition strftime_utc (t : Datetime.t) : string :=
  strftime_date t +:+ " " +:+ pad2 (Datetime.hour t) +:+ ":" +:+ pad2 (Datetime.minute t)
    +:+ ":" +:+ pad2 (Datetime.second t) +:+ " UTC".

(** ** The environment *)

(** The requests the module sends; credentials and fixed headers are left
    out. *)
Inductive request :=
| TavilySearch (query : string) (max_results : Z) (include_domains exclude_domains : list string)
| AnthropicMessages (system_prompt user_prompt : string) (temperature : float)
| GitHubCreateIssue (repository title body : string) (labels assignees : list string)
| GitHubSearchIssues (q : string)
| GitHubAddComment (repository : string) (issue_number : Z) (body : string).

Inductive event :=
| ERequest (r : request)
| EPrint (line : string)
| ESleep (seconds : nat)
| ENow.

(** The outcome of [requests.post(...)] or [requests.get(...)] followed by
    [raise_for_status()] and [json()]: a decoded body, or the
    [requests.RequestException] one of the three raised. *)
Inductive outcome (A : Type) :=
| Response (body : A)
| Failure (e : requests_error).
Arguments Response {A} body.
Arguments Failure {A} e.

Module Env.
Record t := mk {
  tavily : list event → request → outcome TavilyResponse.t;
  anthropic : list event → request → outcome AnthropicResponse.t;
  github_issues : list event → request → outcome Issue.t;
  github_search : list event → request → outcome IssueSearch.t;
  github_comments : list event → request → outcome Comment.t;
  clock : list event → Datetime.t;
  lower : string → string;
}.
End Env.

(** ** State and the monad of the effectful code *)

Record state := State {
  heap : gmap loc (list string);
  trace : list event;
}.

Definition M (A : Type) : Type := state → result A * state.

Definition M_ret {A} (a : A) : M A := λ s, (Ok a, s).

Definition M_bind {A B} (f : A → M B) (m : M A) : M B :=
  λ s, match m s with
       | (Ok a, s') => f a s'
       | (Raise e, s') => (Raise e, s')
       end.

#[global] Instance M_mret : MRet M := @M_ret.
#[global] Instance M_mbind : MBind M := @M_bind.

Definition raise {A} (e : exn) : M A := λ s, (Raise e, s).

(** A [result] computed without effects, inside effectful code. *)
Definition lift {A} (r : result A) : M A := λ s, (r, s).

Definition emit (e : event) : M unit :=
  λ s, (Ok tt, State (heap s) (trace s ++ [e])).

Definition print (line : string) : M unit := emit (EPrint line).
Definition sleep (seconds : nat) : M unit := emit (ESleep seconds).

(** [try: body except requests.RequestException as e: handler] *)
Definition try_except_RequestException {A}
    (body : M A) (handler : requests_error → M A) : M A :=
  λ s, match body s with
       | (Raise (RequestException e), s') => handler e s'
       | r => r
       end.

(** A fresh list object with the given items. *)
Definition alloc (items : list string) : M loc :=
  λ s, let l := fresh (dom (heap s)) in
       (Ok l, State (<[l := items]> (heap s)) (trace s)).

(** The items of a list object. *)
Definition read (l : loc) : M (list string) :=
  λ s, (Ok (default [] (heap s !! l)), s).

(** [list(l)]: a new list object with the items of [l]. *)
Definition list_copy (l : loc) : M loc :=
  items ← read l; alloc items.

(** [l.append(x)], in place. *)
Definition append (l : loc) (x : string) : M unit :=
  λ s, (Ok tt, State (<[l := default [] (heap s !! l) ++ [x]]> (heap s)) (trace s)).

(** The objects of the module: the clients and the orchestrator. *)
Module TavilyClient.
Record t := mk { api_key : string }.
End TavilyClient.

Module AnthropicClient.
Record t := mk { api_key : string }.
End AnthropicClient.

Module GitHubClient.
Record t := mk { token : string; repository : string }.
End GitHubClient.

Module DotfilesKaizen.
Record t := mk {
  config : Config.t;
  tavily_client : TavilyClient.t;
  anthropic_client : AnthropicClient.t;
  github_client : GitHubClient.t;
}.
End DotfilesKaizen.

Section Pipeline.

(** The environment the module runs in. *)
Variable env : Env.t.

(** [datetime.now()] *)
Definition now : M Datetime.t :=
  λ s, (Ok (Env.clock env (trace s)), State (heap s) (trace s ++ [ENow])).

(** One HTTP exchange with a service. *)
Definition http {A} (service : list event → request → outcome A) (r : request) : M A :=
  λ s, let s' := State (heap s) (trace s ++ [ERequest r]) in
       match service (trace s) r with
       | Response body => (Ok body, s')
       | Failure e => (Raise (RequestException e), s')
       end.

(** ** Constants *)

Definition MAX_RETRIES : nat := 3.
Definition RETRY_DELAY : nat := 2.

(** The line a client logs when an attempt fails and another one follows. *)
Definition retry_log (api : string) (attempt : nat) (e : requests_error) : string :=
  api +:+ " API error (attempt " +:+ pretty attempt +:+ "/" +:+ pretty MAX_RETRIES
    +:+ "): " +:+ error_text e.

(** ** [get_domain_config] *)

(** The function takes what [json.load] returned, whatever it is. *)
Fixpoint get_domain_config_loop (domains : list json) (domain_id : string)
    : result (option json) :=
  match domains with
  | [] => Ok None
  | domain :: rest =>
      id ← subscript domain "id";
      if equals_str id domain_id then Ok (Some domain)
      else get_domain_config_loop rest domain_id
  end.

Definition get_domain_config (config : json) (domain_id : string) : result (option json) :=
  domains ← get_or config "domains" (JList []);
  items ← iterate domains;
  get_domain_config_loop items domain_id.

(** ** The API clients *)

(** The loop [for attempt in range(MAX_RETRIES)] that [TavilyClient.search],
    [AnthropicClient.generate_response] and [GitHubClient.create_issue] each
    write out, with the statement after the loop.  [api] is the name the log
    line and the last exception carry, [call] the body of the [try]. *)
Fixpoint retry_loop {A} (api : string) (call : M A) (attempts : list nat) : M A :=
  match attempts with
  | [] => raise (Exception (api +:+ " API request failed after max retries"))
  | attempt :: rest =>
      try_except_RequestException call (λ e,
        if bool_decide (attempt = MAX_RETRIES - 1) then raise (RequestException e)
        else
          print (retry_log api (attempt + 1) e);;
          sleep (RETRY_DELAY * (attempt + 1));;
          retry_loop api call rest)
  end.

Definition TavilyClient_search (self : TavilyClient.t) (query : string) (max_results : Z)
    (include_domains exclude_domains : option (list string)) : M TavilyResponse.t :=
  let payload := TavilySearch query max_results
                   (default [] include_domains) (default [] exclude_domains) in
  retry_loop "Tavily" (http (Env.tavily env) payload) (seq 0 MAX_RETRIES).

Definition AnthropicClient_generate_response (self : AnthropicClient.t)
    (system_prompt user_prompt : string) (temperature : float) : M string :=
  let payload := AnthropicMessages system_prompt user_prompt temperature in
  retry_loop "Anthropic"
    (data ← http (Env.anthropic env) payload;
     block ← lift (subscript0 (AnthropicResponse.content data));
     mret (ContentBlock.text block))
    (seq 0 MAX_RETRIES).

Definition GitHubClient_create_issue (self : GitHubClient.t) (title body : string)
    (labels : option loc) (assignees : option loc) : M Issue.t :=
  labels_now ← from_option read (mret []) labels;
  assignees_now ← from_option read (mret []) assignees;
  let payload := GitHubCreateIssue (GitHubClient.repository self) title body
                   labels_now assignees_now in
  retry_loop "GitHub" (http (Env.github_issues env) payload) (seq 0 MAX_RETRIES).

(** The query [find_existing_issue] sends to the search endpoint. *)
Definition issue_search_query (self : GitHubClient.t) (title_prefix : string) : string :=
  "repo:" +:+ GitHubClient.repository self +:+ " is:issue is:open in:title "
    +:+ title_prefix.

Definition GitHubClient_find_existing_issue (self : GitHubClient.t) (title_prefix : string)
    : M (option Issue.t) :=
  let search_query := issue_search_query self title_prefix in
  try_except_RequestException
    (data ← http (Env.github_search env) (GitHubSearchIssues search_query);
     if (0 <? IssueSearch.total_count data)%Z then
       item ← lift (subscript0 (IssueSearch.items data));
       mret (Some item)
     else mret None)
    (λ e, print ("GitHub API search error: " +:+ error_text e);; mret None).

Definition GitHubClient_add_comment (self : GitHubClient.t) (issue_number : Z) (body : string)
    : M Comment.t :=
  try_except_RequestException
    (http (Env.github_comments env)
       (GitHubAddComment (GitHubClient.repository self) issue_number body))
    (λ e, raise (Exception ("Failed to add comment: " +:+ error_text e))).

(** ** The orchestrator *)

(** The loop of [collect_trends] over the results of the search. *)
Definition collect_trends_step (search_hints : SearchHints.t)
    (sources : list SearchResult.t) (result : TavilyResult.t) : list SearchResult.t :=
  let title_lower := str_lower (Env.lower env) (TavilyResult.title result) in
  let content_lower := str_lower (Env.lower env) (TavilyResult.content result) in
  let exclude_terms :=
    str_lower (Env.lower env) <$> default [] (SearchHints.exclude_terms search_hints) in
  if existsb (λ term, str_in term title_lower || str_in term content_lower) exclude_terms
  then sources
  else sources ++ [SearchResult.mk (TavilyResult.title result) (TavilyResult.url result)
                     (TavilyResult.content result) (TavilyResult.score result)].

Definition collect_trends_sources (search_hints : SearchHints.t)
    (results : list TavilyResult.t) : list SearchResult.t :=
  foldl (collect_trends_step search_hints) [] results.

Definition collect_trends (self : DotfilesKaizen.t) (domain : Domain.t)
    : M ResearchOutput.t :=
  print ("Starting Phase 1: Trend Collection for " +:+ Domain.name domain +:+ "...");;
  let search_hints := Domain.search_hints domain in
  t ← now;
  let current_year := Datetime.year t in
  let keywords := str_join " " (SearchHints.primary_keywords search_hints) in
  let focus := str_join " " (SearchHints.focus_areas search_hints) in
  let query := keywords +:+ " " +:+ focus +:+ " " +:+ pretty current_year in
  print ("Search Query: " +:+ query);;
  let global_settings :=
    default GlobalSettings.empty (Config.global_settings (DotfilesKaizen.config self)) in
  let max_results := default 10%Z (GlobalSettings.max_search_results global_settings) in
  results ← TavilyClient_search (DotfilesKaizen.tavily_client self) query max_results None
              (Some (default [] (SearchHints.exclude_domains search_hints)));
  let sources :=
    collect_trends_sources search_hints (default [] (TavilyResponse.results results)) in
  mret (ResearchOutput.mk sources
          (default "No summary available." (TavilyResponse.answer results)) query).

(** [_format_sources] *)
Definition _format_sources_step (formatted_items : list string) (s : SearchResult.t)
    : list string :=
  let content := str_prefix (SearchResult.content s) 200 in
  let content :=
    if (200 <? str_len (SearchResult.content s))%Z then content +:+ "..." else content in
  formatted_items ++ ["- " +:+ SearchResult.title s +:+ ": " +:+ content].

Definition _format_sources (sources : list SearchResult.t) : string :=
  str_join nl (foldl _format_sources_step [] (take 5 sources)).

(** [_format_sources_list] *)
Definition _format_sources_list (sources : list SearchResult.t) : string :=
  str_join nl ((λ s, "- [" +:+ SearchResult.title s +:+ "](" +:+ SearchResult.url s +:+ ")")
                 <$> take 5 sources).

(** [_extract_section] *)
Definition _extract_section (text section_name : string) : result string :=
  try_except_ValueError
    (let header := "## " +:+ section_name in
     start ← str_index text header;
     let content_start := (start + len header)%Z in
     let next_section_start := str_find text (nl +:+ "## ") content_start in
     if (next_section_start =? -1)%Z then
       Ok (str_strip (str_slice_from text content_start))
     else
       Ok (str_strip (str_slice text content_start next_section_start)))
    (Ok "").

(** The body of a new issue and of an update comment, as [report_findings]
    builds them. *)
Definition issue_body (domain : Domain.t) (date : string)
    (research_output : ResearchOutput.t) (analysis_output : AnalysisOutput.t) : string :=
  str_join nl [
    "";
    "## 🔍 Analysis Overview";
    "- **Domain**: " +:+ Domain.name domain;
    "- **Date**: " +:+ date;
    "- **Search Query**: `" +:+ ResearchOutput.search_query research_output +:+ "`";
    "";
    "## 📊 Research Summary";
    ResearchOutput.summary research_output;
    "";
    "## 💡 Analysis & Recommendations";
    AnalysisOutput.full_response analysis_output;
    "";
    "## 📚 Top Sources";
    _format_sources_list (ResearchOutput.sources research_output);
    "";
    "---";
    "*This issue was automatically generated by the Dotfiles Kaizen Workflow.*";
    ""
  ].

Definition update_comment_body (today : string)
    (research_output : ResearchOutput.t) (analysis_output : AnalysisOutput.t) : string :=
  str_join nl [
    "";
    "### Update: " +:+ today;
    "";
    "**Research Summary**:";
    ResearchOutput.summary research_output;
    "";
    "**New Recommendations**:";
    AnalysisOutput.full_response analysis_output;
    ""
  ].

(** [report_findings].  An issue of the tracker is a dictionary with keys, so
    [if existing_issue:] tests whether an issue was found. *)
Definition report_findings (self : DotfilesKaizen.t) (domain : Domain.t)
    (research_output : ResearchOutput.t) (analysis_output : AnalysisOutput.t) : M unit :=
  print ("Starting Phase 3: Reporting for " +:+ Domain.name domain +:+ "...");;
  t ← now;
  let today := strftime_date t in
  let title := "[Dotfiles Kaizen] " +:+ Domain.name domain +:+ " - " +:+ today in
  t' ← now;
  let body := issue_body domain (strftime_utc t') research_output analysis_output in
  existing_issue ← GitHubClient_find_existing_issue (DotfilesKaizen.github_client self)
                     ("[Dotfiles Kaizen] " +:+ Domain.name domain);
  match existing_issue with
  | Some existing_issue =>
      print ("Found existing issue #" +:+ pretty (Issue.number existing_issue)
               +:+ ". Adding comment instead.");;
      let comment_body := update_comment_body today research_output analysis_output in
      GitHubClient_add_comment (DotfilesKaizen.github_client self)
        (Issue.number existing_issue) comment_body;;
      print ("Comment added to issue #" +:+ pretty (Issue.number existing_issue))
  | None =>
      let global_settings :=
        default GlobalSettings.empty (Config.global_settings (DotfilesKaizen.config self)) in
      fallback ← alloc ["dotfiles-kaizen"];
      labels ← list_copy (default fallback (GlobalSettings.issue_labels global_settings));
      append labels (Domain.id domain);;
      issue ← GitHubClient_create_issue (DotfilesKaizen.github_client self) title body
                (Some labels) None;
      print ("Created new issue #" +:+ pretty (Issue.number issue) +:+ ": "
               +:+ Issue.html_url issue)
  end.

End Pipeline.

(** ** Vocabulary of the specification *)

(** The marker of a second-level header at the start of a line. *)
Definition h2_marker : string := nl +:+ "## ".

(** A line of [_format_sources]: the title of a source and what is shown of
    its content. *)
Definition format_line (s : SearchResult.t) (shown : string) : string :=
  "- " +:+ SearchResult.title s +:+ ": " +:+ shown.

(** A domain of the configuration whose id is [domain_id]: a dict whose
    ["id"] is that string. *)
Definition has_id (domain : json) (domain_id : string) : Prop :=
  ∃ members, domain = JDict members ∧ dict_get "id" members = Some (JString domain_id).

(** A domain with another id: a dict whose ["id"] is something else. *)
Definition other_id (domain : json) (domain_id : string) : Prop :=
  ∃ members v, domain = JDict members ∧ dict_get "id" members = Some v
    ∧ v ≠ JString domain_id.

(** [s.lower()] in an environment. *)
Definition lowered (env : Env.t) (s : string) : string := str_lower (Env.lower env) s.

(** The lower-cased [s] contains the lower-cased [term]. *)
Definition contains_lowered (env : Env.t) (term s : string) : Prop :=
  ∃ p q, lowered env s = p +:+ lowered env term +:+ q.

(** A result of the search that an excluded term rules out. *)
Definition excluded (env : Env.t) (terms : list string) (r : TavilyResult.t) : Prop :=
  ∃ term, term ∈ terms
    ∧ (contains_lowered env term (TavilyResult.title r)
       ∨ contains_lowered env term (TavilyResult.content r)).

(** Two characters that are the same ASCII letter in either case, or the same
    character. *)
Definition same_letter (a b : ascii) : Prop :=
  a = b
  ∨ (65 ≤ nat_of_ascii a ≤ 90 ∧ nat_of_ascii b = nat_of_ascii a + 32)
  ∨ (65 ≤ nat_of_ascii b ≤ 90 ∧ nat_of_ascii a = nat_of_ascii b + 32).

(** [s] contains [term] when the case of ASCII letters is ignored: a part of
    [s] is [term] up to the case of its letters. *)
Definition contains_ignoring_case (term s : string) : Prop :=
  ∃ p m q, s = p +:+ m +:+ q ∧ Forall2 same_letter (chars m) (chars term).

(** ASCII text. *)
Definition ascii_text (s : string) : Prop := is_ascii s = true.

(** The source a retained result becomes. *)
Definition to_source (r : TavilyResult.t) : SearchResult.t :=
  SearchResult.mk (TavilyResult.title r) (TavilyResult.url r)
    (TavilyResult.content r) (TavilyResult.score r).

(** The test of the loop of [collect_trends], as a function of the result. *)
Definition hits (env : Env.t) (terms : list string) (r : TavilyResult.t) : bool :=
  existsb (λ term, str_in term (lowered env (TavilyResult.title r))
                   || str_in term (lowered env (TavilyResult.content r)))
    (lowered env <$> terms).

(** The requests of a trace, in order. *)
Definition requests_of (tr : list event) : list request :=
  omap (λ e, match e with ERequest r => Some r | _ => None end) tr.

(** The events a run has added to the trace. *)
Definition new_events (s s' : state) : list event := drop (length (trace s)) (trace s').

(** What the failed attempts of a client leave in the trace: the attempt
    numbered [attempt] sends the request, fails with [e], logs it and sleeps
    [RETRY_DELAY * attempt] seconds before the next attempt. *)
Fixpoint backoff_events (api : string) (req : request) (attempt : nat)
    (failures : list requests_error) : list event :=
  match failures with
  | [] => []
  | e :: rest =>
      [ERequest req; EPrint (retry_log api attempt e); ESleep (RETRY_DELAY * attempt)]
        ++ backoff_events api req (S attempt) rest
  end.

(** The contract of a call under retry.  From state [s] the call leaves [out]:
    fewer than [attempts] attempts failed and were followed by another one,
    each after the delay its number fixes; every one of them got a
    [requests] failure from the service; the last attempt decides the result,
    a failure being raised as the service gave it, and only the attempt
    numbered [attempts] may end the call with a failure.  Attempts are
    numbered from [first]. *)
Definition retry_contract {A B} (api : string) (service : list event → request → outcome B)
    (req : request) (post : B → result A) (first attempts : nat)
    (s : state) (out : result A * state) : Prop :=
  ∃ failures : list requests_error,
    let before_last := trace s ++ backoff_events api req first failures in
    length failures < attempts
    ∧ heap out.2 = heap s
    ∧ trace out.2 = before_last ++ [ERequest req]
    ∧ (∀ k e, failures !! k = Some e →
         service (trace s ++ backoff_events api req first (take k failures)) req = Failure e)
    ∧ out.1 = match service before_last req with
              | Response body => post body
              | Failure e => Raise (RequestException e)
              end
    ∧ (∀ e, service before_last req = Failure e → S (length failures) = attempts).

(** [data["content"][0]["text"]] *)
Definition first_text (data : AnthropicResponse.t) : result string :=
  block ← subscript0 (AnthropicResponse.content data); Ok (ContentBlock.text block).

(** What [find_existing_issue] makes of the answer of the search service,
    and what it logs. *)
Definition existing_issue (found : outcome IssueSearch.t) : result (option Issue.t) :=
  match found with
  | Failure _ => Ok None
  | Response data =>
      if (0 <? IssueSearch.total_count data)%Z then
        match IssueSearch.items data with
        | [] => Raise (IndexError "list index out of range")
        | item :: _ => Ok (Some item)
        end
      else Ok None
  end.

Definition search_log (found : outcome IssueSearch.t) : list event :=
  match found with
  | Failure e => [EPrint ("GitHub API search error: " +:+ error_text e)]
  | Response _ => []
  end.

(** A body of the search endpoint that counts a match exactly when it lists
    one. *)
Definition consistent (data : IssueSearch.t) : Prop :=
  (0 < IssueSearch.total_count data)%Z ↔ IssueSearch.items data ≠ [].

(** [self.config.get("global_settings", {})] *)
Definition settings_of (self : DotfilesKaizen.t) : GlobalSettings.t :=
  default GlobalSettings.empty (Config.global_settings (DotfilesKaizen.config self)).

(** The items [report_findings] copies into [labels], read off the store it
    starts from. *)
Definition labels_for (h : gmap loc (list string)) (settings : GlobalSettings.t) : list string :=
  let fallback := fresh (dom h) in
  default [] (<[fallback := ["dotfiles-kaizen"]]> h
                !! default fallback (GlobalSettings.issue_labels settings)).

(** The label list the configuration designates, or the default one. *)
Definition configured_labels (h : gmap loc (list string)) (settings : GlobalSettings.t)
    : list string :=
  match GlobalSettings.issue_labels settings with
  | Some l => default [] (h !! l)
  | None => ["dotfiles-kaizen"]
  end.

(** The label list of the configuration is a list object of the store. *)
Definition labels_allocated (h : gmap loc (list string)) (settings : GlobalSettings.t) : Prop :=
  ∀ l, GlobalSettings.issue_labels settings = Some l → is_Some (h !! l).

Definition labels_sent (r : request) : option (list string) :=
  match r with
  | GitHubCreateIssue _ _ _ labels _ => Some labels
  | _ => None
  end.

(** ** Sample inputs *)

Definition doc_other : string := "## Other Section" +:+ nl +:+ "Content".

Definition doc_two_sections : string :=
  str_join nl [""; "## Gap Analysis"; "This is the gap analysis content."; "";
               "## Recommendations"; "These are recommendations."; ""].

Definition doc_subheading : string :=
  str_join nl ["## A"; "foo"; "### B"; "bar"; "## B"; "baz"].

Definition doc_deeper_heading_first : string :=
  str_join nl ["### A"; "x"; "## A"; "foo"; "## B"; "bar"].

Definition sample_domain : Domain.t :=
  Domain.mk "test-domain" "Test Domain" "Test description" ["**/*.md"]
    (SearchHints.mk ["test"; "keyword"] ["area1"; "area2"] None (Some ["exclude"])).

Definition sample_config : Config.t :=
  Config.mk (Some [sample_domain])
    (Some (GlobalSettings.mk (Some 5%Z) (Some 0.25%float) (Some 1%positive))).

Definition sample_kaizen : DotfilesKaizen.t :=
  DotfilesKaizen.mk sample_config (TavilyClient.mk "test") (AnthropicClient.mk "test")
    (GitHubClient.mk "test" "test/repo").

(** The store holds the label list of [sample_config]; nothing has happened
    yet. *)
Definition sample_state : state := State {[ 1%positive := ["test-label"] ]} [].

Definition sample_research : ResearchOutput.t :=
  ResearchOutput.mk [SearchResult.mk "Source 1" "https://example.com/1" "Content 1" 0.75%float]
    "A summary." "test keyword area1 area2 2026".

Definition sample_analysis : AnalysisOutput.t :=
  AnalysisOutput.mk "" "" "" "Nothing to change.".

Definition sample_issue : Issue.t := Issue.mk 42 "https://github.com/test/repo/issues/42".

Definition docs_skill : Domain.t :=
  Domain.mk "docs-skill" "Docs Skill" "Documentation skill" []
    (SearchHints.mk ["skill"; "docs"] ["clarity"] None (Some ["spam"])).

Definition sample_results : TavilyResponse.t :=
  TavilyResponse.mk
    (Some [TavilyResult.mk "Writing skills" "https://example.com/a" "Clear docs." 0.75%float;
           TavilyResult.mk "Offers" "https://example.com/b" "Pure SPAM here." 0.5%float])
    None.

(** What [str.lower] answers on the texts of the examples that are not ASCII;
    other text is left as it is, as [str.lower] leaves text without an
    upper-case letter. *)
Definition sample_lower (s : string) : string :=
  if String.eqb s "CAFÉ" then "café"
  else if String.eqb s "ΟΔΟΣ" then "οδος"
  else if String.eqb s "ΟΔΟΣΑ" then "οδοσα"
  else s.

(** An environment whose issue search answers [found], whose other services
    succeed, and whose clock stands still. *)
Definition sample_env (found : outcome IssueSearch.t) : Env.t :=
  Env.mk (λ _ _, Response sample_results)
    (λ _ _, Response (AnthropicResponse.mk [ContentBlock.mk "## Gap Analysis"]))
    (λ _ _, Response (Issue.mk 7 "https://github.com/test/repo/issues/7"))
    (λ _ _, found)
    (λ _ _, Response (Comment.mk 1))
    (λ _, Datetime.mk 2026 1 15 9 30 0)
    sample_lower.

(** An environment in which every request fails. *)
Definition offline : requests_error := RequestsError "ConnectionError" "connection refused".

Definition offline_env : Env.t :=
  Env.mk (λ _ _, Failure offline) (λ _ _, Failure offline) (λ _ _, Failure offline)
    (λ _ _, Failure offline) (λ _ _, Failure offline) (λ _, Datetime.mk 2026 1 15 9 30 0)
    sample_lower.

(** ** The rest of the module: construction, local files, analysis, the run *)

(** *** Whole dictionaries *)

(** The records above hold the keys the report and collect phases read.  The
    analysis phase and the run read two more: the analysis context of a
    domain and the content base of the orchestrator.  The records below hold
    the whole objects and project onto the earlier ones. *)
Module AnalysisContext.
Record t := mk {
  current_version : option string;
  priority_aspects : list string;
}.
End AnalysisContext.

Module DomainDict.
Record t := mk {
  view : Domain.t;
  analysis_context : AnalysisContext.t;
}.
End DomainDict.

Module ConfigDict.
Record t := mk {
  domains : option (list DomainDict.t);
  global_settings : option GlobalSettings.t;
}.
Definition view (config : t) : Config.t :=
  Config.mk (fmap (M:=option) (fmap (M:=list) DomainDict.view) (domains config))
    (global_settings config).
End ConfigDict.

(** A [pathlib.Path], built from a text.  The program builds paths, hands
    them to [glob] and interpolates those [glob] yields; it compares none. *)
Inductive path :=
| Path (text : string).

Module Kaizen.
Record t := mk {
  config : ConfigDict.t;
  content_base : path;
  tavily_client : TavilyClient.t;
  anthropic_client : AnthropicClient.t;
  github_client : GitHubClient.t;
}.
Definition view (self : t) : DotfilesKaizen.t :=
  DotfilesKaizen.mk (ConfigDict.view (config self)) (tavily_client self)
    (anthropic_client self) (github_client self).
End Kaizen.

(** [get_domain_config] on a configuration that follows the schema: the
    domains are a list of dicts, each with an ["id"] that is a string (see
    [get_domain_config_schema]). *)
Fixpoint get_domain_config_dict_loop (domains : list DomainDict.t) (domain_id : string)
    : option DomainDict.t :=
  match domains with
  | [] => None
  | domain :: rest =>
      if String.eqb (Domain.id (DomainDict.view domain)) domain_id then Some domain
      else get_domain_config_dict_loop rest domain_id
  end.

Definition get_domain_config_dict (config : ConfigDict.t) (domain_id : string)
    : option DomainDict.t :=
  get_domain_config_dict_loop (default [] (ConfigDict.domains config)) domain_id.

(** *** The host: environment variables and files *)

(** An entry [base.glob(pattern)] yields: the path as printed, and the path
    relative to the base. *)
Module DirEntry.
Record t := mk {
  path : string;
  relative_path : string;
}.
End DirEntry.

(** What [read_text(encoding="utf-8")] does: the text, an [OSError] (with what
    [str] prints for it), or an exception of another class, such as the
    [ValueError] of a file that is not UTF-8. *)
Inductive read_outcome :=
| FileText (content : string)
| FileOSError (message : string)
| FileError (e : exn).

(** The host gives [os.environ], what [load_config] returns or raises for a
    path, what [glob] yields or raises for a base and a pattern, and what
    reading a file does.  An exception of a class [exn] does not name stands
    as [Exception]: no handler of the module tells it apart. *)
Module Host.
Record t := mk {
  environ : gmap string string;
  load_config : string → result ConfigDict.t;
  glob : path → string → result (list DirEntry.t);
  read_text : string → read_outcome;
}.
End Host.

(** The state of a run with the lines written to standard error. *)
Record world := World {
  inner : state;
  stderr : list string;
}.

Definition P (A : Type) : Type := world → result A * world.

Definition P_ret {A} (a : A) : P A := λ w, (Ok a, w).

Definition P_bind {A B} (f : A → P B) (m : P A) : P B :=
  λ w, match m w with
       | (Ok a, w') => f a w'
       | (Raise e, w') => (Raise e, w')
       end.

#[global] Instance P_mret : MRet P := @P_ret.
#[global] Instance P_mbind : MBind P := @P_bind.

(** Effectful code that leaves standard error alone. *)
Definition within {A} (m : M A) : P A :=
  λ w, let '(r, s) := m (inner w) in (r, World s (stderr w)).

(** A [result] computed without effects. *)
Definition lift_P {A} (r : result A) : P A := λ w, (r, w).

(** [print(line, file=sys.stderr)] *)
Definition eprint (line : string) : P unit :=
  λ w, (Ok tt, World (inner w) (stderr w ++ [line])).

(** *** Construction of the clients *)

(** The truth value of an optional string: [None] and the empty string are
    false. *)
Definition truthy (x : option string) : bool :=
  match x with
  | Some (String _ _) => true
  | _ => false
  end.

(** [x or y] *)
Definition py_or (x y : option string) : option string :=
  if truthy x then x else y.

Definition TavilyClient___init__ (environ : gmap string string) (api_key : option string)
    : result TavilyClient.t :=
  let api_key := py_or api_key (environ !! "TAVILY_API_KEY") in
  if negb (truthy api_key) then
    Raise (ValueError "TAVILY_API_KEY environment variable is not set")
  else Ok (TavilyClient.mk (default "" api_key)).

Definition AnthropicClient___init__ (environ : gmap string string) (api_key : option string)
    : result AnthropicClient.t :=
  let api_key := py_or api_key (environ !! "ANTHROPIC_API_KEY") in
  if negb (truthy api_key) then
    Raise (ValueError "ANTHROPIC_API_KEY environment variable is not set")
  else Ok (AnthropicClient.mk (default "" api_key)).

Definition GitHubClient___init__ (environ : gmap string string)
    (token repository : option string) : result GitHubClient.t :=
  let token := py_or token (environ !! "GITHUB_TOKEN") in
  let repository := py_or repository (environ !! "GITHUB_REPOSITORY") in
  if negb (truthy token) then
    Raise (ValueError "GITHUB_TOKEN environment variable is not set")
  else if negb (truthy repository) then
    Raise (ValueError "GITHUB_REPOSITORY environment variable is not set")
  else Ok (GitHubClient.mk (default "" token) (default "" repository)).

(** [DotfilesKaizen.__init__] *)
Definition DotfilesKaizen___init__ (environ : gmap string string) (config : ConfigDict.t)
    (content_base : string) (issue_repository github_token : option string)
    : result Kaizen.t :=
  tavily_client ← TavilyClient___init__ environ None;
  anthropic_client ← AnthropicClient___init__ environ None;
  github_client ← GitHubClient___init__ environ github_token issue_repository;
  Ok (Kaizen.mk config (Path content_base) tavily_client anthropic_client github_client).

(** *** The prompts of the analysis *)

Definition system_prompt_text : string :=
  str_join nl [
    "";
    "あなたはClaude Code Skillsドキュメントの改善を専門とする改善アドバイザーです。";
    "最新の調査結果とベストプラクティスに基づいて、現在のSkillドキュメントを分析し、実行可能な推奨事項を提供してください。";
    "";
    "改善に焦点を当てる領域:";
    "- Skillドキュメントの品質と明確性";
    "- サンプルコードの関連性と正確性";
    "- ベストプラクティスガイダンス";
    "- ユーザーエクスペリエンスと使いやすさ";
    "";
    "以下のMarkdown形式で日本語で出力してください:";
    "";
    "## ギャップ分析";
    "(現在のSkillドキュメントと最新のベストプラクティス/トレンドとのギャップを分析)";
    "";
    "## 推奨事項";
    "### 高優先度";
    "- [ ] (Skillドキュメントの改善アクションアイテム)";
    "";
    "### 中優先度";
    "- [ ] (Skillドキュメントの改善アクションアイテム)";
    "";
    "### 低優先度";
    "- [ ] (Skillドキュメントの改善アクションアイテム)";
    "";
    "## 参考資料";
    "(使用したソースのリスト)";
    ""
  ].

Definition user_prompt_text (domain : DomainDict.t) (priority_aspects : string)
    (research_output : ResearchOutput.t) (current_content : string) : string :=
  str_join nl [
    "";
    "以下のClaude Code Skillを分析してください: " +:+ Domain.name (DomainDict.view domain);
    "";
    "## コンテキスト";
    "- 説明: " +:+ Domain.description (DomainDict.view domain);
    "- 現在のバージョン/状態: "
      +:+ default "不明"
            (AnalysisContext.current_version (DomainDict.analysis_context domain));
    "- 優先事項: " +:+ priority_aspects;
    "";
    "## 最新の調査結果サマリー (2025年)";
    ResearchOutput.summary research_output;
    "";
    "## 主要なソース";
    _format_sources (ResearchOutput.sources research_output);
    "";
    "## 現在のSkillドキュメント";
    current_content;
    "";
    "最新のトレンドとベストプラクティスに基づいて、現在のSkillドキュメントを分析し、改善のための推奨事項を提供してください。";
    "必ず日本語で出力してください。";
    ""
  ].

(** [str(e)] *)
Definition str_exn (e : exn) : string :=
  match e with
  | ValueError msg => msg
  | IndexError msg => msg
  | KeyError key => "'" +:+ key +:+ "'"
  | TypeError msg => msg
  | AttributeError msg => msg
  | RequestException e => error_text e
  | Exception msg => msg
  end.

(** The arguments [parser.parse_args()] returns. *)
Module Args.
Record t := mk {
  domain_id : string;
  config : string;
  content_base : string;
  issue_repo : option string;
  github_token : option string;
}.
End Args.

Section Program.

Variable env : Env.t.
Variable host : Host.t.

(** [read_target_files]: the loop over the files one pattern matches. *)
Fixpoint read_target_files_files (matching_files : list DirEntry.t)
    (content_parts : list string) : P (list string) :=
  match matching_files with
  | [] => mret content_parts
  | file_path :: rest =>
      match Host.read_text host (DirEntry.path file_path) with
      | FileText content =>
          read_target_files_files rest
            (content_parts
               ++ ["### File: " +:+ DirEntry.relative_path file_path +:+ nl +:+ nl +:+ content])
      | FileOSError e =>
          eprint ("Warning: Could not read " +:+ DirEntry.path file_path +:+ ": " +:+ e);;
          read_target_files_files rest content_parts
      | FileError e => lift_P (Raise e)
      end
  end.

(** The loop over the patterns. *)
Fixpoint read_target_files_patterns (target_patterns : list string) (base : path)
    (content_parts : list string) : P (list string) :=
  match target_patterns with
  | [] => mret content_parts
  | pattern :: rest =>
      matching_files ← lift_P (Host.glob host base pattern);
      content_parts ← read_target_files_files matching_files content_parts;
      read_target_files_patterns rest base content_parts
  end.

(** [read_target_files], called with the path the engine keeps:
    [Path(base_path)] of a path is that path. *)
Definition read_target_files (target_patterns : list string) (base_path : path) : P string :=
  content_parts ← read_target_files_patterns target_patterns base_path [];
  mret (match content_parts with
        | [] => "No matching files found."
        | _ :: _ => str_join (nl +:+ nl +:+ "---" +:+ nl +:+ nl) content_parts
        end).

(** [analyze_content] *)
Definition analyze_content (self : DotfilesKaizen.t) (domain : DomainDict.t)
    (research_output : ResearchOutput.t) (current_content : string) : M AnalysisOutput.t :=
  print ("Starting Phase 2: Analysis for " +:+ Domain.name (DomainDict.view domain)
           +:+ "...");;
  let analysis_context := DomainDict.analysis_context domain in
  let priority_aspects :=
    str_join ", " (AnalysisContext.priority_aspects analysis_context) in
  let system_prompt := system_prompt_text in
  let user_prompt := user_prompt_text domain priority_aspects research_output current_content in
  let global_settings :=
    default GlobalSettings.empty (Config.global_settings (DotfilesKaizen.config self)) in
  let temperature :=
    default 0x1.3333333333333p-2%float (GlobalSettings.analysis_temperature global_settings) in
  full_response ← AnthropicClient_generate_response env (DotfilesKaizen.anthropic_client self)
                    system_prompt user_prompt temperature;
  gap_analysis ← lift (_extract_section full_response "Gap Analysis");
  recommendations ← lift (_extract_section full_response "Recommendations");
  implementation_guide ← lift (_extract_section full_response "Implementation Guide");
  mret (AnalysisOutput.mk gap_analysis recommendations implementation_guide full_response).

(** [run_domain_analysis].  A domain that was found is a dictionary with
    keys, so [if not domain:] tests whether none was found. *)
Definition run_domain_analysis (self : Kaizen.t) (domain_id : string) (dry_run : bool)
    : P unit :=
  match get_domain_config_dict (Kaizen.config self) domain_id with
  | None => lift_P (Raise (ValueError ("Domain not found: " +:+ domain_id)))
  | Some domain =>
      research_output ← within (collect_trends env (Kaizen.view self) (DomainDict.view domain));
      current_content ← read_target_files (Domain.target_files (DomainDict.view domain))
                          (Kaizen.content_base self);
      analysis_output ← within (analyze_content (Kaizen.view self) domain research_output
                                  current_content);
      within (report_findings env (Kaizen.view self) (DomainDict.view domain)
                research_output analysis_output)
  end.

(** [main], from the parsed arguments on; the value is the exit status. *)
Definition main (args : Args.t) : world → nat * world :=
  λ w,
    match (config ← lift_P (Host.load_config host (Args.config args));
           kaizen_engine ← lift_P (DotfilesKaizen___init__ (Host.environ host) config
                                     (Args.content_base args) (Args.issue_repo args)
                                     (Args.github_token args));
           run_domain_analysis kaizen_engine (Args.domain_id args) false;;
           within (print "Analysis completed successfully.")) w with
    | (Ok _, w') => (0, w')
    | (Raise e, w') => (1, World (inner w') (stderr w' ++ ["Error: " +:+ str_exn e]))
    end.

End Program.

(** *** Vocabulary of the further properties *)

(** A dict of the configuration document that holds the id of a domain. *)
Definition describes (document : json) (domain : DomainDict.t) : Prop :=
  has_id document (Domain.id (DomainDict.view domain)).

(** An optional string that counts as false: absent or empty. *)
Definition blank (x : option string) : Prop := x = None ∨ x = Some "".

(** The credential a client keeps: the explicit one unless it is blank, else
    the one of the environment; never the empty string. *)
Definition chosen (explicit from_env : option string) (key : string) : Prop :=
  key ≠ "" ∧ (explicit = Some key ∨ (blank explicit ∧ from_env = Some key)).

(** Neither the caller nor the environment gives the credential. *)
Definition missing (explicit from_env : option string) : Prop :=
  blank explicit ∧ blank from_env.

(** The section [read_target_files] makes of a file that was read, and the
    warning it writes for one that could not be. *)
Definition file_section (file_path : DirEntry.t) (content : string) : string :=
  "### File: " +:+ DirEntry.relative_path file_path +:+ nl +:+ nl +:+ content.

Definition file_warning (file_path : DirEntry.t) (e : string) : string :=
  "Warning: Could not read " +:+ DirEntry.path file_path +:+ ": " +:+ e.

Definition is_section (part : string) : Prop := ∃ f content, part = file_section f content.

Definition is_warning (line : string) : Prop := ∃ f e, line = file_warning f e.

Definition section_separator : string := nl +:+ nl +:+ "---" +:+ nl +:+ nl.

(** The sections of the files that can be read, and the warnings of those
    that raise [OSError], in the order of the files. *)
Definition sections_of (host : Host.t) (files : list DirEntry.t) : list string :=
  omap (λ f, match Host.read_text host (DirEntry.path f) with
             | FileText content => Some (file_section f content)
             | _ => None
             end) files.

Definition warnings_of (host : Host.t) (files : list DirEntry.t) : list string :=
  omap (λ f, match Host.read_text host (DirEntry.path f) with
             | FileOSError e => Some (file_warning f e)
             | _ => None
             end) files.

(** Reading the file raises nothing but [OSError]. *)
Definition decodable (host : Host.t) (f : DirEntry.t) : Prop :=
  ∀ e, Host.read_text host (DirEntry.path f) ≠ FileError e.

(** [matched] lists, pattern by pattern, the files [glob] yields. *)
Definition globbed (host : Host.t) (base : path) (patterns : list string)
    (matched : list (list DirEntry.t)) : Prop :=
  Forall2 (λ pattern files, Host.glob host base pattern = Ok files) patterns matched.

(** What the host raised: [glob] on one of the patterns, or reading a file
    that matched one of them. *)
Definition raised_by_host (host : Host.t) (base : path) (patterns : list string)
    (e : exn) : Prop :=
  ∃ pattern, pattern ∈ patterns
    ∧ (Host.glob host base pattern = Raise e
       ∨ ∃ files f, Host.glob host base pattern = Ok files ∧ f ∈ files
           ∧ Host.read_text host (DirEntry.path f) = FileError e).

(** The seconds a trace sleeps, in order. *)
Definition sleeps_of (tr : list event) : list nat :=
  omap (λ e, match e with ESleep seconds => Some seconds | _ => None end) tr.

(** What a call under retry costs and what it cannot do.  It makes [n]
    attempts, three at most, all with the same request, the last event being
    the last request; after the failed attempt numbered [k] it sleeps
    [RETRY_DELAY * k] seconds; only the third attempt raises a [requests]
    failure; and the [Exception] of the statement after the loop is never
    raised. *)
Definition bounded_retry {A} (req : request) (s : state) (out : result A * state) : Prop :=
  ∃ n, 1 ≤ n ≤ MAX_RETRIES
    ∧ heap out.2 = heap s
    ∧ (∃ before, trace out.2 = trace s ++ before ++ [ERequest req])
    ∧ requests_of (new_events s out.2) = replicate n req
    ∧ sleeps_of (new_events s out.2) = (λ k, RETRY_DELAY * k) <$> seq 1 (n - 1)
    ∧ (∀ e, out.1 = Raise (RequestException e) → n = MAX_RETRIES)
    ∧ (∀ msg, out.1 ≠ Raise (Exception msg)).

(** The query [collect_trends] builds in a given year. *)
Definition trend_query (search_hints : SearchHints.t) (year : nat) : string :=
  str_join " " (SearchHints.primary_keywords search_hints) +:+ " "
    +:+ str_join " " (SearchHints.focus_areas search_hints) +:+ " " +:+ pretty year.

(** The request [analyze_content] sends. *)
Definition analysis_request (self : DotfilesKaizen.t) (domain : DomainDict.t)
    (research_output : ResearchOutput.t) (current_content : string) : request :=
  AnthropicMessages system_prompt_text
    (user_prompt_text domain
       (str_join ", " (AnalysisContext.priority_aspects (DomainDict.analysis_context domain)))
       research_output current_content)
    (default 0x1.3333333333333p-2%float
       (GlobalSettings.analysis_temperature (settings_of self))).

(** The phase of the run a request belongs to. *)
Definition phase (r : request) : nat :=
  match r with
  | TavilySearch _ _ _ _ => 1
  | AnthropicMessages _ _ _ => 2
  | GitHubCreateIssue _ _ _ _ _ | GitHubSearchIssues _ | GitHubAddComment _ _ _ => 3
  end.

(** *** A sample host *)

Definition sample_domain_dict : DomainDict.t :=
  DomainDict.mk sample_domain (AnalysisContext.mk (Some "1.0") ["aspect1"; "aspect2"]).

Definition sample_config_dict : ConfigDict.t :=
  ConfigDict.mk (Some [sample_domain_dict]) (Config.global_settings sample_config).

Definition sample_environ : gmap string string :=
  {[ "TAVILY_API_KEY" := "test"; "ANTHROPIC_API_KEY" := "test"; "GITHUB_TOKEN" := "test";
     "GITHUB_REPOSITORY" := "test/repo" ]}.

Definition test_md : DirEntry.t := DirEntry.mk "docs/test.md" "test.md".
Definition other_md : DirEntry.t := DirEntry.mk "docs/other.md" "other.md".
Definition notes_dir : DirEntry.t := DirEntry.mk "docs/notes" "notes".
Definition latin1_txt : DirEntry.t := DirEntry.mk "docs/latin1.txt" "latin1.txt".

Definition not_utf8 : exn :=
  ValueError "'utf-8' codec can't decode byte 0xe9 in position 0: invalid continuation byte".

(** A host with the given environment, the configuration file [config.json],
    and under the base two Markdown files, the directory [notes] and a file
    that is not UTF-8. *)
Definition sample_host (environ : gmap string string) : Host.t :=
  Host.mk environ
    (λ path, if String.eqb path "config.json" then Ok sample_config_dict
             else Raise (Exception ("[Errno 2] No such file or directory: '" +:+ path +:+ "'")))
    (λ base pattern,
       if String.eqb pattern "*.md" || String.eqb pattern "**/*.md" then Ok [test_md; other_md]
       else if String.eqb pattern "n*" then Ok [notes_dir]
       else if String.eqb pattern "*.txt" then Ok [latin1_txt]
       else if String.eqb pattern "*" then Ok [test_md; notes_dir; latin1_txt; other_md]
       else Ok [])
    (λ path,
       if String.eqb path "docs/test.md" then FileText "# Test content"
       else if String.eqb path "docs/other.md" then FileText "# Other content"
       else if String.eqb path "docs/notes"
            then FileOSError "[Errno 21] Is a directory: 'docs/notes'"
       else if String.eqb path "docs/latin1.txt" then FileError not_utf8
       else FileOSError ("[Errno 2] No such file or directory: '" +:+ path +:+ "'")).


(** * Properties *)

(** ** Strings *)

Lemma chars_of_chars l : chars (of_chars l) = l.
Proof. apply String.list_ascii_of_string_of_list_ascii. Qed.

Lemma of_chars_chars s : of_chars (chars s) = s.
Proof. apply String.string_of_list_ascii_of_string. Qed.

Lemma chars_app s1 s2 : chars (s1 +:+ s2) = chars s1 ++ chars s2.
Proof. induction s1 as [|c s1 IH]; simpl; [done|]. unfold chars in *. simpl. by rewrite IH. Qed.

Lemma chars_inj s1 s2 : chars s1 = chars s2 → s1 = s2.
Proof. intros H. by rewrite <-(of_chars_chars s1), <-(of_chars_chars s2), H. Qed.

Lemma length_chars s : length (chars s) = String.length s.
Proof. induction s as [|c s IH]; simpl; [done|]. unfold chars in *. simpl. by rewrite IH. Qed.

Lemma len_chars s : len s = Z.of_nat (length (chars s)).
Proof. unfold len. by rewrite length_chars. Qed.

Lemma starts_with_prefix sub l : starts_with sub l = true ↔ sub `prefix_of` l.
Proof.
  revert l. induction sub as [|a sub IH]; intros l; simpl.
  - split; [intros _; apply prefix_nil | done].
  - destruct l as [|b l]; simpl.
    + split; [done | intros H; by apply prefix_nil_inv in H].
    + rewrite andb_true_iff, IH, Ascii.eqb_eq. split.
      * intros [-> H]. by apply prefix_cons.
      * intros H. split; [by eapply prefix_cons_inv_1 | by eapply prefix_cons_inv_2].
Qed.

Lemma find_chars_spec sub l i :
  (find_chars sub l i = (-1)%Z ∧ ∀ k, k ≤ length l → ¬ sub `prefix_of` drop k l) ∨
  (∃ k, k ≤ length l ∧ find_chars sub l i = (i + Z.of_nat k)%Z ∧
        sub `prefix_of` drop k l ∧ ∀ j, j < k → ¬ sub `prefix_of` drop j l).
Proof.
  revert i. induction l as [|c l IH]; intros i; simpl.
  - destruct (starts_with sub []) eqn:E.
    + right. exists 0. rewrite Z.add_0_r. apply starts_with_prefix in E.
      split_and!; [done | done | done | lia].
    + left. split; [done|]. intros k _ H. rewrite drop_nil in H.
      apply starts_with_prefix in H. congruence.
  - destruct (starts_with sub (c :: l)) eqn:E.
    + right. exists 0. rewrite Z.add_0_r. apply starts_with_prefix in E.
      split_and!; [simpl; lia | done | done | lia].
    + assert (¬ sub `prefix_of` c :: l) as E'.
      { intros H. apply starts_with_prefix in H. congruence. }
      destruct (IH (i + 1)%Z) as [[-> Hno]|(k & Hk & -> & Hp & Hmin)].
      * left. split; [done|]. intros [|k] Hk; simpl; [done|]. apply Hno. lia.
      * right. exists (S k). split_and!; [simpl; lia | lia | done |].
        intros [|j] Hj; simpl; [done|]. apply Hmin. lia.
Qed.

Lemma find_chars_first sub l i k :
  sub `prefix_of` drop k l → k ≤ length l →
  (∀ j, j < k → ¬ sub `prefix_of` drop j l) →
  find_chars sub l i = (i + Z.of_nat k)%Z.
Proof.
  intros Hp Hk Hmin. destruct (find_chars_spec sub l i) as [[_ Hno]|(k' & Hk' & -> & Hp' & Hmin')].
  - by destruct (Hno k Hk).
  - destruct (Nat.lt_trichotomy k k') as [H|[->|H]]; [|done|].
    + by destruct (Hmin' k H).
    + by destruct (Hmin k' H).
Qed.

Lemma find_chars_absent sub l i :
  (∀ k, ¬ sub `prefix_of` drop k l) → find_chars sub l i = (-1)%Z.
Proof.
  intros Hno. destruct (find_chars_spec sub l i) as [[-> _]|(k & _ & _ & Hp & _)]; [done|].
  by destruct (Hno k).
Qed.

(** An occurrence at position [k] is a decomposition whose first part has
    length [k]. *)
Lemma prefix_drop_decompose (sub l : list ascii) k :
  k ≤ length l →
  sub `prefix_of` drop k l ↔ ∃ p q, l = p ++ sub ++ q ∧ length p = k.
Proof.
  intros Hk. split.
  - intros [q Hq]. exists (take k l), q. split.
    + by rewrite <-Hq, take_drop.
    + rewrite length_take. lia.
  - intros (p & q & -> & <-). rewrite drop_app_length. by exists q.
Qed.

Lemma prefix_drop_occurs (sub l : list ascii) k :
  sub `prefix_of` drop k l → ∃ p q, l = p ++ sub ++ q ∧ (sub = [] ∨ length p = k).
Proof.
  intros H. destruct (decide (k ≤ length l)) as [Hk|Hk].
  - apply prefix_drop_decompose in H as (p & q & ? & ?); [|done]. exists p, q. auto.
  - rewrite drop_ge in H by lia. apply prefix_nil_inv in H as ->.
    exists l, []. rewrite app_nil_r. auto.
Qed.

(** [sub in s] decides whether [s] decomposes around [sub]. *)
Lemma str_in_true sub s :
  str_in sub s = true ↔ ∃ p q, s = p +:+ sub +:+ q.
Proof.
  unfold str_in. rewrite negb_true_iff, Z.eqb_neq. split.
  - intros H. destruct (find_chars_spec (chars sub) (chars s) 0) as [[? _]|(k & Hk & _ & Hp & _)];
      [done|].
    apply prefix_drop_decompose in Hp as (p & q & Hs & _); [|done].
    exists (of_chars p), (of_chars q). apply chars_inj.
    by rewrite !chars_app, !chars_of_chars.
  - intros (p & q & ->) H.
    destruct (find_chars_spec (chars sub) (chars (p +:+ sub +:+ q)) 0)
      as [[_ Hno]|(k & _ & Hk & _)]; [|lia].
    apply (Hno (length (chars p))).
    + rewrite !chars_app, !length_app. lia.
    + rewrite !chars_app, drop_app_length. by apply prefix_app_r.
Qed.

Lemma str_in_false sub s :
  str_in sub s = false ↔ ∀ p q, s ≠ p +:+ sub +:+ q.
Proof.
  rewrite <-not_true_iff_false, str_in_true. split.
  - intros H p q ->. apply H. by exists p, q.
  - intros H (p & q & ->). by apply (H p q).
Qed.

(** ** Slices *)

Lemma str_slice_middle a b c :
  str_slice (a +:+ b +:+ c) (len a) (len a + len b) = b.
Proof.
  unfold str_slice, slice_index. rewrite !len_chars, !chars_app, !length_app.
  rewrite (proj2 (Z.ltb_ge (Z.of_nat (length (chars a))) 0)) by lia.
  rewrite (proj2 (Z.ltb_ge (Z.of_nat (length (chars a)) + Z.of_nat (length (chars b))) 0)) by lia.
  rewrite !Z.min_l by lia.
  replace (Z.to_nat _) with (length (chars b)) by lia.
  rewrite Nat2Z.id, drop_app_length, take_app_length. apply of_chars_chars.
Qed.

Lemma str_slice_from_end a b : str_slice_from (a +:+ b) (len a) = b.
Proof.
  unfold str_slice_from, str_slice, slice_index. rewrite !len_chars, !chars_app, !length_app.
  rewrite (proj2 (Z.ltb_ge (Z.of_nat (length (chars a))) 0)) by lia.
  rewrite (proj2 (Z.ltb_ge (Z.of_nat (length (chars a) + length (chars b))) 0)) by lia.
  rewrite !Z.min_l by lia.
  replace (Z.to_nat (_ - _)) with (length (chars b)) by lia.
  rewrite Nat2Z.id, drop_app_length, firstn_all. apply of_chars_chars.
Qed.

Lemma str_slice_all s n : (len s ≤ n)%Z → str_slice s 0 n = s.
Proof.
  intros Hn. unfold str_slice, slice_index. rewrite len_chars in *. simpl.
  rewrite (proj2 (Z.ltb_ge (n) 0)) by lia.
  rewrite Z.min_r, Z.min_l by lia. rewrite Z.sub_0_r, Nat2Z.id. simpl.
  rewrite firstn_all. apply of_chars_chars.
Qed.

Lemma str_slice_take s n :
  (0 ≤ n ≤ len s)%Z → str_slice s 0 n = of_chars (take (Z.to_nat n) (chars s)).
Proof.
  intros Hn. unfold str_slice, slice_index. rewrite len_chars in *. simpl.
  rewrite (proj2 (Z.ltb_ge (n) 0)) by lia.
  rewrite !Z.min_l by lia. by rewrite Z.sub_0_r.
Qed.

(** ** Code points *)

Lemma code_points_cons c l : ∃ cp cps, code_points (c :: l) = (c :: cp) :: cps.
Proof.
  cbn [code_points]. destruct (code_points l) as [|cp cps]; [by eexists _, _|].
  destruct (continues l); by eexists _, _.
Qed.

Lemma concat_code_points l : concat (code_points l) = l.
Proof.
  induction l as [|c l IH]; [done|]. cbn [code_points].
  destruct (code_points l) as [|cp cps]; [by rewrite <-IH|].
  destruct (continues l); cbn [concat app] in *; by rewrite IH.
Qed.

(** The first code points of a text are the code points of what they
    spell. *)
Lemma code_points_take l n :
  code_points (concat (take n (code_points l))) = take n (code_points l).
Proof.
  revert n. induction l as [|c l IH]; intros n; [by destruct n|].
  cbn [code_points]. destruct l as [|d l]; [by destruct n as [|[|n]]|].
  destruct (code_points_cons d l) as (cp & cps & Hd). rewrite Hd in IH |- *.
  cbn [continues]. destruct (is_continuation d) eqn:Ed.
  - destruct n as [|n]; [done|]. specialize (IH (S n)).
    cbn [take concat app] in IH |- *.
    change (code_points (c :: d :: cp ++ concat (take n cps)))
      with (match code_points (d :: cp ++ concat (take n cps)) with
            | cp' :: cps' =>
                if is_continuation d then (c :: cp') :: cps' else [c] :: cp' :: cps'
            | [] => [[c]]
            end).
    by rewrite IH, Ed.
  - destruct n as [|n]; [done|]. cbn [take concat app].
    specialize (IH n). destruct n as [|n]; [done|].
    cbn [take concat app] in IH |- *.
    change (code_points (c :: d :: cp ++ concat (take n cps)))
      with (match code_points (d :: cp ++ concat (take n cps)) with
            | cp' :: cps' =>
                if is_continuation d then (c :: cp') :: cps' else [c] :: cp' :: cps'
            | [] => [[c]]
            end).
    by rewrite IH, Ed.
Qed.

Lemma str_prefix_short s n : (str_len s ≤ Z.of_nat n)%Z → str_prefix s n = s.
Proof.
  unfold str_len, str_prefix. intros Hn.
  rewrite take_ge by lia. rewrite concat_code_points. apply of_chars_chars.
Qed.

Lemma str_prefix_long s n :
  (Z.of_nat n ≤ str_len s)%Z →
  str_len (str_prefix s n) = Z.of_nat n ∧ ∃ rest, s = str_prefix s n +:+ rest.
Proof.
  unfold str_len, str_prefix. intros Hn. split.
  - rewrite chars_of_chars, code_points_take, length_take. lia.
  - exists (of_chars (concat (drop n (code_points (chars s))))). apply chars_inj.
    by rewrite chars_app, !chars_of_chars, <-concat_app, take_drop, concat_code_points.
Qed.

(** ** Trimming *)

Lemma strip_token_Some tokens l rest :
  strip_token tokens l = Some rest → ∃ token, token ∈ tokens ∧ l = token ++ rest.
Proof.
  induction tokens as [|t tokens IH]; simpl; [done|].
  destruct (starts_with t l) eqn:E.
  - intros [= <-]. apply starts_with_prefix in E as [k ->].
    exists t. split; [by left|]. by rewrite drop_app_length.
  - intros (token & ? & ?)%IH. exists token. split; [by right|done].
Qed.

Lemma strip_token_None tokens l :
  strip_token tokens l = None ↔ ∀ token, token ∈ tokens → ¬ token `prefix_of` l.
Proof.
  induction tokens as [|t tokens IH]; simpl.
  - split; [|done]. intros _ token Hin. by apply elem_of_nil in Hin.
  - destruct (starts_with t l) eqn:E.
    + split; [done|]. intros H. destruct (H t); [by left|]. by apply starts_with_prefix.
    + rewrite IH. split.
      * intros H token [->|Hin]%elem_of_cons; [|by apply H].
        intros Hp%starts_with_prefix. congruence.
      * intros H token Hin. apply H. by right.
Qed.

Lemma lstrip_chars_suffix tokens fuel l : ∃ a, l = a ++ lstrip_chars tokens fuel l.
Proof.
  revert l. induction fuel as [|fuel IH]; intros l; simpl; [by exists []|].
  destruct (strip_token tokens l) as [rest|] eqn:E; [|by exists []].
  apply strip_token_Some in E as (token & _ & ->).
  destruct (IH rest) as [a Ha]. exists (token ++ a). by rewrite <-app_assoc, <-Ha.
Qed.

Lemma lstrip_chars_fixed tokens fuel l :
  strip_token tokens l = None → lstrip_chars tokens fuel l = l.
Proof. intros H. destruct fuel; simpl; [done|]. by rewrite H. Qed.

(** With fuel for every byte, nothing is left to remove. *)
Lemma lstrip_chars_head tokens fuel l :
  Forall (λ token, token ≠ []) tokens → length l ≤ fuel →
  strip_token tokens (lstrip_chars tokens fuel l) = None.
Proof.
  rewrite Forall_forall. intros Hne. revert l.
  induction fuel as [|fuel IH]; intros l Hlen; simpl.
  - destruct l; [|simpl in Hlen; lia]. apply strip_token_None.
    intros token Hin ->%prefix_nil_inv. by apply (Hne []).
  - destruct (strip_token tokens l) as [rest|] eqn:E; [|done].
    apply IH. apply strip_token_Some in E as (token & Hin & ->).
    rewrite length_app in Hlen. specialize (Hne token Hin).
    destruct token; [done|]. simpl in Hlen. lia.
Qed.

Lemma whitespace_nonempty :
  Forall (λ token, token ≠ []) whitespace
  ∧ Forall (λ token, token ≠ []) (@rev ascii <$> whitespace).
Proof. split; vm_compute; repeat constructor; discriminate. Qed.

Lemma strip_chars_infix l : ∃ a b, l = a ++ strip_chars l ++ b.
Proof.
  unfold strip_chars. cbn zeta.
  destruct (lstrip_chars_suffix whitespace (length l) l) as [a Ha].
  set (left := lstrip_chars whitespace (length l) l) in *.
  destruct (lstrip_chars_suffix (@rev ascii <$> whitespace) (length left) (rev left)) as [b Hb].
  exists a, (rev b). rewrite <-rev_app_distr, <-Hb, rev_involutive. done.
Qed.

Lemma strip_chars_idemp l : strip_chars (strip_chars l) = strip_chars l.
Proof.
  destruct whitespace_nonempty as [Hw Hr].
  unfold strip_chars at 2. cbn zeta.
  set (left := lstrip_chars whitespace (length l) l).
  set (right := lstrip_chars (@rev ascii <$> whitespace) (length left) (rev left)).
  assert (strip_token whitespace left = None) as Hleft.
  { by apply lstrip_chars_head. }
  assert (strip_token (@rev ascii <$> whitespace) right = None) as Hright.
  { apply lstrip_chars_head; [done|]. by rewrite length_rev. }
  assert (strip_token whitespace (rev right) = None) as Hfront.
  { apply strip_token_None. intros token Hin Hp.
    rewrite strip_token_None in Hleft. apply (Hleft token Hin).
    destruct (lstrip_chars_suffix (@rev ascii <$> whitespace) (length left) (rev left)) as [b Hb].
    fold right in Hb. apply (f_equal (@rev ascii)) in Hb. rewrite rev_involutive, rev_app_distr in Hb.
    rewrite Hb. by apply prefix_app_r. }
  unfold strip_chars. cbn zeta.
  rewrite (lstrip_chars_fixed _ _ _ Hfront), rev_involutive.
  by rewrite (lstrip_chars_fixed _ _ _ Hright).
Qed.

Lemma str_strip_idemp s : str_strip (str_strip s) = str_strip s.
Proof. unfold str_strip. by rewrite chars_of_chars, strip_chars_idemp. Qed.

Lemma str_strip_infix s : ∃ a b, s = a +:+ str_strip s +:+ b.
Proof.
  destruct (strip_chars_infix (chars s)) as (a & b & H).
  exists (of_chars a), (of_chars b). apply chars_inj.
  rewrite !chars_app, !chars_of_chars. unfold str_strip. by rewrite chars_of_chars.
Qed.

Lemma str_app_assoc (a b c : string) : (a +:+ b) +:+ c = a +:+ b +:+ c.
Proof. apply chars_inj. by rewrite !chars_app, app_assoc. Qed.

(** ** [_extract_section] *)

(** The marker of a second-level header starts with the only newline it
    holds, so an occurrence cannot begin inside [body] and end in a marker
    that follows it. *)
Lemma h2_marker_no_straddle (body rest : list ascii) j :
  j < length body →
  ¬ chars h2_marker `prefix_of` drop j body →
  ¬ chars h2_marker `prefix_of` drop j (body ++ chars h2_marker ++ rest).
Proof.
  intros Hj Hno. rewrite drop_app_le by lia.
  assert (drop j body ≠ []) as Hne.
  { intros H%(f_equal length). rewrite length_drop in H. simpl in H. lia. }
  rewrite <-starts_with_prefix in Hno |- *.
  change (chars h2_marker) with ["010"; "#"; "#"; " "]%char.
  destruct (drop j body) as [|c1 [|c2 [|c3 [|c4 b]]]]; [done|..];
    cbn [starts_with app] in *; intros H; [exfalso..|done];
    rewrite !andb_true_iff, !Ascii.eqb_eq in H; destruct_and!; discriminate.
Qed.

Lemma str_find_from_0 s sub : str_find s sub 0 = find_chars (chars sub) (chars s) 0.
Proof.
  unfold str_find. simpl. rewrite (proj2 (Z.ltb_ge (len s) 0)); [done|]. unfold len. lia.
Qed.

Lemma str_index_first pre sub post :
  (∀ p q, pre +:+ sub +:+ post = p +:+ sub +:+ q → String.length pre ≤ String.length p) →
  str_index (pre +:+ sub +:+ post) sub = Ok (len pre).
Proof.
  intros Hfirst. unfold str_index. rewrite str_find_from_0.
  rewrite (find_chars_first _ _ _ (length (chars pre))).
  - rewrite Z.add_0_l, <-len_chars. rewrite (proj2 (Z.eqb_neq _ _)); [done|]. unfold len. lia.
  - rewrite !chars_app, drop_app_length. by apply prefix_app_r.
  - rewrite !chars_app, !length_app. lia.
  - intros j Hj Hp. apply prefix_drop_decompose in Hp as (p & q & Hpq & Hlen).
    + specialize (Hfirst (of_chars p) (of_chars q)).
      rewrite <-length_chars, <-(length_chars (of_chars p)), chars_of_chars in Hfirst.
      enough (length (chars pre) ≤ length p) by lia. apply Hfirst.
      apply chars_inj. by rewrite Hpq, !chars_app, !chars_of_chars.
    + rewrite !chars_app, !length_app. lia.
Qed.

Lemma str_index_absent s sub :
  (∀ p q, s ≠ p +:+ sub +:+ q) → ∃ msg, str_index s sub = Raise (ValueError msg).
Proof.
  intros Hno. unfold str_index. rewrite str_find_from_0, find_chars_absent; [by eexists|].
  intros k (p & q & Hpq & _)%prefix_drop_occurs.
  apply (Hno (of_chars p) (of_chars q)). apply chars_inj.
  by rewrite !chars_app, !chars_of_chars.
Qed.

Lemma str_find_next_marker a body rest :
  (∀ p q, body ≠ p +:+ h2_marker +:+ q) →
  str_find (a +:+ body +:+ h2_marker +:+ rest) h2_marker (len a) = (len a + len body)%Z.
Proof.
  intros Hno. unfold str_find.
  rewrite (proj2 (Z.ltb_ge (len a) 0)) by (unfold len; lia).
  rewrite (proj2 (Z.ltb_ge _ _)) by (rewrite !len_chars, !chars_app, !length_app; lia).
  rewrite len_chars, Nat2Z.id, !chars_app, drop_app_length, (len_chars body).
  assert (∀ j, ¬ chars h2_marker `prefix_of` drop j (chars body)) as Hno'.
  { intros j (p & q & Hpq & _)%prefix_drop_occurs.
    apply (Hno (of_chars p) (of_chars q)). apply chars_inj.
    by rewrite !chars_app, !chars_of_chars. }
  apply find_chars_first.
  - rewrite drop_app_length. by apply prefix_app_r.
  - rewrite !length_app. lia.
  - intros j Hj. by apply h2_marker_no_straddle.
Qed.

(** C7.  When the text does not contain the second-level header of the
    requested section, [_extract_section] returns the empty string and raises
    nothing. *)
Theorem extract_section_missing_header text section_name :
  (∀ pre post, text ≠ pre +:+ ("## " +:+ section_name) +:+ post) →
  _extract_section text section_name = Ok "".
Proof.
  intros Hno. unfold _extract_section.
  destruct (str_index_absent text ("## " +:+ section_name) Hno) as [msg Hidx].
  cbn [mbind]. unfold result_mbind. by rewrite Hidx.
Qed.

Lemma extract_section_missing_header_witness :
  (∀ pre post, doc_other ≠ pre +:+ ("## " +:+ "Gap Analysis") +:+ post) ∧
  _extract_section doc_other "Gap Analysis" = Ok "".
Proof.
  assert (∀ pre post, doc_other ≠ pre +:+ ("## " +:+ "Gap Analysis") +:+ post) as H.
  { apply str_in_false. vm_compute. reflexivity. }
  split; [exact H | exact (extract_section_missing_header doc_other "Gap Analysis" H)].
Defined.

(** The last section runs to the end of the text. *)
Lemma extract_section_last pre section_name body :
  let header := "## " +:+ section_name in
  (∀ p q, pre +:+ header +:+ body = p +:+ header +:+ q → String.length pre ≤ String.length p) →
  (∀ p q, body ≠ p +:+ h2_marker +:+ q) →
  _extract_section (pre +:+ header +:+ body) section_name = Ok (str_strip body).
Proof.
  intros header Hfirst Hnext. unfold _extract_section. fold header. fold h2_marker.
  rewrite (str_index_first pre header body Hfirst).
  cbn [mbind result_mbind result_bind try_except_ValueError].
  assert (len pre + len header = len (pre +:+ header))%Z as ->.
  { rewrite !len_chars, chars_app, length_app. lia. }
  rewrite <-str_app_assoc.
  assert (str_find ((pre +:+ header) +:+ body) h2_marker (len (pre +:+ header)) = (-1)%Z)
    as ->.
  { unfold str_find.
    rewrite (proj2 (Z.ltb_ge (len (pre +:+ header)) 0)) by (unfold len; lia).
    rewrite (proj2 (Z.ltb_ge _ _)) by (rewrite !len_chars, !chars_app, !length_app; lia).
    rewrite len_chars, Nat2Z.id, (chars_app (pre +:+ header)), drop_app_length.
    apply find_chars_absent. intros k (p & q & Hpq & _)%prefix_drop_occurs.
    apply (Hnext (of_chars p) (of_chars q)). apply chars_inj.
    by rewrite !chars_app, !chars_of_chars. }
  cbn [Z.eqb]. by rewrite str_slice_from_end.
Qed.

(** C3, as amended.  Let the text be [pre], the header ["## A"], [body], the
    marker of the next second-level header and the rest, where the string
    ["## A"] does not occur earlier in the text and [body] holds no marker.
    Extracting [A] returns [body] with surrounding whitespace trimmed, the
    whitespace being that of [str.strip], not only of ASCII; the result
    holds no marker of a second-level header, and trimming it again changes
    nothing. *)
Theorem extract_section_between_headers pre section_name body rest :
  let header := "## " +:+ section_name in
  let text := pre +:+ header +:+ body +:+ h2_marker +:+ rest in
  (∀ p q, text = p +:+ header +:+ q → String.length pre ≤ String.length p) →
  (∀ p q, body ≠ p +:+ h2_marker +:+ q) →
  _extract_section text section_name = Ok (str_strip body)
  ∧ (∀ p q, str_strip body ≠ p +:+ h2_marker +:+ q)
  ∧ str_strip (str_strip body) = str_strip body.
Proof.
  intros header text Hfirst Hnext. split_and!.
  - unfold _extract_section. fold header. fold h2_marker.
    pose proof (str_index_first pre header (body +:+ h2_marker +:+ rest) Hfirst) as Hidx.
    change (str_index text header = Ok (len pre)) in Hidx. rewrite Hidx.
    cbn [mbind result_mbind result_bind try_except_ValueError].
    assert (text = (pre +:+ header) +:+ body +:+ h2_marker +:+ rest) as Htext.
    { unfold text. by rewrite str_app_assoc. }
    assert (len pre + len header = len (pre +:+ header))%Z as Hlen.
    { rewrite !len_chars, chars_app, length_app. lia. }
    rewrite Hlen, Htext, (str_find_next_marker _ _ _ Hnext).
    rewrite (proj2 (Z.eqb_neq _ _)) by (unfold len; lia).
    by rewrite str_slice_middle.
  - intros p q Hpq. destruct (str_strip_infix body) as (a & b & Hab).
    apply (Hnext (a +:+ p) (q +:+ b)). rewrite Hab at 1. rewrite Hpq.
    by rewrite !str_app_assoc.
  - apply str_strip_idemp.
Qed.

Lemma str_find_bounds_first s sub p q :
  s = p +:+ sub +:+ q → (0 ≤ str_find s sub 0 ≤ len p)%Z.
Proof.
  intros ->. rewrite str_find_from_0.
  destruct (find_chars_spec (chars sub) (chars (p +:+ sub +:+ q)) 0)
    as [[_ Hno]|(k & Hk & -> & Hp & Hmin)].
  - destruct (Hno (length (chars p))).
    + rewrite !chars_app, !length_app. lia.
    + rewrite !chars_app, drop_app_length. by apply prefix_app_r.
  - rewrite len_chars. destruct (decide (k ≤ length (chars p))) as [?|Hgt]; [lia|].
    destruct (Hmin (length (chars p))); [lia|].
    rewrite !chars_app, drop_app_length. by apply prefix_app_r.
Qed.

Lemma extract_section_between_headers_witness :
  _extract_section doc_two_sections "Gap Analysis" = Ok "This is the gap analysis content.".
Proof.
  pose (body := nl +:+ "This is the gap analysis content." +:+ nl).
  pose (rest := "Recommendations" +:+ nl +:+ "These are recommendations." +:+ nl).
  refine (proj1 (extract_section_between_headers nl "Gap Analysis" body rest _ _)).
  - intros p q Hpq. apply str_find_bounds_first in Hpq. destruct Hpq as [_ Hpq].
    match type of Hpq with
    | context [str_find ?a ?b ?c] =>
        let v := eval vm_compute in (str_find a b c) in change (str_find a b c) with v in Hpq
    end.
    unfold len in Hpq. change (String.length nl) with 1. lia.
  - apply str_in_false. vm_compute. reflexivity.
Defined.

(** C3 as stated fails.  A third-level header ["### B"] inside section [A]
    leaves the substring ["## B"] in the result; and when ["## A"] occurs
    earlier, inside ["### A"], the text returned is not the one between the
    headers ["## A"] and ["## B"]. *)
Lemma extract_section_next_header_counterexample :
  (_extract_section doc_subheading "A" = Ok (str_join nl ["foo"; "### B"; "bar"])
   ∧ ∃ p q, str_join nl ["foo"; "### B"; "bar"] = p +:+ "## B" +:+ q)
  ∧ (_extract_section doc_deeper_heading_first "A" = Ok "x"
     ∧ _extract_section doc_deeper_heading_first "A" ≠ Ok "foo").
Proof.
  split_and!; [by vm_compute| |by vm_compute|by vm_compute].
  exists ("foo" +:+ nl +:+ "#"), (nl +:+ "bar"). by vm_compute.
Qed.

(** Extraction applied to its own result finds no header any more. *)
Example extract_section_of_result :
  _extract_section doc_two_sections "Gap Analysis" = Ok "This is the gap analysis content."
  ∧ _extract_section "This is the gap analysis content." "Gap Analysis" = Ok "".
Proof. split; by vm_compute. Qed.

(** A body between an ideographic space (U+3000) and a no-break space
    (U+00A0) is returned without them. *)
Example extract_section_unicode_whitespace :
  let ideographic_space := of_chars (utf8 [0xE3; 0x80; 0x80]) in
  let no_break_space := of_chars (utf8 [0xC2; 0xA0]) in
  _extract_section
    ("## A" +:+ ideographic_space +:+ "本文" +:+ no_break_space +:+ nl +:+ "## B") "A"
  = Ok "本文".
Proof. by vm_compute. Qed.

(** ** [_format_sources] *)

Lemma _format_sources_loop items sources :
  foldl _format_sources_step items sources
  = items ++ ((λ s, hd "" (_format_sources_step [] s)) <$> sources).
Proof.
  revert items. induction sources as [|s sources IH]; intros items; simpl.
  - by rewrite app_nil_r.
  - rewrite IH.
    change (_format_sources_step items s)
      with (items ++ [hd "" (_format_sources_step [] s)]).
    by rewrite <-app_assoc.
Qed.

Lemma _format_sources_shown s :
  ∃ shown, hd "" (_format_sources_step [] s) = format_line s shown
    ∧ ((200 < str_len (SearchResult.content s))%Z →
         shown = str_prefix (SearchResult.content s) 200 +:+ "...")
    ∧ ((str_len (SearchResult.content s) ≤ 200)%Z → shown = SearchResult.content s).
Proof.
  unfold _format_sources_step. simpl.
  destruct (Z.ltb_spec 200 (str_len (SearchResult.content s))) as [Hlong|Hshort].
  - eexists. split_and!; [done|done|lia].
  - eexists. split_and!; [done|lia|]. intros _. apply str_prefix_short. lia.
Qed.

(** C8.  [_format_sources] renders each of the sources it formats on a line
    of its own.  A content longer than 200 characters is shown as its first
    200 characters followed by ["..."]: what is shown before the dots starts
    the content and has 200 code points.  A content shorter than 200
    characters is shown as it is.  Characters are code points, not bytes. *)
Theorem format_sources_truncation sources :
  ∃ lines, _format_sources sources = str_join nl lines ∧
    Forall2 (λ s line, ∃ shown, line = format_line s shown
      ∧ ((200 < str_len (SearchResult.content s))%Z →
           ∃ first rest, SearchResult.content s = first +:+ rest
             ∧ first = str_prefix (SearchResult.content s) 200
             ∧ str_len first = 200%Z
             ∧ shown = first +:+ "...")
      ∧ ((str_len (SearchResult.content s) < 200)%Z → shown = SearchResult.content s))
      (take 5 sources) lines.
Proof.
  eexists. split.
  - unfold _format_sources. by rewrite _format_sources_loop, app_nil_l.
  - apply Forall2_fmap_r, Forall_Forall2_diag, Forall_forall. intros s _.
    destruct (_format_sources_shown s) as (shown & ? & Hgt & Hle).
    exists shown. split_and!; [done| |].
    + intros Hlong.
      destruct (str_prefix_long (SearchResult.content s) 200 ltac:(lia)) as [Hlen [rest Hrest]].
      exists (str_prefix (SearchResult.content s) 200), rest. split_and!; auto.
    + intros. apply Hle. lia.
Qed.

(** C10.  A content of exactly 200 characters (code points) is shown as it
    is; what is shown differs from the content only when the content is
    longer than 200 characters, and then it is the first 200 characters and
    ["..."]. *)
Theorem format_sources_boundary sources :
  ∃ lines, _format_sources sources = str_join nl lines ∧
    Forall2 (λ s line, ∃ shown, line = format_line s shown
      ∧ (str_len (SearchResult.content s) = 200%Z → shown = SearchResult.content s)
      ∧ (shown ≠ SearchResult.content s →
           (200 < str_len (SearchResult.content s))%Z
           ∧ str_len (str_prefix (SearchResult.content s) 200) = 200%Z
           ∧ shown = str_prefix (SearchResult.content s) 200 +:+ "..."))
      (take 5 sources) lines.
Proof.
  eexists. split.
  - unfold _format_sources. by rewrite _format_sources_loop, app_nil_l.
  - apply Forall2_fmap_r, Forall_Forall2_diag, Forall_forall. intros s _.
    destruct (_format_sources_shown s) as (shown & ? & Hgt & Hle).
    exists shown. split_and!; [done| |].
    + intros. apply Hle. lia.
    + intros Hne. destruct (Z.ltb_spec 200 (str_len (SearchResult.content s))) as [?|?].
      * split_and!; [done| |by auto].
        by apply (str_prefix_long (SearchResult.content s) 200 ltac:(lia)).
      * destruct Hne. by apply Hle.
Qed.

Example format_sources_at_200 :
  let content := of_chars (replicate 200 "a"%char) in
  _format_sources [SearchResult.mk "T" "u" content 0.5%float] = "- T: " +:+ content
  ∧ _format_sources [SearchResult.mk "T" "u" (content +:+ "b") 0.5%float]
    = "- T: " +:+ content +:+ "...".
Proof. split; by vm_compute. Qed.

(** Text that is not ASCII: 200 letters with an accent are shown as they are,
    the 201st is cut, and 100 kana are far from the limit. *)
Example format_sources_code_points :
  let content := of_chars (concat (replicate 200 (chars "é"))) in
  let kana := of_chars (concat (replicate 100 (chars "あ"))) in
  str_len content = 200%Z
  ∧ _format_sources [SearchResult.mk "T" "u" content 0.5%float] = "- T: " +:+ content
  ∧ _format_sources [SearchResult.mk "T" "u" (content +:+ "é") 0.5%float]
    = "- T: " +:+ content +:+ "..."
  ∧ _format_sources [SearchResult.mk "T" "u" kana 0.5%float] = "- T: " +:+ kana.
Proof. split_and!; by vm_compute. Qed.

(** ** [get_domain_config] *)

Lemma equals_str_spec v s : equals_str v s = true ↔ v = JString s.
Proof.
  destruct v; simpl; try (split; [done|discriminate]).
  rewrite String.eqb_eq. split; [by intros ->|by intros [= ->]].
Qed.

Lemma get_domain_config_loop_spec domains domain_id :
  match get_domain_config_loop domains domain_id with
  | Ok (Some domain) =>
      ∃ before after, domains = before ++ domain :: after
        ∧ has_id domain domain_id
        ∧ Forall (λ d, other_id d domain_id) before
  | Ok None => Forall (λ d, other_id d domain_id) domains
  | Raise e =>
      ∃ before domain after, domains = before ++ domain :: after
        ∧ Forall (λ d, other_id d domain_id) before
        ∧ ((∃ members, domain = JDict members ∧ dict_get "id" members = None
              ∧ e = KeyError "id")
           ∨ ((∀ members, domain ≠ JDict members) ∧ ∃ msg, e = TypeError msg))
  end.
Proof.
  induction domains as [|d domains IH]; [by constructor|].
  cbn [get_domain_config_loop]. unfold mbind, result_mbind.
  destruct (subscript d "id") as [v|e] eqn:Hsub; cbn [result_bind].
  - assert (∃ members, d = JDict members ∧ dict_get "id" members = Some v)
      as (members & -> & Hid).
    { destruct d; simpl in Hsub; try done. destruct (dict_get "id" members) eqn:E; [|done].
      simplify_eq. eauto. }
    destruct (equals_str v domain_id) eqn:Heq; cbv iota.
    + apply equals_str_spec in Heq as ->. exists [], domains.
      split_and!; [done|unfold has_id; eauto|done].
    + assert (other_id (JDict members) domain_id) as Hother.
      { exists members, v. split_and!; [done|done|]. intros Hv%equals_str_spec. congruence. }
      destruct (get_domain_config_loop domains domain_id) as [[found|]|e].
      * destruct IH as (before & after & -> & ? & ?).
        exists (JDict members :: before), after. split_and!; [done|done|by constructor].
      * by constructor.
      * destruct IH as (before & x & after & -> & ? & ?).
        exists (JDict members :: before), x, after. split_and!; [done|by constructor|done].
  - exists [], d, domains. split_and!; [done|done|].
    destruct d; simpl in Hsub; simplify_eq; try (right; split; [done|by eexists]).
    left. destruct (dict_get "id" members) eqn:E; [done|]. simplify_eq. eauto.
Qed.

(** C6, as amended.  [get_domain_config] on a configuration that is a dict.
    Without a ["domains"] key it returns [None].  When ["domains"] is a list,
    it returns the first item that is a dict whose ["id"] is the identifier,
    and [None] when there is none; it raises nothing as long as every item
    before the match is a dict with an ["id"]; an item without ["id"] met
    before a match raises [KeyError], an item that is not a dict raises
    [TypeError].  When ["domains"] is anything else, it returns [None] for an
    empty dict or string and raises [TypeError] otherwise, so for [null]. *)
Theorem get_domain_config_lookup members domain_id :
  let out := get_domain_config (JDict members) domain_id in
  match dict_get "domains" members with
  | None => out = Ok None
  | Some (JList items) =>
      match out with
      | Ok (Some domain) =>
          ∃ before after, items = before ++ domain :: after
            ∧ has_id domain domain_id
            ∧ Forall (λ d, other_id d domain_id) before
      | Ok None => Forall (λ d, other_id d domain_id) items
      | Raise e =>
          ∃ before domain after, items = before ++ domain :: after
            ∧ Forall (λ d, other_id d domain_id) before
            ∧ ((∃ fields, domain = JDict fields ∧ dict_get "id" fields = None
                  ∧ e = KeyError "id")
               ∨ ((∀ fields, domain ≠ JDict fields) ∧ ∃ msg, e = TypeError msg))
      end
  | Some (JDict []) | Some (JString "") => out = Ok None
  | Some _ => ∃ msg, out = Raise (TypeError msg)
  end.
Proof.
  intros out. unfold out, get_domain_config, get_or, mbind, result_mbind.
  cbn [result_bind].
  destruct (dict_get "domains" members) as [domains|]; cbn [from_option id]; [|done].
  destruct domains as [| | | |s|items|fields]; cbn [iterate result_bind].
  1-4: by eexists.
  - destruct s as [|c s]; [done|].
    destruct (code_points_cons c (chars s)) as (cp & cps & Hcp).
    change (chars (String c s)) with (c :: chars s). rewrite Hcp.
    cbn. by eexists.
  - apply get_domain_config_loop_spec.
  - destruct fields as [|[k v] fields]; [done|]. cbn. by eexists.
Qed.

(** C6 as stated fails: a domain without an ["id"] raises [KeyError], a
    ["domains"] that is [null] raises [TypeError], and a configuration that
    is not a dict raises [AttributeError]. *)
Lemma get_domain_config_raises_counterexample :
  get_domain_config (JDict [("domains", JList [JDict [("name", JString "Docs")]])]) "docs"
  = Raise (KeyError "id")
  ∧ get_domain_config (JDict [("domains", JNull)]) "docs"
    = Raise (TypeError "'NoneType' object is not iterable")
  ∧ get_domain_config (JList []) "docs"
    = Raise (AttributeError "'list' object has no attribute 'get'").
Proof. split_and!; reflexivity. Qed.

(** The configuration of the repository's tests. *)
Example get_domain_config_of_tests :
  let domain := JDict [("id", JString "test-domain"); ("name", JString "Test Domain")] in
  let config := JDict [("version", JString "1.0"); ("domains", JList [domain])] in
  get_domain_config config "test-domain" = Ok (Some domain)
  ∧ get_domain_config config "nonexistent" = Ok None.
Proof. split; reflexivity. Qed.

(** ** The post-filter of [collect_trends] *)

Lemma hits_excluded env terms r : hits env terms r = true ↔ excluded env terms r.
Proof.
  unfold hits, excluded, contains_lowered. rewrite existsb_exists. split.
  - intros (t & Ht & Hin). apply list_elem_of_In, list_elem_of_fmap in Ht as (term & -> & Hterm).
    exists term. split; [done|].
    apply orb_true_iff in Hin as [Hin|Hin]; apply str_in_true in Hin; auto.
  - intros (term & Hterm & Hin). exists (lowered env term). split.
    + apply list_elem_of_In, list_elem_of_fmap. eauto.
    + apply orb_true_iff. destruct Hin as [Hin|Hin]; apply str_in_true in Hin; auto.
Qed.

Lemma collect_trends_step_spec env search_hints sources r :
  collect_trends_step env search_hints sources r
  = sources ++ (if hits env (default [] (SearchHints.exclude_terms search_hints)) r
                then [] else [to_source r]).
Proof.
  unfold collect_trends_step, hits, to_source, lowered.
  destruct (existsb _ _); simpl; [by rewrite app_nil_r | done].
Qed.

Lemma collect_trends_loop env search_hints sources results :
  foldl (collect_trends_step env search_hints) sources results
  = sources ++ (to_source <$>
      List.filter (λ r, negb (hits env (default [] (SearchHints.exclude_terms search_hints)) r))
        results).
Proof.
  revert sources. induction results as [|r results IH]; intros sources.
  - simpl. by rewrite app_nil_r.
  - cbn [foldl List.filter]. rewrite IH, collect_trends_step_spec.
    destruct (hits _ _ r); simpl; by rewrite <-app_assoc.
Qed.

(** Lower case on ASCII text, letter by letter. *)
Lemma lowered_ascii env s : ascii_text s → lowered env s = of_chars (lower_char <$> chars s).
Proof. unfold ascii_text, lowered, str_lower. by intros ->. Qed.

Lemma lower_char_same a b : lower_char a = lower_char b ↔ same_letter a b.
Proof.
  unfold lower_char, same_letter.
  assert (∀ x y : ascii, x = y ↔ nat_of_ascii x = nat_of_ascii y) as Hinj.
  { intros x y. split; [by intros ->|]. intros H.
    by rewrite <-(ascii_nat_embedding x), <-(ascii_nat_embedding y), H. }
  pose proof (nat_ascii_bounded a) as Ha. pose proof (nat_ascii_bounded b) as Hb.
  assert (∀ n, n < 224 → nat_of_ascii (ascii_of_nat (n + 32)) = n + 32) as Hup.
  { intros n Hn. apply nat_ascii_embedding. lia. }
  destruct (Nat.leb_spec 65 (nat_of_ascii a)), (Nat.leb_spec (nat_of_ascii a) 90),
    (Nat.leb_spec 65 (nat_of_ascii b)), (Nat.leb_spec (nat_of_ascii b) 90);
    cbn [andb]; rewrite !Hinj, ?Hup by lia; lia.
Qed.

Lemma lower_chars_same (m t : list ascii) :
  lower_char <$> m = lower_char <$> t ↔ Forall2 same_letter m t.
Proof.
  revert t. induction m as [|a m IH]; intros [|b t]; cbn [fmap list_fmap].
  - split; [constructor|done].
  - split; [done|]. intros H. inversion H.
  - split; [done|]. intros H. inversion H.
  - split.
    + intros [= Hab Hmt]. constructor; [by apply lower_char_same|by apply IH].
    + intros H. inversion H as [|? ? ? ? Hab Hmt]; subst.
      apply lower_char_same in Hab. apply IH in Hmt. congruence.
Qed.

(** On ASCII text the test of the filter is containment up to the case of
    letters. *)
Lemma contains_lowered_ascii env term s :
  ascii_text term → ascii_text s →
  contains_lowered env term s ↔ contains_ignoring_case term s.
Proof.
  intros Hterm Hs. unfold contains_lowered, contains_ignoring_case.
  rewrite (lowered_ascii env s Hs), (lowered_ascii env term Hterm). split.
  - intros (p & q & Hpq). apply (f_equal chars) in Hpq.
    rewrite !chars_app, !chars_of_chars in Hpq.
    apply fmap_app_inv in Hpq as (s1 & s23 & _ & H23 & Hsplit). symmetry in H23.
    apply fmap_app_inv in H23 as (s2 & s3 & Hs2 & _ & ->).
    exists (of_chars s1), (of_chars s2), (of_chars s3). split.
    + apply chars_inj. by rewrite !chars_app, !chars_of_chars.
    + rewrite chars_of_chars. by apply lower_chars_same.
  - intros (p & m & q & -> & Hsame). apply lower_chars_same in Hsame.
    exists (of_chars (lower_char <$> chars p)), (of_chars (lower_char <$> chars q)).
    apply chars_inj. rewrite !chars_app, !chars_of_chars, !fmap_app. by rewrite Hsame.
Qed.

(** C2, as amended.  The sources [collect_trends] keeps are the results of
    the search filtered in place: a result is dropped exactly when its
    lower-cased title or content contains a lower-cased excluded term, and
    the others stay in their order.  On ASCII text that test is containment
    with the case of letters ignored: some part of the title or of the
    content is the term up to the case of its letters. *)
Theorem collect_trends_post_filter env search_hints results :
  let terms := default [] (SearchHints.exclude_terms search_hints) in
  ∃ keep : TavilyResult.t → bool,
    (∀ r, keep r = false ↔ excluded env terms r)
    ∧ collect_trends_sources env search_hints results
      = to_source <$> List.filter keep results
    ∧ List.filter keep results `sublist_of` results
    ∧ (∀ r, Forall ascii_text terms →
         ascii_text (TavilyResult.title r) → ascii_text (TavilyResult.content r) →
         (keep r = false
          ↔ ∃ term, term ∈ terms
              ∧ (contains_ignoring_case term (TavilyResult.title r)
                 ∨ contains_ignoring_case term (TavilyResult.content r)))).
Proof.
  intros terms. exists (λ r, negb (hits env terms r)). split_and!.
  - intros r. by rewrite negb_false_iff, hits_excluded.
  - unfold collect_trends_sources. by rewrite collect_trends_loop.
  - induction results as [|r results IH]; simpl; [done|].
    destruct (negb (hits env terms r)); by constructor.
  - intros r Hterms Htitle Hcontent. rewrite negb_false_iff, hits_excluded.
    rewrite Forall_forall in Hterms. unfold excluded.
    split; intros (term & Hin & H); exists term; (split; [done|]);
      rewrite <-!(contains_lowered_ascii env term) in * by auto; done.
Qed.

(** C2 as stated fails: lower-casing is not letter by letter on all text.  A
    capital sigma at the end of a word becomes a final sigma, so the title
    [ΟΔΟΣΑ] is kept although it contains the excluded term [ΟΔΟΣ] as it
    stands. *)
Lemma collect_trends_case_counterexample :
  let search_hints := SearchHints.mk [] [] None (Some ["ΟΔΟΣ"]) in
  let r := TavilyResult.mk "ΟΔΟΣΑ" "https://example.com/odos" "A street." 0.5%float in
  (∃ p q, TavilyResult.title r = p +:+ "ΟΔΟΣ" +:+ q)
  ∧ collect_trends_sources (sample_env (Failure offline)) search_hints [r] = [to_source r].
Proof.
  split; [|by vm_compute]. exists "", "Α". by vm_compute.
Qed.

(** Letters with accents follow the Unicode tables: the term [CAFÉ] rules
    out a title with [café]. *)
Example collect_trends_drops_accented :
  collect_trends_sources (sample_env (Failure offline))
    (SearchHints.mk [] [] None (Some ["CAFÉ"]))
    [TavilyResult.mk "café menu" "https://example.com/a" "Coffee." 0.5%float;
     TavilyResult.mk "Tea" "https://example.com/b" "Leaves." 0.5%float]
  = [SearchResult.mk "Tea" "https://example.com/b" "Leaves." 0.5%float].
Proof. by vm_compute. Qed.

(** [collect_trends] returns the sources of that loop once the search has
    answered, and raises what the search raises. *)
Lemma collect_trends_run env self domain s :
  let search_hints := Domain.search_hints domain in
  let started :=
    trace s ++ [EPrint ("Starting Phase 1: Trend Collection for " +:+ Domain.name domain
                          +:+ "...")] in
  let query :=
    str_join " " (SearchHints.primary_keywords search_hints) +:+ " "
      +:+ str_join " " (SearchHints.focus_areas search_hints) +:+ " "
      +:+ pretty (Datetime.year (Env.clock env started)) in
  let searched :=
    TavilyClient_search env (DotfilesKaizen.tavily_client self) query
      (default 10%Z (GlobalSettings.max_search_results (settings_of self))) None
      (Some (default [] (SearchHints.exclude_domains search_hints)))
      (State (heap s) (started ++ [ENow; EPrint ("Search Query: " +:+ query)])) in
  collect_trends env self domain s
  = match searched with
    | (Ok results, s') =>
        (Ok (ResearchOutput.mk
               (collect_trends_sources env search_hints
                  (default [] (TavilyResponse.results results)))
               (default "No summary available." (TavilyResponse.answer results)) query),
         s')
    | (Raise e, s') => (Raise e, s')
    end.
Proof.
  intros search_hints started query searched.
  unfold collect_trends, mbind, M_mbind, M_bind, print, now, emit, mret, M_mret, M_ret.
  cbn [heap trace]. fold search_hints started. fold query. fold (settings_of self).
  rewrite <-!app_assoc. cbn [app]. fold searched. by destruct searched as [[results|e] s'].
Qed.

(** The scenario of the specification: of two results, the one whose content
    holds the excluded term is dropped. *)
Example collect_trends_drops_spam :
  let self := DotfilesKaizen.mk (Config.mk (Some [docs_skill]) None) (TavilyClient.mk "test")
                (AnthropicClient.mk "test") (GitHubClient.mk "test" "test/repo") in
  (collect_trends (sample_env (Failure offline)) self docs_skill sample_state).1
  = Ok (ResearchOutput.mk
          [SearchResult.mk "Writing skills" "https://example.com/a" "Clear docs." 0.75%float]
          "No summary available." "skill docs clarity 2026").
Proof. reflexivity. Qed.

(** ** Retry *)

Lemma retry_loop_contract {A B} api service req (post : B → result A) (call : M A) :
  (∀ b e, post b ≠ Raise (RequestException e)) →
  (∀ st, call st
     = (match service (trace st) req with
        | Response body => post body
        | Failure e => Raise (RequestException e)
        end, State (heap st) (trace st ++ [ERequest req]))) →
  ∀ k i s, i + S k = MAX_RETRIES →
  retry_contract api service req post (S i) (S k) s (retry_loop api call (seq i (S k)) s).
Proof.
  intros Hpost Hcall k. induction k as [|k IH]; intros i s Hik.
  - cbn [seq retry_loop]. unfold try_except_RequestException. rewrite Hcall.
    destruct (service (trace s) req) as [b|e] eqn:E.
    + exists []. cbn [backoff_events length]. rewrite !app_nil_r, E.
      split_and!; [lia| | | | |done].
      all: destruct (post b) as [a|[]] eqn:Eb; try done; by destruct (Hpost b e).
    + rewrite bool_decide_true by (unfold MAX_RETRIES in *; lia).
      exists []. cbn [backoff_events length]. rewrite !app_nil_r, E.
      split_and!; [lia|done|done|done|done|done].
  - cbn [seq retry_loop]. unfold try_except_RequestException. rewrite Hcall.
    destruct (service (trace s) req) as [b|e] eqn:E.
    + exists []. cbn [backoff_events length]. rewrite !app_nil_r, E.
      split_and!; [lia| | | | |done].
      all: destruct (post b) as [a|[]] eqn:Eb; try done; by destruct (Hpost b e).
    + rewrite bool_decide_false by (unfold MAX_RETRIES in *; lia).
      unfold mbind, M_mbind, M_bind, print, sleep, emit. cbn [heap trace].
      set (s2 := State _ _).
      destruct (IH (S i) s2 ltac:(lia)) as (failures & Hlen & Hheap & Htrace & Hfail & Hres & Hlast).
      assert (∀ fs, trace s2 ++ backoff_events api req (S (S i)) fs
                    = trace s ++ backoff_events api req (S i) (e :: fs)) as Hshift.
      { intros fs. unfold s2. cbn [trace backoff_events].
        rewrite Nat.add_1_r, <-!app_assoc. done. }
      exists (e :: failures). cbn zeta in *. rewrite <-!Hshift.
      split_and!; [simpl; lia|done|done| |done|].
      * intros [|j] e' Hj; simplify_eq/=.
        -- by rewrite app_nil_r.
        -- rewrite <-(Hfail j e' Hj). f_equal. rewrite <-Hshift. done.
      * intros e' He'. simpl. f_equal. by eapply Hlast.
Qed.

Lemma requests_of_app tr1 tr2 : requests_of (tr1 ++ tr2) = requests_of tr1 ++ requests_of tr2.
Proof. apply omap_app. Qed.

Lemma requests_of_backoff api req i failures :
  requests_of (backoff_events api req i failures) = replicate (length failures) req.
Proof.
  revert i. induction failures as [|e failures IH]; intros i; [done|].
  cbn [backoff_events]. rewrite requests_of_app, IH. done.
Qed.

Lemma replicate_snoc {A} n (x : A) : replicate n x ++ [x] = replicate (S n) x.
Proof. induction n as [|n IH]; simpl; [done|]. by rewrite IH. Qed.

(** ** The clients *)

Lemma TavilyClient_search_contract env self query max_results include_domains exclude_domains s :
  retry_contract "Tavily" (Env.tavily env)
    (TavilySearch query max_results (default [] include_domains) (default [] exclude_domains))
    Ok 1 MAX_RETRIES s
    (TavilyClient_search env self query max_results include_domains exclude_domains s).
Proof.
  unfold TavilyClient_search. apply (retry_loop_contract _ _ _ Ok); [done| |done].
  intros st. unfold http. by destruct (Env.tavily env _ _).
Qed.

Lemma AnthropicClient_generate_response_contract env self system_prompt user_prompt temperature s :
  retry_contract "Anthropic" (Env.anthropic env)
    (AnthropicMessages system_prompt user_prompt temperature)
    first_text 1 MAX_RETRIES s
    (AnthropicClient_generate_response env self system_prompt user_prompt temperature s).
Proof.
  unfold AnthropicClient_generate_response.
  apply (retry_loop_contract _ _ _ first_text); [| |done].
  - intros data e. unfold first_text. by destruct (AnthropicResponse.content data).
  - intros st. unfold mbind, M_mbind, M_bind, http, lift, first_text.
    destruct (Env.anthropic env _ _) as [data|e]; [|done].
    by destruct (AnthropicResponse.content data).
Qed.

Lemma GitHubClient_create_issue_contract env self title body labels assignees s :
  retry_contract "GitHub" (Env.github_issues env)
    (GitHubCreateIssue (GitHubClient.repository self) title body
       (from_option (λ l, default [] (heap s !! l)) [] labels)
       (from_option (λ l, default [] (heap s !! l)) [] assignees))
    Ok 1 MAX_RETRIES s
    (GitHubClient_create_issue env self title body labels assignees s).
Proof.
  unfold GitHubClient_create_issue, mbind, M_mbind, M_bind, read, mret, M_mret, M_ret.
  destruct labels, assignees; cbn [from_option];
    (apply (retry_loop_contract _ _ _ Ok); [done| |done]);
    intros st; unfold http; by destruct (Env.github_issues env _ _).
Qed.

(** C4.  Each client call under retry ([TavilyClient.search],
    [AnthropicClient.generate_response], [GitHubClient.create_issue]) meets
    [retry_contract] with attempts numbered from 1 and [MAX_RETRIES = 3] of
    them at most: an attempt that fails with a [requests] failure is followed
    by another one as long as fewer than three were made, the sleep after the
    failed attempt number [n] lasts [RETRY_DELAY * n] seconds, and when the
    last attempt fails the call raises the failure the service gave to that
    attempt, unchanged. *)
Theorem retry_linear_backoff env :
  (∀ self query max_results include_domains exclude_domains s,
     retry_contract "Tavily" (Env.tavily env)
       (TavilySearch query max_results (default [] include_domains)
          (default [] exclude_domains))
       Ok 1 MAX_RETRIES s
       (TavilyClient_search env self query max_results include_domains exclude_domains s))
  ∧ (∀ self system_prompt user_prompt temperature s,
       retry_contract "Anthropic" (Env.anthropic env)
         (AnthropicMessages system_prompt user_prompt temperature)
         first_text 1 MAX_RETRIES s
         (AnthropicClient_generate_response env self system_prompt user_prompt temperature s))
  ∧ (∀ self title body labels assignees s,
       retry_contract "GitHub" (Env.github_issues env)
         (GitHubCreateIssue (GitHubClient.repository self) title body
            (from_option (λ l, default [] (heap s !! l)) [] labels)
            (from_option (λ l, default [] (heap s !! l)) [] assignees))
         Ok 1 MAX_RETRIES s
         (GitHubClient_create_issue env self title body labels assignees s))
  ∧ MAX_RETRIES = 3.
Proof.
  split_and!; [| | |done]; intros.
  - apply TavilyClient_search_contract.
  - apply AnthropicClient_generate_response_contract.
  - apply GitHubClient_create_issue_contract.
Qed.

(** The three attempts of a search while the service is unreachable. *)
Example search_while_offline :
  let req := TavilySearch "q" 5 [] [] in
  TavilyClient_search offline_env (TavilyClient.mk "test") "q" 5 None None sample_state
  = (Raise (RequestException offline),
     State (heap sample_state)
       [ERequest req; EPrint "Tavily API error (attempt 1/3): connection refused"; ESleep 2;
        ERequest req; EPrint "Tavily API error (attempt 2/3): connection refused"; ESleep 4;
        ERequest req]).
Proof. reflexivity. Qed.

(** ** [find_existing_issue] *)

Lemma find_existing_issue_run env self title_prefix s :
  GitHubClient_find_existing_issue env self title_prefix s
  = (existing_issue
       (Env.github_search env (trace s) (GitHubSearchIssues (issue_search_query self title_prefix))),
     State (heap s)
       (trace s ++ ERequest (GitHubSearchIssues (issue_search_query self title_prefix))
          :: search_log (Env.github_search env (trace s)
                           (GitHubSearchIssues (issue_search_query self title_prefix))))).
Proof.
  unfold GitHubClient_find_existing_issue, try_except_RequestException.
  fold (issue_search_query self title_prefix).
  unfold mbind, M_mbind, M_bind, http, lift, mret, M_mret, M_ret, print, emit, existing_issue.
  destruct (Env.github_search env (trace s) _) as [data|e]; cbn [search_log heap trace].
  - destruct (0 <? IssueSearch.total_count data)%Z; [|done].
    by destruct (IssueSearch.items data).
  - by rewrite <-app_assoc.
Qed.

(** C5, as amended.  Whatever the title prefix and whatever the search
    request does, [find_existing_issue] raises no failure of the request:
    when the request fails it returns [None]; when it succeeds with a body
    whose count of matches is positive it returns the first listed issue, and
    raises [IndexError] when that body lists none; when the count is not
    positive it returns [None].  So it raises exactly on a body that counts a
    match and lists none, and on a body that counts a match exactly when it
    lists one it returns the first listed issue, or [None] when there is
    none. *)
Theorem find_existing_issue_outcome env self title_prefix s :
  let found := Env.github_search env (trace s)
                 (GitHubSearchIssues (issue_search_query self title_prefix)) in
  let out := (GitHubClient_find_existing_issue env self title_prefix s).1 in
  match found with
  | Failure _ => out = Ok None
  | Response data =>
      if (0 <? IssueSearch.total_count data)%Z then
        match IssueSearch.items data with
        | item :: _ => out = Ok (Some item)
        | [] => out = Raise (IndexError "list index out of range")
        end
      else out = Ok None
  end
  ∧ (∀ e, out ≠ Raise (RequestException e))
  ∧ (∀ e, out = Raise e ↔
          e = IndexError "list index out of range"
          ∧ ∃ data, found = Response data
              ∧ (0 < IssueSearch.total_count data)%Z ∧ IssueSearch.items data = [])
  ∧ (∀ data, found = Response data → consistent data →
       out = Ok (head (IssueSearch.items data))).
Proof.
  intros found out. subst out. rewrite find_existing_issue_run. fold found. cbn [fst].
  unfold existing_issue. destruct found as [data|e'].
  - destruct (Z.ltb_spec 0 (IssueSearch.total_count data)) as [Hpos|Hzero].
    + destruct (IssueSearch.items data) as [|item items] eqn:Hitems.
      * split_and!; [done|done| |].
        -- intros e. split; [intros [= <-]; eauto|by intros [-> _]].
        -- intros ? [= <-] Hwf. apply Hwf in Hpos. by rewrite Hitems in Hpos.
      * split_and!; [done|done| |].
        -- intros e. split; [done|]. intros [_ (? & [= <-] & _ & Hnil)].
           by rewrite Hitems in Hnil.
        -- intros ? [= <-] _. by rewrite Hitems.
    + split_and!; [done|done| |].
      * intros e. split; [done|]. intros [_ (? & [= <-] & ? & _)]. lia.
      * intros ? [= <-] Hwf. destruct (IssueSearch.items data) as [|item items] eqn:Hitems; [done|].
        assert (0 < IssueSearch.total_count data)%Z; [|lia].
        apply Hwf. by rewrite Hitems.
  - split_and!; [done|done| |done].
    intros e. split; [done|]. by intros [_ (? & [=] & _)].
Qed.

(** The search succeeds with a body that counts a match and lists none:
    the subscript raises. *)
Lemma find_existing_issue_raises_counterexample :
  (GitHubClient_find_existing_issue (sample_env (Response (IssueSearch.mk 1 [])))
     (GitHubClient.mk "test" "test/repo") "[Dotfiles Kaizen] Test Domain" sample_state).1
  = Raise (IndexError "list index out of range").
Proof. reflexivity. Qed.

(** The outcomes of the tests: a listed issue, no match, a failed search. *)
Example find_existing_issue_of_tests :
  (GitHubClient_find_existing_issue (sample_env (Response (IssueSearch.mk 1 [sample_issue])))
     (GitHubClient.mk "test" "test/repo") "[Dotfiles Kaizen] Test Domain" sample_state).1
  = Ok (Some sample_issue)
  ∧ (GitHubClient_find_existing_issue (sample_env (Response (IssueSearch.mk 0 [])))
       (GitHubClient.mk "test" "test/repo") "[Dotfiles Kaizen] Test Domain" sample_state).1
    = Ok None
  ∧ (GitHubClient_find_existing_issue offline_env
       (GitHubClient.mk "test" "test/repo") "[Dotfiles Kaizen] Test Domain" sample_state).1
    = Ok None.
Proof. by split_and!. Qed.

Lemma requests_of_search_log found : requests_of (search_log found) = [].
Proof. by destruct found. Qed.

Lemma requests_of_nil : requests_of [] = [].
Proof. done. Qed.

Lemma requests_of_cons e tr :
  requests_of (e :: tr)
  = match e with ERequest r => r :: requests_of tr | _ => requests_of tr end.
Proof. by destruct e. Qed.

Create Rewrite HintDb requests.
#[local] Hint Rewrite requests_of_cons requests_of_app requests_of_search_log
  requests_of_backoff requests_of_nil : requests.

(** ** [report_findings] *)

Lemma report_findings_run env self domain research_output analysis_output s :
  let gh := DotfilesKaizen.github_client self in
  let prefix := "[Dotfiles Kaizen] " +:+ Domain.name domain in
  let started :=
    trace s ++ [EPrint ("Starting Phase 3: Reporting for " +:+ Domain.name domain +:+ "...")] in
  let today := strftime_date (Env.clock env started) in
  let title := "[Dotfiles Kaizen] " +:+ Domain.name domain +:+ " - " +:+ today in
  let body := issue_body domain (strftime_utc (Env.clock env (started ++ [ENow])))
                research_output analysis_output in
  let search := GitHubSearchIssues (issue_search_query gh prefix) in
  let found := Env.github_search env (started ++ [ENow; ENow]) search in
  let settings :=
    default GlobalSettings.empty (Config.global_settings (DotfilesKaizen.config self)) in
  let out := report_findings env self domain research_output analysis_output s in
  ∃ new, trace out.2 = trace s ++ new
    ∧ (∀ l, is_Some (heap s !! l) → heap out.2 !! l = heap s !! l)
    ∧ match existing_issue found with
      | Ok (Some issue) =>
          requests_of new
          = [search; GitHubAddComment (GitHubClient.repository gh) (Issue.number issue)
                       (update_comment_body today research_output analysis_output)]
      | Ok None =>
          let create := GitHubCreateIssue (GitHubClient.repository gh) title body
                          (labels_for (heap s) settings ++ [Domain.id domain]) [] in
          ∃ n, 1 ≤ n ≤ MAX_RETRIES
            ∧ requests_of new = search :: replicate n create
            ∧ (∀ issue,
                 Env.github_issues env
                   (started ++ ENow :: ENow :: ERequest search :: search_log found) create
                 = Response issue →
                 n = 1 ∧ out.1 = Ok tt)
      | Raise e => requests_of new = [search] ∧ out.1 = Raise e
      end.
Proof.
  intros gh prefix started today title body search found settings out.
  unfold out; clear out.
  destruct (report_findings env self domain research_output analysis_output s)
    as [r s'] eqn:Hout.
  cbn [fst snd].
  unfold report_findings, mbind, M_mbind, M_bind, print, now, emit in Hout.
  cbn [heap trace] in Hout. rewrite find_existing_issue_run in Hout. cbn [heap trace] in Hout.
  fold gh prefix started in Hout. rewrite <-!app_assoc in Hout. cbn [app] in Hout.
  fold search in Hout. fold found in Hout. fold today title body settings in Hout.
  destruct (existing_issue found) as [[issue|]|e].
  - unfold GitHubClient_add_comment, try_except_RequestException, http, raise in Hout.
    cbn [heap trace] in Hout.
    destruct (Env.github_comments env _ _); simplify_eq; cbn [heap trace];
      (eexists; split_and!;
       [unfold started; rewrite <-!app_assoc; cbn [app]; reflexivity | done |
        autorewrite with requests; cbn [app]; rewrite ?app_nil_r, ?replicate_snoc; reflexivity]).
  - unfold list_copy, alloc, read, append, mbind, M_mbind, M_bind in Hout.
    cbn [heap trace] in Hout.
    set (l1 := fresh (dom (heap s))) in *.
    set (h1 := <[l1 := ["dotfiles-kaizen"]]> (heap s)) in *.
    set (l2 := fresh (dom h1)) in *.
    set (src := default l1 (GlobalSettings.issue_labels settings)) in *.
    set (h3 := <[l2 := _]> (<[l2 := _]> h1)) in *.
    set (s3 := State h3 _) in *.
    pose proof (GitHubClient_create_issue_contract env gh title body (Some l2) None s3)
      as (failures & Hlen & Hheap & Htrace & Hfail & Hres & _).
    cbn [from_option] in Htrace, Hfail, Hres.
    assert (default [] (heap s3 !! l2) = labels_for (heap s) settings ++ [Domain.id domain])
      as Hlabels.
    { unfold s3, h3, labels_for. cbn [heap]. fold l1 h1 src.
      by rewrite !lookup_insert_eq. }
    rewrite Hlabels in Htrace, Hfail, Hres. clear Hlabels.
    assert (∀ l, is_Some (heap s !! l) → h3 !! l = heap s !! l) as Hframe.
    { intros l Hl. assert (l ≠ l1).
      { intros ->. apply elem_of_dom in Hl. by apply (is_fresh (dom (heap s))). }
      assert (l ≠ l2).
      { intros ->. apply (is_fresh (dom h1)). fold l2. unfold h1.
        rewrite dom_insert_L. apply elem_of_dom in Hl. set_solver. }
      unfold h3, h1. by rewrite !lookup_insert_ne. }
    destruct (GitHubClient_create_issue env gh title body (Some l2) None s3) as [r4 s4].
    cbn [fst snd] in *.
    assert (∃ new, trace s' = trace s ++ new ∧ heap s' = heap s4
              ∧ requests_of new
                = search :: replicate (S (length failures))
                    (GitHubCreateIssue (GitHubClient.repository gh) title body
                       (labels_for (heap s) settings ++ [Domain.id domain]) [])) as Hnew.
    { destruct r4; simplify_eq; cbn [heap trace]; rewrite Htrace; unfold s3; cbn [trace];
        (eexists; split_and!;
         [unfold started; rewrite <-!app_assoc; cbn [app]; reflexivity | done |
          autorewrite with requests; cbn [app]; rewrite ?app_nil_r, ?replicate_snoc; reflexivity]). }
    destruct Hnew as (new & Hnew & Hheap' & Hreq). exists new. split_and!; [done| |].
    + intros l Hl. rewrite Hheap', Hheap. unfold s3. cbn [heap]. by apply Hframe.
    + exists (S (length failures)). split_and!; [lia|lia|done|].
      intros issue Hissue. destruct failures as [|e failures].
      * cbn [backoff_events] in Hres. rewrite app_nil_r in Hres. unfold s3 in Hres.
        cbn [trace] in Hres. rewrite Hissue in Hres. subst r4. by simplify_eq.
      * specialize (Hfail 0 e eq_refl). cbn [take backoff_events] in Hfail.
        rewrite app_nil_r in Hfail. unfold s3 in Hfail. cbn [trace] in Hfail. congruence.
  - simplify_eq. cbn [heap trace]. eexists. split_and!;
      [unfold started; rewrite <-!app_assoc; cbn [app]; reflexivity | done |
       autorewrite with requests; cbn [app]; rewrite ?app_nil_r, ?replicate_snoc; reflexivity | done].
Qed.

Lemma labels_for_configured h settings :
  labels_allocated h settings → labels_for h settings = configured_labels h settings.
Proof.
  intros Halloc. unfold labels_for, configured_labels.
  destruct (GlobalSettings.issue_labels settings) as [l|] eqn:E; cbn [from_option id].
  - rewrite lookup_insert_ne; [done|]. intros <-.
    destruct (Halloc _ E) as [x Hx].
    apply (is_fresh (dom h)), elem_of_dom. eauto.
  - by rewrite lookup_insert_eq.
Qed.

(** C1.  [report_findings] searches the open issues whose title contains
    ["[Dotfiles Kaizen] <name>"].  When the search lists an issue, the only
    other request is a comment on the number of that issue.  When it lists
    none, or fails, the other requests are attempts (one to three) to create
    an issue titled ["[Dotfiles Kaizen] <name> - <today>"], labelled with the
    configured labels followed by the id of the domain, and no comment is
    posted. *)
Theorem report_findings_find_or_create env self domain research_output analysis_output s :
  let gh := DotfilesKaizen.github_client self in
  let prefix := "[Dotfiles Kaizen] " +:+ Domain.name domain in
  let started :=
    trace s ++ [EPrint ("Starting Phase 3: Reporting for " +:+ Domain.name domain +:+ "...")] in
  let today := strftime_date (Env.clock env started) in
  let title := "[Dotfiles Kaizen] " +:+ Domain.name domain +:+ " - " +:+ today in
  let body := issue_body domain (strftime_utc (Env.clock env (started ++ [ENow])))
                research_output analysis_output in
  let search := GitHubSearchIssues (issue_search_query gh prefix) in
  let found := Env.github_search env (started ++ [ENow; ENow]) search in
  let labels := configured_labels (heap s) (settings_of self) ++ [Domain.id domain] in
  let sent :=
    requests_of
      (new_events s (report_findings env self domain research_output analysis_output s).2) in
  let create := GitHubCreateIssue (GitHubClient.repository gh) title body labels [] in
  let creates_issue :=
    ∃ n, 1 ≤ n ≤ MAX_RETRIES
      ∧ sent = search :: replicate n create
      ∧ (∀ issue,
           Env.github_issues env
             (started ++ ENow :: ENow :: ERequest search :: search_log found) create
           = Response issue →
           n = 1) in
  (∀ data, found = Response data → consistent data) →
  labels_allocated (heap s) (settings_of self) →
  match found with
  | Response data =>
      match IssueSearch.items data with
      | issue :: _ =>
          sent = [search;
                  GitHubAddComment (GitHubClient.repository gh) (Issue.number issue)
                    (update_comment_body today research_output analysis_output)]
      | [] => creates_issue
      end
  | Failure _ => creates_issue
  end.
Proof.
  intros gh prefix started today title body search found labels sent create creates_issue
    Hwf Halloc.
  destruct (report_findings_run env self domain research_output analysis_output s)
    as (new & Htrace & _ & Hshape).
  fold gh prefix started today title body search found in Hshape.
  fold (settings_of self) in Hshape. rewrite labels_for_configured in Hshape by done.
  fold labels in Hshape. fold create in Hshape.
  assert (sent = requests_of new) as Hsent.
  { unfold sent, new_events. by rewrite Htrace, drop_app_length. }
  unfold creates_issue. rewrite Hsent. clear Hsent sent creates_issue Htrace.
  assert (existing_issue found = Ok None →
          ∃ n, 1 ≤ n ≤ MAX_RETRIES ∧ requests_of new = search :: replicate n create
            ∧ (∀ issue,
                 Env.github_issues env
                   (started ++ ENow :: ENow :: ERequest search :: search_log found) create
                 = Response issue → n = 1)) as Hcreate.
  { intros E. rewrite E in Hshape. destruct Hshape as (n & Hn & Hreq & Hone).
    exists n. split_and!; [lia|lia|done|]. intros issue Hissue. by destruct (Hone issue). }
  unfold existing_issue in Hshape, Hcreate.
  destruct found as [data|e]; [|by apply Hcreate].
  specialize (Hwf data eq_refl). unfold consistent in Hwf.
  destruct (Z.ltb_spec 0 (IssueSearch.total_count data)) as [Hpos|Hzero].
  - apply Hwf in Hpos. by destruct (IssueSearch.items data).
  - destruct (IssueSearch.items data) as [|item items]; [by apply Hcreate|].
    assert (0 < IssueSearch.total_count data)%Z by (by apply Hwf). lia.
Qed.

Lemma sample_labels_allocated : labels_allocated (heap sample_state) (settings_of sample_kaizen).
Proof. intros l [= <-]. by eexists. Qed.

Lemma report_findings_find_or_create_witness :
  (∃ n, 1 ≤ n ≤ MAX_RETRIES
     ∧ requests_of
         (new_events sample_state
            (report_findings (sample_env (Response (IssueSearch.mk 0 []))) sample_kaizen
               sample_domain sample_research sample_analysis sample_state).2)
       = GitHubSearchIssues
           "repo:test/repo is:issue is:open in:title [Dotfiles Kaizen] Test Domain"
         :: replicate n
              (GitHubCreateIssue "test/repo" "[Dotfiles Kaizen] Test Domain - 2026-01-15"
                 (issue_body sample_domain "2026-01-15 09:30:00 UTC"
                    sample_research sample_analysis)
                 ["test-label"; "test-domain"] [])
     ∧ (∀ issue : Issue.t,
          Response (Issue.mk 7 "https://github.com/test/repo/issues/7") = Response issue →
          n = 1))
  ∧ requests_of
      (new_events sample_state
         (report_findings (sample_env (Response (IssueSearch.mk 1 [sample_issue])))
            sample_kaizen sample_domain sample_research sample_analysis sample_state).2)
    = [GitHubSearchIssues
         "repo:test/repo is:issue is:open in:title [Dotfiles Kaizen] Test Domain";
       GitHubAddComment "test/repo" 42
         (update_comment_body "2026-01-15" sample_research sample_analysis)].
Proof.
  split.
  - refine (report_findings_find_or_create (sample_env (Response (IssueSearch.mk 0 [])))
              sample_kaizen sample_domain sample_research sample_analysis sample_state
              _ sample_labels_allocated).
    intros data [= <-]. unfold consistent. simpl. split; [lia | done].
  - refine (report_findings_find_or_create
              (sample_env (Response (IssueSearch.mk 1 [sample_issue])))
              sample_kaizen sample_domain sample_research sample_analysis sample_state
              _ sample_labels_allocated).
    intros data [= <-]. unfold consistent. simpl. split; [done | lia].
Defined.

(** A first run on the sample inputs when no issue is open: one search, one
    issue created, and the label list of the configuration as it was. *)
Example report_findings_creates_once :
  let out := report_findings (sample_env (Response (IssueSearch.mk 0 []))) sample_kaizen
               sample_domain sample_research sample_analysis sample_state in
  out.1 = Ok tt
  ∧ labels_sent <$> requests_of (trace out.2) = [None; Some ["test-label"; "test-domain"]]
  ∧ heap out.2 !! 1%positive = Some ["test-label"].
Proof. split_and!; by vm_compute. Qed.

Lemma report_findings_labels env self domain research_output analysis_output s r :
  labels_allocated (heap s) (settings_of self) →
  r ∈ requests_of
        (new_events s (report_findings env self domain research_output analysis_output s).2) →
  ∀ labels, labels_sent r = Some labels →
  labels = configured_labels (heap s) (settings_of self) ++ [Domain.id domain].
Proof.
  intros Halloc Hr labels Hlabels.
  destruct (report_findings_run env self domain research_output analysis_output s)
    as (new & Htrace & _ & Hshape).
  cbv zeta in Hshape. fold (settings_of self) in Hshape.
  rewrite labels_for_configured in Hshape by done.
  unfold new_events in Hr. rewrite Htrace, drop_app_length in Hr.
  destruct (existing_issue _) as [[issue|]|e].
  - rewrite Hshape in Hr. apply elem_of_cons in Hr as [->|Hr]; [simplify_eq/=|].
    apply list_elem_of_singleton in Hr as ->. simplify_eq/=.
  - destruct Hshape as (n & _ & Hreq & _). rewrite Hreq in Hr.
    apply elem_of_cons in Hr as [->|Hr]; [simplify_eq/=|].
    apply elem_of_replicate in Hr as [-> _]. by simplify_eq/=.
  - destruct Hshape as [Hreq _]. rewrite Hreq in Hr.
    apply list_elem_of_singleton in Hr as ->. simplify_eq/=.
Qed.

(** An [append] is seen through every reference to the list object. *)
Lemma append_in_place l x s :
  heap (append l x s).2 !! l = Some (default [] (heap s !! l) ++ [x]).
Proof. unfold append. cbn [snd heap]. by rewrite lookup_insert_eq. Qed.

(** C9.  [report_findings] leaves every list object of the store it starts
    from as it was, after one run and after a second one: the id of the
    domain is appended to a copy.  So the label list of the configuration
    reads the same before and after, and every issue either run creates
    carries the same labels, the configured ones followed by the id of the
    domain. *)
Theorem report_findings_preserves_configuration
    env self domain research_output analysis_output s :
  let run := report_findings env self domain research_output analysis_output in
  let s1 := (run s).2 in
  let s2 := (run s1).2 in
  (∀ l, is_Some (heap s !! l) → heap s1 !! l = heap s !! l ∧ heap s2 !! l = heap s !! l)
  ∧ (labels_allocated (heap s) (settings_of self) →
       configured_labels (heap s1) (settings_of self)
       = configured_labels (heap s) (settings_of self)
       ∧ ∀ r labels,
           r ∈ requests_of (new_events s s1) ++ requests_of (new_events s1 s2) →
           labels_sent r = Some labels →
           labels = configured_labels (heap s) (settings_of self) ++ [Domain.id domain]).
Proof.
  intros run s1 s2.
  destruct (report_findings_run env self domain research_output analysis_output s)
    as (new1 & _ & Hframe1 & _).
  destruct (report_findings_run env self domain research_output analysis_output s1)
    as (new2 & _ & Hframe2 & _).
  cbv zeta in Hframe1, Hframe2. fold run in Hframe1, Hframe2. fold s1 in Hframe1, Hframe2.
  fold s2 in Hframe2.
  assert (∀ l, is_Some (heap s !! l) → heap s1 !! l = heap s !! l ∧ heap s2 !! l = heap s !! l)
    as Hframe.
  { intros l Hl. pose proof (Hframe1 l Hl) as H1. split; [done|].
    rewrite <-H1. apply Hframe2. by rewrite H1. }
  split; [done|]. intros Halloc.
  assert (configured_labels (heap s1) (settings_of self)
          = configured_labels (heap s) (settings_of self)) as Hsame.
  { unfold configured_labels. destruct (GlobalSettings.issue_labels _) as [l|] eqn:E; [|done].
    by rewrite (proj1 (Hframe l (Halloc l E))). }
  split; [done|]. intros r labels [Hr|Hr]%elem_of_app Hlabels.
  - by eapply report_findings_labels.
  - rewrite <-Hsame. eapply report_findings_labels; [|done..].
    intros l El. rewrite (proj1 (Hframe l (Halloc l El))). by apply Halloc.
Qed.

(** * Further properties *)

(** ** Construction of the clients *)

Lemma truthy_spec x : if truthy x then ∃ c s, x = Some (String c s) else blank x.
Proof. destruct x as [[|c s]|]; simpl; unfold blank; eauto. Qed.

Lemma py_or_chosen explicit from_env :
  match py_or explicit from_env with
  | Some (String c s) => chosen explicit from_env (String c s)
  | _ => blank explicit ∧ blank from_env
  end.
Proof.
  unfold py_or, chosen. pose proof (truthy_spec explicit) as He.
  destruct (truthy explicit).
  - destruct He as (c & s & ->). split; [done|by left].
  - pose proof (truthy_spec from_env) as Hv. destruct from_env as [[|c s]|]; simpl in *; try done.
    split; [done|]. right. done.
Qed.

(** X1.  [TavilyClient.__init__] and [AnthropicClient.__init__] keep the
    explicit key unless it is [None] or empty, and the key of the environment
    variable otherwise; the key kept is never empty.  They raise [ValueError]
    with the message naming the variable exactly when both are [None] or
    empty, so an empty explicit key does not hide the environment and an
    empty variable counts as unset. *)
Theorem api_key_resolution environ api_key :
  match TavilyClient___init__ environ api_key with
  | Ok client => chosen api_key (environ !! "TAVILY_API_KEY") (TavilyClient.api_key client)
  | Raise e =>
      e = ValueError "TAVILY_API_KEY environment variable is not set"
      ∧ missing api_key (environ !! "TAVILY_API_KEY")
  end
  ∧ match AnthropicClient___init__ environ api_key with
    | Ok client =>
        chosen api_key (environ !! "ANTHROPIC_API_KEY") (AnthropicClient.api_key client)
    | Raise e =>
        e = ValueError "ANTHROPIC_API_KEY environment variable is not set"
        ∧ missing api_key (environ !! "ANTHROPIC_API_KEY")
    end.
Proof.
  unfold TavilyClient___init__, AnthropicClient___init__, missing. split.
  - pose proof (py_or_chosen api_key (environ !! "TAVILY_API_KEY")) as H.
    destruct (py_or _ _) as [[|c s]|]; simpl; done.
  - pose proof (py_or_chosen api_key (environ !! "ANTHROPIC_API_KEY")) as H.
    destruct (py_or _ _) as [[|c s]|]; simpl; done.
Qed.

(** X2.  [GitHubClient.__init__] resolves the token and the repository the
    same way, each from its argument or else from [GITHUB_TOKEN] and
    [GITHUB_REPOSITORY].  The token is checked first: when both are missing
    the error names [GITHUB_TOKEN], and the error names [GITHUB_REPOSITORY]
    only when a token was found. *)
Theorem github_client_resolution environ token repository :
  match GitHubClient___init__ environ token repository with
  | Ok client =>
      chosen token (environ !! "GITHUB_TOKEN") (GitHubClient.token client)
      ∧ chosen repository (environ !! "GITHUB_REPOSITORY") (GitHubClient.repository client)
  | Raise e =>
      (e = ValueError "GITHUB_TOKEN environment variable is not set"
       ∧ missing token (environ !! "GITHUB_TOKEN"))
      ∨ (e = ValueError "GITHUB_REPOSITORY environment variable is not set"
         ∧ (∃ key, chosen token (environ !! "GITHUB_TOKEN") key)
         ∧ missing repository (environ !! "GITHUB_REPOSITORY"))
  end.
Proof.
  unfold GitHubClient___init__, missing.
  pose proof (py_or_chosen token (environ !! "GITHUB_TOKEN")) as Ht.
  pose proof (py_or_chosen repository (environ !! "GITHUB_REPOSITORY")) as Hr.
  destruct (py_or token _) as [[|c s]|]; simpl; [by left| |by left].
  destruct (py_or repository _) as [[|c' s']|]; simpl; [|done|]; right; eauto.
Qed.

Lemma chosen_not_missing explicit from_env key :
  chosen explicit from_env key → ¬ missing explicit from_env.
Proof.
  intros [Hne [->|[_ ->]]] [[?|?] [?|?]]; congruence.
Qed.

(** X3.  [DotfilesKaizen.__init__] stores the configuration as given and the
    path [Path(content_base)], takes the search and completion keys from the
    environment only, and the token and repository from its arguments or else
    the environment.  When it fails, the error is the first of four in the
    order [TAVILY_API_KEY], [ANTHROPIC_API_KEY], [GITHUB_TOKEN],
    [GITHUB_REPOSITORY]: each is reported only when all earlier credentials
    are present. *)
Theorem kaizen_construction environ config content_base issue_repository github_token :
  let tavily := environ !! "TAVILY_API_KEY" in
  let anthropic := environ !! "ANTHROPIC_API_KEY" in
  let token := environ !! "GITHUB_TOKEN" in
  let repository := environ !! "GITHUB_REPOSITORY" in
  match DotfilesKaizen___init__ environ config content_base issue_repository github_token with
  | Ok self =>
      Kaizen.config self = config
      ∧ Kaizen.content_base self = Path content_base
      ∧ chosen None tavily (TavilyClient.api_key (Kaizen.tavily_client self))
      ∧ chosen None anthropic (AnthropicClient.api_key (Kaizen.anthropic_client self))
      ∧ chosen github_token token (GitHubClient.token (Kaizen.github_client self))
      ∧ chosen issue_repository repository
          (GitHubClient.repository (Kaizen.github_client self))
  | Raise e =>
      (e = ValueError "TAVILY_API_KEY environment variable is not set" ∧ blank tavily)
      ∨ (e = ValueError "ANTHROPIC_API_KEY environment variable is not set"
         ∧ ¬ blank tavily ∧ blank anthropic)
      ∨ (e = ValueError "GITHUB_TOKEN environment variable is not set"
         ∧ ¬ blank tavily ∧ ¬ blank anthropic ∧ missing github_token token)
      ∨ (e = ValueError "GITHUB_REPOSITORY environment variable is not set"
         ∧ ¬ blank tavily ∧ ¬ blank anthropic ∧ ¬ missing github_token token
         ∧ missing issue_repository repository)
  end.
Proof.
  intros tavily anthropic token repository.
  subst tavily anthropic token repository.
  unfold DotfilesKaizen___init__, TavilyClient___init__, AnthropicClient___init__,
    GitHubClient___init__.
  pose proof (py_or_chosen None (environ !! "TAVILY_API_KEY")) as Ht.
  pose proof (py_or_chosen None (environ !! "ANTHROPIC_API_KEY")) as Ha.
  pose proof (py_or_chosen github_token (environ !! "GITHUB_TOKEN")) as Hg.
  pose proof (py_or_chosen issue_repository (environ !! "GITHUB_REPOSITORY")) as Hr.
  assert (∀ v key, chosen None v key → ¬ blank v) as Hpresent.
  { intros v key Hc Hb. apply (chosen_not_missing _ _ _ Hc). split; [by left|done]. }
  cbn [mbind result_mbind result_bind].
  destruct (py_or None (environ !! "TAVILY_API_KEY")) as [[|c1 s1]|];
    cbn [truthy negb result_bind]; [left; by destruct Ht| |left; by destruct Ht].
  destruct (py_or None (environ !! "ANTHROPIC_API_KEY")) as [[|c2 s2]|];
    cbn [truthy negb result_bind];
    [right; left; destruct Ha; split_and!; eauto| |right; left; destruct Ha; split_and!; eauto].
  destruct (py_or github_token (environ !! "GITHUB_TOKEN")) as [[|c3 s3]|];
    cbn [truthy negb result_bind];
    [right; right; left; split_and!; eauto| |right; right; left; split_and!; eauto].
  destruct (py_or issue_repository (environ !! "GITHUB_REPOSITORY")) as [[|c4 s4]|];
    cbn [truthy negb result_bind from_option id].
  - right; right; right. split_and!; eauto using chosen_not_missing.
  - done.
  - right; right; right. split_and!; eauto using chosen_not_missing.
Qed.

Lemma DotfilesKaizen___init___config environ config content_base issue_repository
    github_token self :
  DotfilesKaizen___init__ environ config content_base issue_repository github_token = Ok self →
  Kaizen.config self = config.
Proof.
  unfold DotfilesKaizen___init__. cbn [mbind result_mbind result_bind].
  destruct (TavilyClient___init__ _ _); cbn [result_bind]; [|done].
  destruct (AnthropicClient___init__ _ _); cbn [result_bind]; [|done].
  destruct (GitHubClient___init__ _ _ _); cbn [result_bind]; [|done].
  by intros [= <-].
Qed.

(** ** [read_target_files] *)

(** The loop over files that raise nothing but [OSError]. *)
Lemma read_target_files_files_run host files parts w :
  Forall (decodable host) files →
  read_target_files_files host files parts w
  = (Ok (parts ++ sections_of host files),
     World (inner w) (stderr w ++ warnings_of host files)).
Proof.
  intros Hfiles. revert parts w.
  induction Hfiles as [|f files Hf _ IH]; intros parts w.
  - cbn. rewrite !app_nil_r. by destruct w.
  - cbn [read_target_files_files sections_of warnings_of omap list_omap].
    unfold decodable in Hf.
    destruct (Host.read_text host (DirEntry.path f)) as [content|e|e]; [| |by destruct (Hf e)].
    + rewrite IH. fold (file_section f content). by rewrite <-app_assoc.
    + unfold mbind, P_mbind, P_bind, eprint. rewrite IH. cbn [inner stderr].
      fold (file_warning f e). by rewrite <-app_assoc.
Qed.

Lemma read_target_files_patterns_run host patterns base matched parts w :
  globbed host base patterns matched →
  Forall (decodable host) (concat matched) →
  read_target_files_patterns host patterns base parts w
  = (Ok (parts ++ sections_of host (concat matched)),
     World (inner w) (stderr w ++ warnings_of host (concat matched))).
Proof.
  intros Hglob. revert parts w.
  induction Hglob as [|pattern files patterns matched Hp _ IH]; intros parts w Hdec.
  - cbn. rewrite !app_nil_r. by destruct w.
  - cbn [concat] in Hdec. apply Forall_app in Hdec as [Hfiles Hrest].
    cbn [read_target_files_patterns concat]. unfold mbind, P_mbind, P_bind, lift_P.
    rewrite Hp, (read_target_files_files_run _ _ _ _ Hfiles), (IH _ _ Hrest).
    cbn [inner stderr]. unfold sections_of, warnings_of.
    by rewrite !omap_app, <-!app_assoc.
Qed.

Lemma str_join_section_nonempty sep f content rest :
  str_join sep (file_section f content :: rest) ≠ "No matching files found."
  ∧ str_join sep (file_section f content :: rest) ≠ "".
Proof. destruct rest; cbn; split; discriminate. Qed.

Lemma sections_of_shape host files : Forall is_section (sections_of host files).
Proof.
  induction files as [|f files IH]; [constructor|].
  cbn [sections_of omap list_omap].
  destruct (Host.read_text host (DirEntry.path f)); cbn; [|done..].
  constructor; [by eexists _, _|done].
Qed.

(** X4.  When [glob] answers for every pattern and no matched file raises
    anything but [OSError], [read_target_files] returns the sections of the
    files it could read, each headed by the path relative to the base, in
    the order of the patterns and of the matches, joined by a rule; it writes
    one warning to standard error for each file that raised [OSError] and
    changes nothing else.  The fallback text is returned exactly when no
    file could be read, be it that nothing matched or that every match was
    unreadable. *)
Theorem read_target_files_gathers host target_patterns base_path matched w :
  globbed host base_path target_patterns matched →
  Forall (decodable host) (concat matched) →
  let sections := sections_of host (concat matched) in
  let content := match sections with
                 | [] => "No matching files found."
                 | _ :: _ => str_join section_separator sections
                 end in
  read_target_files host target_patterns base_path w
  = (Ok content, World (inner w) (stderr w ++ warnings_of host (concat matched)))
  ∧ (content = "No matching files found." ↔ sections = []).
Proof.
  intros Hglob Hdec sections content. split.
  - unfold read_target_files, mbind, P_mbind, P_bind.
    rewrite (read_target_files_patterns_run _ _ _ _ _ _ Hglob Hdec). done.
  - unfold content. pose proof (sections_of_shape host (concat matched)) as Hshape.
    fold sections in Hshape. destruct Hshape as [|part parts (f & c & ->) _]; [done|].
    split; [|done]. intros H. by apply str_join_section_nonempty in H.
Qed.

Lemma read_target_files_gathers_witness :
  read_target_files (sample_host sample_environ) ["n*"; "*.md"] (Path "docs")
    (World sample_state [])
  = (Ok (str_join nl ["### File: test.md"; ""; "# Test content"; ""; "---"; "";
                      "### File: other.md"; ""; "# Other content"]),
     World sample_state
       ["Warning: Could not read docs/notes: [Errno 21] Is a directory: 'docs/notes'"]).
Proof.
  refine (proj1 (read_target_files_gathers (sample_host sample_environ) ["n*"; "*.md"]
                   (Path "docs")
                   [[notes_dir]; [test_md; other_md]] (World sample_state []) _ _)).
  - repeat constructor.
  - repeat constructor; intros e; discriminate.
Defined.

(** The loops on any host: what they write and what they return or raise. *)
Lemma read_target_files_files_frame host files parts w :
  let out := read_target_files_files host files parts w in
  (∃ warnings, out.2 = World (inner w) (stderr w ++ warnings) ∧ Forall is_warning warnings)
  ∧ match out.1 with
    | Ok parts' => ∃ more, parts' = parts ++ more ∧ Forall is_section more
    | Raise e => ∃ f, f ∈ files ∧ Host.read_text host (DirEntry.path f) = FileError e
    end.
Proof.
  revert parts w. induction files as [|f files IH]; intros parts w out; unfold out; clear out.
  - cbn. split; [exists []|exists []]; rewrite ?app_nil_r; [by destruct w|done].
  - cbn [read_target_files_files].
    destruct (Host.read_text host (DirEntry.path f)) as [content|e|e] eqn:E.
    + destruct (IH (parts ++ [file_section f content]) w) as [Hw Hr].
      split; [done|]. fold (file_section f content).
      destruct (read_target_files_files host files _ w).1 as [parts'|e'].
      * destruct Hr as (more & -> & Hmore). exists (file_section f content :: more).
        rewrite <-app_assoc. split; [done|]. constructor; [by eexists _, _|done].
      * destruct Hr as (f' & ? & ?). exists f'. split; [by right|done].
    + unfold mbind, P_mbind, P_bind, eprint. fold (file_warning f e).
      destruct (IH parts (World (inner w) (stderr w ++ [file_warning f e]))) as [Hw Hr].
      cbn [inner stderr] in *. split.
      * destruct Hw as (warnings & -> & Hwarn). exists (file_warning f e :: warnings).
        rewrite <-app_assoc. split; [done|]. constructor; [by eexists _, _|done].
      * destruct (read_target_files_files host files parts _).1 as [parts'|e']; [done|].
        destruct Hr as (f' & ? & ?). exists f'. split; [by right|done].
    + cbn. split.
      * exists []. rewrite app_nil_r. split; [by destruct w|done].
      * exists f. split; [by left|done].
Qed.

Lemma read_target_files_patterns_frame host patterns base parts w :
  let out := read_target_files_patterns host patterns base parts w in
  (∃ warnings, out.2 = World (inner w) (stderr w ++ warnings) ∧ Forall is_warning warnings)
  ∧ match out.1 with
    | Ok parts' => ∃ more, parts' = parts ++ more ∧ Forall is_section more
    | Raise e => raised_by_host host base patterns e
    end.
Proof.
  revert parts w. induction patterns as [|pattern patterns IH]; intros parts w out;
    unfold out; clear out.
  - cbn. split; [exists []|exists []]; rewrite ?app_nil_r; [by destruct w|done].
  - cbn [read_target_files_patterns]. unfold mbind, P_mbind, P_bind, lift_P.
    destruct (Host.glob host base pattern) as [files|e] eqn:E.
    + destruct (read_target_files_files_frame host files parts w) as [Hw Hr].
      destruct (read_target_files_files host files parts w) as [[parts1|e1] w1];
        cbn [fst snd] in *.
      * destruct (IH parts1 w1) as [Hw' Hr'].
        destruct Hw as (warnings & -> & Hwarn). cbn [inner stderr] in Hw'.
        destruct Hw' as (warnings' & Hw' & Hwarn'). split.
        -- exists (warnings ++ warnings'). rewrite app_assoc. split; [done|].
           by apply Forall_app.
        -- destruct (read_target_files_patterns host patterns base parts1 _).1 as [parts2|e2].
           ++ destruct Hr as (more & -> & Hmore). destruct Hr' as (more' & -> & Hmore').
              exists (more ++ more'). rewrite app_assoc. split; [done|]. by apply Forall_app.
           ++ destruct Hr' as (p & Hp & H). exists p. split; [by right|done].
      * split; [done|]. destruct Hr as (f & Hf & Hread). exists pattern.
        split; [by left|]. right. eauto.
    + cbn. split.
      * exists []. rewrite app_nil_r. split; [by destruct w|done].
      * exists pattern. split; [by left|by left].
Qed.

Lemma read_target_files_effects host target_patterns base_path w :
  let out := read_target_files host target_patterns base_path w in
  inner out.2 = inner w
  ∧ ∃ warnings, stderr out.2 = stderr w ++ warnings ∧ Forall is_warning warnings.
Proof.
  intros out. unfold out, read_target_files, mbind, P_mbind, P_bind.
  destruct (read_target_files_patterns_frame host target_patterns base_path [] w)
    as [(warnings & Hw & Hwarn) _].
  destruct (read_target_files_patterns host target_patterns base_path [] w)
    as [[parts|e] w1]; cbn [fst snd] in *; subst w1; cbn; eauto.
Qed.

(** X5.  On any host, [read_target_files] sends no request and prints
    nothing to standard output: the state of the run is left as it was, and
    standard error gains only warnings about files.  The text it returns is
    never empty, and an exception it raises is one [glob] raised for one of
    the patterns or one that reading a matched file raised and that is not an
    [OSError]. *)
Theorem read_target_files_frame host target_patterns base_path w :
  let out := read_target_files host target_patterns base_path w in
  inner out.2 = inner w
  ∧ (∃ warnings, stderr out.2 = stderr w ++ warnings ∧ Forall is_warning warnings)
  ∧ match out.1 with
    | Ok content => content ≠ ""
    | Raise e => raised_by_host host base_path target_patterns e
    end.
Proof.
  intros out. unfold out, read_target_files, mbind, P_mbind, P_bind.
  destruct (read_target_files_patterns_frame host target_patterns base_path [] w) as [Hw Hr].
  destruct (read_target_files_patterns host target_patterns base_path [] w)
    as [[parts|e] w1]; cbn [fst snd] in *.
  - destruct Hw as (warnings & -> & Hwarn). cbn. split_and!; [done|eauto|].
    destruct Hr as (more & -> & Hmore). cbn [app].
    destruct Hmore as [|part more (f & c & ->) _]; [done|].
    apply str_join_section_nonempty.
  - destruct Hw as (warnings & -> & Hwarn). cbn. split_and!; [done|eauto|done].
Qed.

(** X6.  A matched file whose reading raises something other than [OSError],
    such as the [ValueError] of a file that is not UTF-8, ends
    [read_target_files]: the exception propagates, the files after it and the
    later patterns are not read, the sections gathered so far are lost, and
    the warnings written before stay on standard error. *)
Theorem read_target_files_undecodable host earlier pattern later base_path matched
    before f after e w :
  globbed host base_path earlier matched →
  Host.glob host base_path pattern = Ok (before ++ f :: after) →
  Forall (decodable host) (concat matched ++ before) →
  Host.read_text host (DirEntry.path f) = FileError e →
  read_target_files host (earlier ++ pattern :: later) base_path w
  = (Raise e, World (inner w) (stderr w ++ warnings_of host (concat matched ++ before))).
Proof.
  intros Hglob Hpattern [Hdec Hbefore]%Forall_app Hread.
  unfold read_target_files, mbind, P_mbind, P_bind.
  enough (∀ parts w,
            read_target_files_patterns host (earlier ++ pattern :: later) base_path parts w
            = (Raise e, World (inner w)
                          (stderr w ++ warnings_of host (concat matched ++ before)))) as ->
    by done.
  clear w. induction Hglob as [|p files earlier matched Hp _ IH]; intros parts w.
  - cbn [app concat read_target_files_patterns]. unfold mbind, P_mbind, P_bind, lift_P.
    rewrite Hpattern.
    enough (∀ parts w,
              read_target_files_files host (before ++ f :: after) parts w
              = (Raise e, World (inner w) (stderr w ++ warnings_of host before))) as ->
      by done.
    clear parts w Hdec Hpattern. induction Hbefore as [|g before Hg _ IHb]; intros parts w.
    + cbn [app read_target_files_files]. rewrite Hread. cbn. rewrite app_nil_r. by destruct w.
    + cbn [app read_target_files_files warnings_of omap list_omap]. unfold decodable in Hg.
      destruct (Host.read_text host (DirEntry.path g)) as [c|e'|e']; [| |by destruct (Hg e')].
      * by rewrite IHb.
      * unfold mbind, P_mbind, P_bind, eprint. rewrite IHb. cbn [inner stderr].
        fold (file_warning g e'). by rewrite <-app_assoc.
  - cbn [concat] in Hdec. apply Forall_app in Hdec as [Hfiles Hrest].
    cbn [app read_target_files_patterns concat]. unfold mbind, P_mbind, P_bind, lift_P.
    rewrite Hp, (read_target_files_files_run _ _ _ _ Hfiles), (IH Hrest).
    cbn [inner stderr]. unfold warnings_of. by rewrite !omap_app, <-!app_assoc.
Qed.

Lemma read_target_files_undecodable_witness :
  read_target_files (sample_host sample_environ) ["*.md"; "*"; "n*"] (Path "docs")
    (World sample_state [])
  = (Raise not_utf8,
     World sample_state
       ["Warning: Could not read docs/notes: [Errno 21] Is a directory: 'docs/notes'"]).
Proof.
  refine (read_target_files_undecodable (sample_host sample_environ) ["*.md"] "*" ["n*"]
            (Path "docs") [[test_md; other_md]] [test_md; notes_dir] latin1_txt [other_md]
            not_utf8
            (World sample_state []) _ _ _ _).
  - repeat constructor.
  - reflexivity.
  - repeat constructor; intros e; discriminate.
  - reflexivity.
Defined.

(** ** [_extract_section] on any text *)

(** The first occurrence of a substring. *)
Lemma first_occurrence sub s :
  str_in sub s = true →
  ∃ pre post, s = pre +:+ sub +:+ post
    ∧ ∀ p q, s = p +:+ sub +:+ q → String.length pre ≤ String.length p.
Proof.
  unfold str_in. rewrite negb_true_iff, Z.eqb_neq. intros H.
  destruct (find_chars_spec (chars sub) (chars s) 0) as [[? _]|(k & Hk & _ & Hp & Hmin)];
    [done|].
  pose proof Hp as (p & q & Hs & Hlen)%prefix_drop_decompose; [|done].
  exists (of_chars p), (of_chars q). split.
  - apply chars_inj. by rewrite !chars_app, !chars_of_chars.
  - intros p' q' Hpq. rewrite <-!length_chars, chars_of_chars, Hlen.
    destruct (decide (k ≤ length (chars p'))) as [|Hlt]; [done|].
    destruct (Hmin (length (chars p'))); [lia|].
    rewrite Hpq, !chars_app, drop_app_length. by apply prefix_app_r.
Qed.

Lemma length_app_string (a b : string) :
  String.length (a +:+ b) = String.length a + String.length b.
Proof. by rewrite <-!length_chars, chars_app, length_app. Qed.

(** A substring that is not empty does not occur before its first
    occurrence. *)
Lemma first_occurrence_clean sub pre post :
  sub ≠ "" →
  (∀ p q, pre +:+ sub +:+ post = p +:+ sub +:+ q → String.length pre ≤ String.length p) →
  ∀ p q, pre ≠ p +:+ sub +:+ q.
Proof.
  intros Hsub Hfirst p q Hpq.
  specialize (Hfirst p (q +:+ sub +:+ post)).
  rewrite Hpq, !str_app_assoc in Hfirst. specialize (Hfirst eq_refl).
  rewrite !length_app_string in Hfirst. destruct sub; [done|]. simpl in Hfirst. lia.
Qed.

(** The section that a marker ends. *)
Lemma extract_section_upto_marker pre section_name body rest :
  let header := "## " +:+ section_name in
  let text := pre +:+ header +:+ body +:+ h2_marker +:+ rest in
  (∀ p q, text = p +:+ header +:+ q → String.length pre ≤ String.length p) →
  (∀ p q, body ≠ p +:+ h2_marker +:+ q) →
  _extract_section text section_name = Ok (str_strip body).
Proof.
  intros header text Hfirst Hnext.
  unfold _extract_section. fold header. fold h2_marker.
  pose proof (str_index_first pre header (body +:+ h2_marker +:+ rest) Hfirst) as Hidx.
  change (str_index text header = Ok (len pre)) in Hidx. rewrite Hidx.
  cbn [mbind result_mbind result_bind try_except_ValueError].
  assert (text = (pre +:+ header) +:+ body +:+ h2_marker +:+ rest) as Htext.
  { unfold text. by rewrite str_app_assoc. }
  assert (len pre + len header = len (pre +:+ header))%Z as Hlen.
  { rewrite !len_chars, chars_app, length_app. lia. }
  rewrite Hlen, Htext, (str_find_next_marker _ _ _ Hnext).
  rewrite (proj2 (Z.eqb_neq _ _)) by (unfold len; lia).
  by rewrite str_slice_middle.
Qed.

Lemma extract_section_total text section_name :
  ∃ section, _extract_section text section_name = Ok section.
Proof.
  unfold _extract_section, str_index. cbn [mbind]. unfold result_mbind.
  destruct (_ =? -1)%Z; cbn; [eauto|]. destruct (_ =? -1)%Z; eauto.
Qed.

(** X7.  [_extract_section] raises on no text and no section name, and its
    result is determined as follows.  If the string ["## name"] does not
    occur in the text, the result is empty.  Otherwise the text splits at the
    first occurrence of that string into what precedes it, the string, a
    body holding no newline followed by ["## "], and a tail that is empty or
    begins with such a marker; the result is the body with surrounding
    whitespace trimmed.  So the section runs to the end of the text when no
    marker follows, and the header is found wherever the string occurs, also
    inside a longer header or in the middle of a line. *)
Theorem extract_section_complete text section_name :
  let header := "## " +:+ section_name in
  ((∀ p q, text ≠ p +:+ header +:+ q) ∧ _extract_section text section_name = Ok "")
  ∨ ∃ pre body tail,
      text = pre +:+ header +:+ body +:+ tail
      ∧ (∀ p q, text = p +:+ header +:+ q → String.length pre ≤ String.length p)
      ∧ (∀ p q, body ≠ p +:+ h2_marker +:+ q)
      ∧ (tail = "" ∨ ∃ rest, tail = h2_marker +:+ rest)
      ∧ _extract_section text section_name = Ok (str_strip body).
Proof.
  intros header. destruct (str_in header text) eqn:Hin.
  - right. apply first_occurrence in Hin as (pre & post & -> & Hfirst).
    destruct (str_in h2_marker post) eqn:Hnext.
    + apply first_occurrence in Hnext as (body & rest & -> & Hbody).
      pose proof (first_occurrence_clean h2_marker body rest ltac:(done) Hbody) as Hno.
      exists pre, body, (h2_marker +:+ rest). split_and!; [done|done|done|eauto|].
      by apply extract_section_upto_marker.
    + rewrite str_in_false in Hnext. exists pre, post, "".
      split_and!; [|done|done|by left|by apply extract_section_last].
      apply chars_inj. by rewrite !chars_app, app_nil_r.
  - left. rewrite str_in_false in Hin. split; [done|].
    unfold _extract_section. fold header.
    destruct (str_index_absent text header Hin) as [msg Hidx].
    cbn [mbind]. unfold result_mbind. by rewrite Hidx.
Qed.

(** ** What a call under retry costs *)

Lemma new_events_app s s' new : trace s' = trace s ++ new → new_events s s' = new.
Proof. unfold new_events. intros ->. by rewrite drop_app_length. Qed.

Lemma sleeps_of_app tr1 tr2 : sleeps_of (tr1 ++ tr2) = sleeps_of tr1 ++ sleeps_of tr2.
Proof. apply omap_app. Qed.

Lemma sleeps_of_backoff api req i failures :
  sleeps_of (backoff_events api req i failures)
  = (λ k, RETRY_DELAY * k) <$> seq i (length failures).
Proof.
  revert i. induction failures as [|e failures IH]; intros i; [done|].
  cbn [backoff_events length seq fmap list_fmap]. rewrite sleeps_of_app, IH. done.
Qed.

Lemma retry_contract_bounded {A B} api service req (post : B → result A) s out :
  (∀ b e, post b ≠ Raise (RequestException e)) →
  (∀ b msg, post b ≠ Raise (Exception msg)) →
  retry_contract api service req post 1 MAX_RETRIES s out →
  bounded_retry req s out.
Proof.
  intros Hanswered Hpost (failures & Hlen & Hheap & Htrace & _ & Hres & Hlast). cbn zeta in *.
  exists (S (length failures)).
  rewrite <-app_assoc in Htrace.
  rewrite (new_events_app _ _ _ Htrace).
  split_and!; [lia|unfold MAX_RETRIES in *; lia|done|eauto| | | |].
  - by rewrite requests_of_app, requests_of_backoff, <-replicate_snoc.
  - rewrite sleeps_of_app, sleeps_of_backoff. cbn. rewrite app_nil_r. f_equal. f_equal. lia.
  - intros e He. rewrite He in Hres.
    destruct (service _ req) as [b|e'] eqn:E; [|by eapply Hlast].
    by destruct (Hanswered b e).
  - intros msg Hmsg. rewrite Hmsg in Hres.
    destruct (service _ req) as [b|e'] eqn:E; [|done]. by destruct (Hpost b msg).
Qed.

Lemma first_text_raises data e :
  first_text data = Raise e → e = IndexError "list index out of range".
Proof. unfold first_text. destruct (AnthropicResponse.content data); cbn; congruence. Qed.

(** X8.  [TavilyClient.search], [AnthropicClient.generate_response] and
    [GitHubClient.create_issue] each send their request once, twice or three
    times and nothing else; they sleep 2 seconds after a first failure and 4
    after a second, so 6 seconds at most; they raise a [requests] failure
    only after the third attempt; and the [raise Exception(...)] that follows
    each loop is never reached. *)
Theorem retry_bounds env :
  (∀ self query max_results include_domains exclude_domains s,
     bounded_retry
       (TavilySearch query max_results (default [] include_domains)
          (default [] exclude_domains)) s
       (TavilyClient_search env self query max_results include_domains exclude_domains s))
  ∧ (∀ self system_prompt user_prompt temperature s,
       bounded_retry (AnthropicMessages system_prompt user_prompt temperature) s
         (AnthropicClient_generate_response env self system_prompt user_prompt temperature s))
  ∧ (∀ self title body labels assignees s,
       bounded_retry
         (GitHubCreateIssue (GitHubClient.repository self) title body
            (from_option (λ l, default [] (heap s !! l)) [] labels)
            (from_option (λ l, default [] (heap s !! l)) [] assignees)) s
         (GitHubClient_create_issue env self title body labels assignees s)).
Proof.
  split_and!; intros.
  - eapply retry_contract_bounded; [..|apply TavilyClient_search_contract]; done.
  - eapply retry_contract_bounded; [..|apply AnthropicClient_generate_response_contract].
    + intros data e H. by apply first_text_raises in H.
    + intros data msg H. by apply first_text_raises in H.
  - eapply retry_contract_bounded; [..|apply GitHubClient_create_issue_contract]; done.
Qed.

(** The delays of a search while the service is unreachable. *)
Example search_while_offline_sleeps :
  sleeps_of (TavilyClient_search offline_env (TavilyClient.mk "test") "q" 5 None None
               sample_state).2.(trace)
  = [2; 4].
Proof. reflexivity. Qed.

(** X9.  When the completion service answers the first attempt,
    [generate_response] sends nothing more: it returns the text of the first
    content block, and if the answer has no content block it raises
    [IndexError] at once, without another attempt. *)
Theorem generate_response_answered env self system_prompt user_prompt temperature s data :
  let req := AnthropicMessages system_prompt user_prompt temperature in
  Env.anthropic env (trace s) req = Response data →
  AnthropicClient_generate_response env self system_prompt user_prompt temperature s
  = (match AnthropicResponse.content data with
     | [] => Raise (IndexError "list index out of range")
     | block :: _ => Ok (ContentBlock.text block)
     end,
     State (heap s) (trace s ++ [ERequest req])).
Proof.
  intros req Hdata. unfold AnthropicClient_generate_response. fold req.
  cbn [seq MAX_RETRIES retry_loop].
  unfold try_except_RequestException, mbind, M_mbind, M_bind, http, lift.
  rewrite Hdata. by destruct (AnthropicResponse.content data).
Qed.

Lemma generate_response_answered_witness :
  AnthropicClient_generate_response (sample_env (Failure offline)) (AnthropicClient.mk "test")
    "system" "user" 0.25%float sample_state
  = (Ok "## Gap Analysis",
     State (heap sample_state) [ERequest (AnthropicMessages "system" "user" 0.25%float)]).
Proof.
  refine (generate_response_answered (sample_env (Failure offline)) (AnthropicClient.mk "test")
            "system" "user" 0.25%float sample_state
            (AnthropicResponse.mk [ContentBlock.mk "## Gap Analysis"]) _).
  reflexivity.
Defined.

(** ** [collect_trends]: the search and the output *)

Lemma collect_trends_trace env self domain s :
  let search_hints := Domain.search_hints domain in
  let started :=
    trace s ++ [EPrint ("Starting Phase 1: Trend Collection for " +:+ Domain.name domain
                          +:+ "...")] in
  let query := trend_query search_hints (Datetime.year (Env.clock env started)) in
  let req := TavilySearch query
               (default 10%Z (GlobalSettings.max_search_results (settings_of self))) []
               (default [] (SearchHints.exclude_domains search_hints)) in
  let out := collect_trends env self domain s in
  ∃ n new, 1 ≤ n ≤ MAX_RETRIES
    ∧ heap out.2 = heap s
    ∧ trace out.2 = trace s ++ new ++ [ERequest req]
    ∧ requests_of (new ++ [ERequest req]) = replicate n req
    ∧ match out.1 with
      | Ok research_output =>
          ∃ results, Env.tavily env (trace s ++ new) req = Response results
            ∧ research_output
              = ResearchOutput.mk
                  (collect_trends_sources env search_hints
                     (default [] (TavilyResponse.results results)))
                  (default "No summary available." (TavilyResponse.answer results)) query
      | Raise e => ∃ err, e = RequestException err ∧ n = MAX_RETRIES
      end.
Proof.
  intros search_hints started query req out. unfold out.
  rewrite collect_trends_run. fold search_hints started. fold (trend_query search_hints
    (Datetime.year (Env.clock env started))). fold query.
  set (s0 := State _ _).
  pose proof (TavilyClient_search_contract env (DotfilesKaizen.tavily_client self) query
    (default 10%Z (GlobalSettings.max_search_results (settings_of self))) None
    (Some (default [] (SearchHints.exclude_domains search_hints))) s0)
    as (failures & Hlen & Hheap & Htrace & _ & Hres & Hlast).
  cbn [from_option id] in Htrace, Hres, Hlast. fold req in Htrace, Hres, Hlast.
  cbn zeta in *.
  destruct (TavilyClient_search _ _ _ _ _ _ s0) as [r s'].
  cbn [fst snd] in *.
  set (new := [EPrint ("Starting Phase 1: Trend Collection for " +:+ Domain.name domain
                          +:+ "..."); ENow; EPrint ("Search Query: " +:+ query)]
              ++ backoff_events "Tavily" req 1 failures).
  assert (trace s0 ++ backoff_events "Tavily" req 1 failures = trace s ++ new) as Hnew.
  { unfold s0, new, started. cbn [trace]. by rewrite <-!app_assoc. }
  rewrite Hnew in *.
  exists (S (length failures)), new.
  assert (requests_of (new ++ [ERequest req]) = replicate (S (length failures)) req) as Hreq.
  { unfold new. rewrite !requests_of_app, requests_of_backoff. cbn.
    by rewrite replicate_snoc. }
  destruct r as [results|e]; cbn [fst snd].
  - split_and!; [lia|unfold MAX_RETRIES in *; lia|done|by rewrite Htrace, <-app_assoc|done|].
    destruct (Env.tavily env _ req) as [results'|e]; [|done]. simplify_eq. eauto.
  - split_and!; [lia|unfold MAX_RETRIES in *; lia|done|by rewrite Htrace, <-app_assoc|done|].
    destruct (Env.tavily env _ req) as [results'|e'] eqn:E; [done|]. simplify_eq.
    exists e'. split; [done|]. by eapply Hlast.
Qed.

(** X10.  [collect_trends] sends only its search, one to three times: the
    query is the primary keywords, the focus areas and the year of the clock
    separated by spaces, the result cap is the configured one or 10, no
    domain is included and the excluded domains are those of the hints or
    none.  It leaves the store alone.  When it returns, the query of the
    output is that query, and sources and summary come from the answer to the
    last request, the summary being ["No summary available."] when the answer
    has none; when it raises, it raises the [requests] failure of the third
    attempt. *)
Theorem collect_trends_search env self domain s :
  let search_hints := Domain.search_hints domain in
  let started :=
    trace s ++ [EPrint ("Starting Phase 1: Trend Collection for " +:+ Domain.name domain
                          +:+ "...")] in
  let query := trend_query search_hints (Datetime.year (Env.clock env started)) in
  let req := TavilySearch query
               (default 10%Z (GlobalSettings.max_search_results (settings_of self))) []
               (default [] (SearchHints.exclude_domains search_hints)) in
  let out := collect_trends env self domain s in
  heap out.2 = heap s
  ∧ (∃ n, 1 ≤ n ≤ MAX_RETRIES ∧ requests_of (new_events s out.2) = replicate n req)
  ∧ match out.1 with
    | Ok research_output =>
        ResearchOutput.search_query research_output = query
        ∧ ∃ before results,
            trace out.2 = before ++ [ERequest req]
            ∧ Env.tavily env before req = Response results
            ∧ ResearchOutput.sources research_output
              = collect_trends_sources env search_hints
                  (default [] (TavilyResponse.results results))
            ∧ ResearchOutput.summary research_output
              = default "No summary available." (TavilyResponse.answer results)
    | Raise e =>
        ∃ err, e = RequestException err
          ∧ requests_of (new_events s out.2) = replicate MAX_RETRIES req
    end.
Proof.
  intros search_hints started query req out.
  destruct (collect_trends_trace env self domain s)
    as (n & new & Hn & Hheap & Htrace & Hreq & Hout).
  fold search_hints started query req out in Hheap, Htrace, Hreq, Hout.
  rewrite (new_events_app _ _ _ Htrace), Hreq.
  split_and!; [done|eauto|].
  destruct out.1 as [research_output|e].
  - destruct Hout as (results & Hresults & ->). cbn. split; [done|].
    exists (trace s ++ new), results. by rewrite <-app_assoc.
  - destruct Hout as (err & -> & ->). eauto.
Qed.

(** X11.  Two edges of the exclusion filter of [collect_trends].  Without
    excluded terms, the key being absent or the list empty, every result of
    the search becomes a source, in order.  With an empty string among the
    excluded terms no result is kept, whatever the results are, since the
    empty string is contained in every title. *)
Theorem collect_trends_exclusion_edges env search_hints results :
  let terms := default [] (SearchHints.exclude_terms search_hints) in
  (terms = [] → collect_trends_sources env search_hints results = to_source <$> results)
  ∧ ("" ∈ terms → collect_trends_sources env search_hints results = []).
Proof.
  intros terms. unfold collect_trends_sources. rewrite collect_trends_loop. fold terms.
  cbn [app]. split.
  - intros ->. f_equal. induction results as [|r results IH]; [done|].
    cbn [List.filter]. change (negb (hits env [] r)) with true. cbn iota. by rewrite IH.
  - intros Hblank.
    assert (∀ r, hits env terms r = true) as Hhits.
    { intros r. apply hits_excluded. exists "". split; [done|]. left.
      exists "", (lowered env (TavilyResult.title r)). done. }
    induction results as [|r results IH]; [done|].
    cbn [List.filter]. by rewrite Hhits.
Qed.

Lemma collect_trends_exclusion_edges_witness :
  collect_trends_sources offline_env (SearchHints.mk [] [] None None)
    (default [] (TavilyResponse.results sample_results))
  = to_source <$> default [] (TavilyResponse.results sample_results)
  ∧ collect_trends_sources offline_env (SearchHints.mk [] [] None (Some ["spam"; ""]))
      [TavilyResult.mk "Writing skills" "https://example.com/a" "Clear docs." 0.75%float]
    = [].
Proof.
  split.
  - refine (proj1 (collect_trends_exclusion_edges offline_env
                     (SearchHints.mk [] [] None None) _) _).
    reflexivity.
  - refine (proj2 (collect_trends_exclusion_edges offline_env
                     (SearchHints.mk [] [] None (Some ["spam"; ""])) _) _).
    cbn. set_solver.
Defined.

(** ** [analyze_content] *)

Lemma analyze_content_trace env self domain research_output current_content s :
  let req := analysis_request self domain research_output current_content in
  let out := analyze_content env self domain research_output current_content s in
  ∃ n new, 1 ≤ n ≤ MAX_RETRIES
    ∧ heap out.2 = heap s
    ∧ trace out.2 = trace s ++ new ++ [ERequest req]
    ∧ requests_of (new ++ [ERequest req]) = replicate n req
    ∧ match out.1 with
      | Ok analysis_output =>
          ∃ data, Env.anthropic env (trace s ++ new) req = Response data
            ∧ first_text data = Ok (AnalysisOutput.full_response analysis_output)
            ∧ _extract_section (AnalysisOutput.full_response analysis_output) "Gap Analysis"
              = Ok (AnalysisOutput.gap_analysis analysis_output)
            ∧ _extract_section (AnalysisOutput.full_response analysis_output) "Recommendations"
              = Ok (AnalysisOutput.recommendations analysis_output)
            ∧ _extract_section (AnalysisOutput.full_response analysis_output)
                "Implementation Guide"
              = Ok (AnalysisOutput.implementation_guide analysis_output)
      | Raise e =>
          (∃ err, e = RequestException err ∧ n = MAX_RETRIES)
          ∨ (e = IndexError "list index out of range"
             ∧ ∃ data, Env.anthropic env (trace s ++ new) req = Response data
                 ∧ AnthropicResponse.content data = [])
      end.
Proof.
  intros req out. unfold out. clear out.
  destruct (analyze_content env self domain research_output current_content s)
    as [r1 s1] eqn:Hout.
  cbn [fst snd].
  unfold analyze_content, mbind, M_mbind, M_bind, print, emit, lift, mret, M_mret, M_ret in Hout.
  cbn [heap trace] in Hout. fold (settings_of self) in Hout.
  unfold analysis_request in req. fold req in Hout.
  set (s0 := State _ _) in Hout.
  pose proof (AnthropicClient_generate_response_contract env
    (DotfilesKaizen.anthropic_client self) system_prompt_text
    (user_prompt_text domain
       (str_join ", " (AnalysisContext.priority_aspects (DomainDict.analysis_context domain)))
       research_output current_content)
    (default 0x1.3333333333333p-2%float
       (GlobalSettings.analysis_temperature (settings_of self))) s0)
    as (failures & Hlen & Hheap & Htrace & _ & Hres & Hlast).
  fold req in Htrace, Hres, Hlast. cbn zeta in *.
  destruct (AnthropicClient_generate_response _ _ _ _ _ s0) as [r s'].
  cbn [fst snd] in *.
  set (new := [EPrint ("Starting Phase 2: Analysis for " +:+ Domain.name (DomainDict.view domain)
                         +:+ "...")]
              ++ backoff_events "Anthropic" req 1 failures).
  assert (trace s0 ++ backoff_events "Anthropic" req 1 failures = trace s ++ new) as Hnew.
  { unfold s0, new. cbn [trace]. by rewrite <-!app_assoc. }
  rewrite Hnew in *.
  exists (S (length failures)), new.
  assert (requests_of (new ++ [ERequest req]) = replicate (S (length failures)) req) as Hreq.
  { unfold new. rewrite !requests_of_app, requests_of_backoff. cbn.
    by rewrite replicate_snoc. }
  destruct r as [full_response|e].
  - destruct (extract_section_total full_response "Gap Analysis") as [gap Hgap].
    destruct (extract_section_total full_response "Recommendations") as [rec Hrec].
    destruct (extract_section_total full_response "Implementation Guide") as [guide Hguide].
    rewrite Hgap, Hrec, Hguide in Hout. simplify_eq.
    cbn [AnalysisOutput.full_response AnalysisOutput.gap_analysis
         AnalysisOutput.recommendations AnalysisOutput.implementation_guide].
    split_and!; [lia|unfold MAX_RETRIES in *; lia|done|by rewrite Htrace, <-app_assoc|done|].
    destruct (Env.anthropic env _ req) as [data|e]; [|done]. exists data. done.
  - simplify_eq.
    split_and!; [lia|unfold MAX_RETRIES in *; lia|done|by rewrite Htrace, <-app_assoc|done|].
    destruct (Env.anthropic env _ req) as [data|e'] eqn:E.
    + right. unfold first_text in Hres. destruct (AnthropicResponse.content data) eqn:Ec;
        cbn in Hres; [|done]. simplify_eq. eauto.
    + left. simplify_eq. exists e'. split; [done|]. by eapply Hlast.
Qed.

(** X12.  [analyze_content] sends only its completion request, one to three
    times, with the fixed system prompt, the user prompt built from the
    domain, the research and the local content, and the configured
    temperature or 0.3; it leaves the store alone.  When it returns, the full
    response is the first text block of the answer to the last request, and
    the three other fields are what [_extract_section] finds in it under the
    headers ["Gap Analysis"], ["Recommendations"] and
    ["Implementation Guide"].  It raises either the [requests] failure of the
    third attempt or the [IndexError] of an answer without content, never a
    [ValueError]: a missing section is not an error. *)
Theorem analyze_content_outcome env self domain research_output current_content s :
  let req := analysis_request self domain research_output current_content in
  let out := analyze_content env self domain research_output current_content s in
  heap out.2 = heap s
  ∧ (∃ n, 1 ≤ n ≤ MAX_RETRIES ∧ requests_of (new_events s out.2) = replicate n req)
  ∧ match out.1 with
    | Ok analysis_output =>
        let full_response := AnalysisOutput.full_response analysis_output in
        (∃ before data,
           trace out.2 = before ++ [ERequest req]
           ∧ Env.anthropic env before req = Response data
           ∧ first_text data = Ok full_response)
        ∧ _extract_section full_response "Gap Analysis"
          = Ok (AnalysisOutput.gap_analysis analysis_output)
        ∧ _extract_section full_response "Recommendations"
          = Ok (AnalysisOutput.recommendations analysis_output)
        ∧ _extract_section full_response "Implementation Guide"
          = Ok (AnalysisOutput.implementation_guide analysis_output)
    | Raise e =>
        (∃ err, e = RequestException err
           ∧ requests_of (new_events s out.2) = replicate MAX_RETRIES req)
        ∨ e = IndexError "list index out of range"
    end.
Proof.
  intros req out.
  destruct (analyze_content_trace env self domain research_output current_content s)
    as (n & new & Hn & Hheap & Htrace & Hreq & Hout).
  fold req out in Hheap, Htrace, Hreq, Hout.
  rewrite (new_events_app _ _ _ Htrace), Hreq.
  split_and!; [done|eauto|].
  destruct out.1 as [analysis_output|e].
  - destruct Hout as (data & Hdata & Htext & Hgap & Hrec & Hguide). cbn zeta.
    split_and!; [|done..]. exists (trace s ++ new), data. by rewrite <-app_assoc.
  - destruct Hout as [(err & -> & ->)|[-> _]]; eauto.
Qed.

(** The answer of the sample environment has the English header and nothing
    under it. *)
Example analyze_content_sample :
  (analyze_content (sample_env (Failure offline)) sample_kaizen sample_domain_dict
     sample_research "No matching files found." sample_state).1
  = Ok (AnalysisOutput.mk "" "" "" "## Gap Analysis").
Proof. vm_compute. reflexivity. Qed.

(** ** The result of [report_findings] *)

(** X13.  What [report_findings] returns and raises, by the outcome of the
    search for an existing issue.  With an issue found it posts the comment
    once: if that succeeds it prints the confirmation and returns; if it
    fails it raises [Exception] with the message ["Failed to add comment: "]
    and the text of the failure, without a second attempt and without the
    confirmation.  With none found it returns after printing the number and
    URL of the issue the tracker answered with, or raises the [requests]
    failure of the third attempt to create one.  When the search itself
    raises, which only a body that counts a match and lists none causes,
    that exception propagates and nothing is created. *)
Theorem report_findings_outcome env self domain research_output analysis_output s :
  let gh := DotfilesKaizen.github_client self in
  let prefix := "[Dotfiles Kaizen] " +:+ Domain.name domain in
  let started :=
    trace s ++ [EPrint ("Starting Phase 3: Reporting for " +:+ Domain.name domain +:+ "...")] in
  let today := strftime_date (Env.clock env started) in
  let search := GitHubSearchIssues (issue_search_query gh prefix) in
  let found := Env.github_search env (started ++ [ENow; ENow]) search in
  let searched := started ++ ENow :: ENow :: ERequest search :: search_log found in
  let out := report_findings env self domain research_output analysis_output s in
  match existing_issue found with
  | Ok (Some issue) =>
      let number := pretty (Issue.number issue) in
      let announced :=
        searched ++ [EPrint ("Found existing issue #" +:+ number
                               +:+ ". Adding comment instead.")] in
      let comment := GitHubAddComment (GitHubClient.repository gh) (Issue.number issue)
                       (update_comment_body today research_output analysis_output) in
      out
      = match Env.github_comments env announced comment with
        | Response _ =>
            (Ok tt, State (heap s)
                      (announced ++ [ERequest comment;
                                     EPrint ("Comment added to issue #" +:+ number)]))
        | Failure e =>
            (Raise (Exception ("Failed to add comment: " +:+ error_text e)),
             State (heap s) (announced ++ [ERequest comment]))
        end
  | Ok None =>
      match out.1 with
      | Ok _ =>
          ∃ before create issue,
            trace out.2
            = before ++ [ERequest create;
                         EPrint ("Created new issue #" +:+ pretty (Issue.number issue) +:+ ": "
                                   +:+ Issue.html_url issue)]
            ∧ Env.github_issues env before create = Response issue
      | Raise e =>
          ∃ err, e = RequestException err
            ∧ length (requests_of (new_events s out.2)) = 1 + MAX_RETRIES
      end
  | Raise e => out = (Raise e, State (heap s) searched)
  end.
Proof.
  intros gh prefix started today search found searched out.
  unfold out; clear out.
  destruct (report_findings env self domain research_output analysis_output s)
    as [r s'] eqn:Hout.
  cbn [fst snd].
  unfold report_findings, mbind, M_mbind, M_bind, print, now, emit in Hout.
  cbn [heap trace] in Hout. rewrite find_existing_issue_run in Hout. cbn [heap trace] in Hout.
  fold gh prefix started in Hout. rewrite <-!app_assoc in Hout. cbn [app] in Hout.
  fold search in Hout. fold found in Hout. fold today in Hout. fold searched in Hout.
  destruct (existing_issue found) as [[issue|]|e].
  - unfold GitHubClient_add_comment, try_except_RequestException, http, raise in Hout.
    cbn [heap trace] in Hout. cbn zeta.
    destruct (Env.github_comments env _ _); simplify_eq; [|done].
    cbn [heap trace]. by rewrite <-app_assoc.
  - unfold list_copy, alloc, read, append, mbind, M_mbind, M_bind in Hout.
    cbn [heap trace] in Hout.
    set (title := "[Dotfiles Kaizen] " +:+ Domain.name domain +:+ " - " +:+ today) in Hout.
    set (body := issue_body _ _ _ _) in Hout.
    set (l1 := fresh (dom (heap s))) in *.
    set (h1 := <[l1 := ["dotfiles-kaizen"]]> (heap s)) in *.
    set (l2 := fresh (dom h1)) in *.
    set (h3 := <[l2 := _]> (<[l2 := _]> h1)) in *.
    set (s3 := State h3 _) in *.
    pose proof (GitHubClient_create_issue_contract env gh title body (Some l2) None s3)
      as (failures & Hlen & Hheap & Htrace & Hfail & Hres & Hlast).
    cbn [from_option] in Htrace, Hfail, Hres, Hlast.
    set (create := GitHubCreateIssue _ _ _ _ _) in *. cbn zeta in *.
    destruct (GitHubClient_create_issue env gh title body (Some l2) None s3) as [r4 s4].
    cbn [fst snd] in *.
    destruct (Env.github_issues env _ create) as [issue|err] eqn:E; subst r4;
      injection Hout as <- <-.
    + cbn [trace]. rewrite Htrace. exists (trace s3 ++ backoff_events "GitHub" create 1 failures),
        create, issue. split; [|done]. by rewrite <-app_assoc.
    + exists err. split; [done|]. specialize (Hlast err eq_refl).
      assert (trace s4 = trace s ++ (drop (length (trace s)) searched
                                       ++ backoff_events "GitHub" create 1 failures
                                       ++ [ERequest create])) as Hnew.
      { rewrite Htrace. unfold s3, searched, started. cbn [trace].
        rewrite <-!app_assoc, drop_app_length. done. }
      rewrite (new_events_app _ _ _ Hnew). unfold searched, started.
      rewrite <-!app_assoc, drop_app_length. autorewrite with requests. cbn [app].
      rewrite length_cons, length_app, length_replicate. cbn. lia.
  - by simplify_eq.
Qed.

Lemma report_findings_requests env self domain research_output analysis_output s :
  let out := report_findings env self domain research_output analysis_output s in
  ∃ new, trace out.2 = trace s ++ new
    ∧ Forall (λ r, phase r = 3) (requests_of new)
    ∧ 1 ≤ length (requests_of new) ≤ 4
    ∧ (out.1 = Ok tt → 2 ≤ length (requests_of new)).
Proof.
  intros out.
  destruct (report_findings_run env self domain research_output analysis_output s)
    as (new & Htrace & _ & Hcases).
  cbn zeta in Hcases. fold out in Htrace, Hcases. exists new. split; [done|].
  destruct (existing_issue _) as [[issue|]|e].
  - rewrite Hcases. split_and!; [by repeat constructor|simpl; lia|simpl; lia|simpl; lia].
  - destruct Hcases as (n & Hn & -> & _). unfold MAX_RETRIES in Hn.
    rewrite length_cons, length_replicate. split_and!; [|lia|lia|lia].
    constructor; [done|]. by apply Forall_replicate.
  - destruct Hcases as [-> ->]. split_and!; [by repeat constructor|simpl; lia|simpl; lia|done].
Qed.

(** ** The run of a domain *)

Lemma get_domain_config_dict_loop_spec domains domain_id :
  match get_domain_config_dict_loop domains domain_id with
  | Some domain =>
      ∃ before after, domains = before ++ domain :: after
        ∧ Domain.id (DomainDict.view domain) = domain_id
        ∧ Forall (λ d, Domain.id (DomainDict.view d) ≠ domain_id) before
  | None => Forall (λ d, Domain.id (DomainDict.view d) ≠ domain_id) domains
  end.
Proof.
  induction domains as [|d domains IH]; simpl; [done|].
  destruct (String.eqb_spec (Domain.id (DomainDict.view d)) domain_id) as [Heq|Hne].
  - by exists [], domains.
  - destruct (get_domain_config_dict_loop domains domain_id) as [found|].
    + destruct IH as (before & after & -> & ? & ?).
      exists (d :: before), after. split_and!; [done|done|by constructor].
    + by constructor.
Qed.

(** On a document that follows the schema [get_domain_config] raises nothing
    and finds the domain the lookup on the records finds. *)
Lemma get_domain_config_schema members items domains domain_id :
  dict_get "domains" members = Some (JList items) →
  Forall2 describes items domains →
  match get_domain_config_dict_loop domains domain_id with
  | Some domain =>
      ∃ document, get_domain_config (JDict members) domain_id = Ok (Some document)
        ∧ describes document domain
  | None => get_domain_config (JDict members) domain_id = Ok None
  end.
Proof.
  intros Hdomains Hitems. unfold get_domain_config, get_or, mbind, result_mbind.
  rewrite Hdomains. cbn [from_option id result_bind iterate]. clear Hdomains.
  induction Hitems as [|x d items domains (fields & -> & Hid) _ IH]; [done|].
  cbn [get_domain_config_loop get_domain_config_dict_loop subscript].
  unfold mbind, result_mbind. rewrite Hid. cbn [result_bind equals_str].
  destruct (String.eqb _ domain_id); [|exact IH].
  eexists. split; [done|]. by exists fields.
Qed.

Lemma get_domain_config_dict_unknown config domain_id :
  Forall (λ d, Domain.id (DomainDict.view d) ≠ domain_id)
    (default [] (ConfigDict.domains config)) →
  get_domain_config_dict config domain_id = None.
Proof.
  intros Hall. unfold get_domain_config_dict.
  pose proof (get_domain_config_dict_loop_spec (default [] (ConfigDict.domains config))
                domain_id) as Hspec.
  destruct (get_domain_config_dict_loop _ _) as [domain|]; [|done].
  destruct Hspec as (before & after & Heq & Hid & _). rewrite Heq in Hall.
  apply Forall_app in Hall as [_ Hall]. by inversion Hall.
Qed.

(** X14.  [run_domain_analysis] on a domain the configuration does not have
    raises [ValueError] with ["Domain not found: "] and the identifier before
    anything is sent, printed or read.  Otherwise the requests of the run
    come in the order of the phases and a phase starts only when the one
    before has ended: one to three searches, then at most three completion
    requests, then at most four requests to the issue tracker, and none to
    the tracker unless a completion was requested.  A run that returns has
    sent at least one completion request and two requests to the tracker.
    The flag [dry_run] changes nothing: a dry run sends the same requests and
    files the issue or the comment all the same. *)
Theorem run_domain_analysis_phases env host self domain_id dry_run w :
  let out := run_domain_analysis env host self domain_id dry_run w in
  (∀ flag, run_domain_analysis env host self domain_id flag w = out)
  ∧ match get_domain_config_dict (Kaizen.config self) domain_id with
    | None => out = (Raise (ValueError ("Domain not found: " +:+ domain_id)), w)
    | Some domain =>
        ∃ searches completions reports,
          requests_of (new_events (inner w) (inner out.2)) = searches ++ completions ++ reports
          ∧ Forall (λ r, phase r = 1) searches
          ∧ Forall (λ r, phase r = 2) completions
          ∧ Forall (λ r, phase r = 3) reports
          ∧ 1 ≤ length searches ≤ MAX_RETRIES
          ∧ length completions ≤ MAX_RETRIES
          ∧ length reports ≤ 1 + MAX_RETRIES
          ∧ (completions = [] → reports = [])
          ∧ (out.1 = Ok tt → completions ≠ [] ∧ 2 ≤ length reports)
    end.
Proof.
  intros out. split; [done|]. unfold out, run_domain_analysis. clear out.
  destruct (get_domain_config_dict (Kaizen.config self) domain_id) as [domain|]; [|done].
  unfold mbind, P_mbind, P_bind, within.
  destruct (collect_trends_trace env (Kaizen.view self) (DomainDict.view domain) (inner w))
    as (n1 & new1 & Hn1 & _ & Htrace1 & Hreq1 & _).
  cbn zeta in Htrace1, Hreq1.
  set (req1 := TavilySearch _ _ _ _) in Htrace1, Hreq1.
  destruct (collect_trends env _ _ (inner w)) as [[research_output|e1] s1]; cbn [fst snd] in *.
  2:{ cbn [inner]. exists (replicate n1 req1), [], [].
      rewrite (new_events_app _ _ _ Htrace1), Hreq1, !app_nil_r, length_replicate.
      split_and!; [done|by apply Forall_replicate|done|done|lia|lia|simpl; lia|simpl; lia
                  |done|done]. }
  pose proof (read_target_files_effects host (Domain.target_files (DomainDict.view domain))
                (Kaizen.content_base self) (World s1 (stderr w))) as [Hinner _].
  cbn zeta in Hinner.
  destruct (read_target_files host _ _ (World s1 (stderr w))) as [[current_content|e2] w2];
    cbn [fst snd inner] in *.
  2:{ rewrite Hinner. exists (replicate n1 req1), [], [].
      rewrite (new_events_app _ _ _ Htrace1), Hreq1, !app_nil_r, length_replicate.
      split_and!; [done|by apply Forall_replicate|done|done|lia|lia|simpl; lia|simpl; lia
                  |done|done]. }
  rewrite Hinner. clear Hinner.
  destruct (analyze_content_trace env (Kaizen.view self) domain research_output
              current_content s1)
    as (n2 & new2 & Hn2 & _ & Htrace2 & Hreq2 & _).
  cbn zeta in Htrace2, Hreq2.
  set (req2 := analysis_request _ _ _ _) in Htrace2, Hreq2.
  destruct (analyze_content env _ _ _ _ s1) as [[analysis_output|e3] s3]; cbn [fst snd] in *.
  2:{ cbn [inner]. exists (replicate n1 req1), (replicate n2 req2), [].
      assert (trace s3 = trace (inner w) ++ (new1 ++ [ERequest req1])
                           ++ (new2 ++ [ERequest req2])) as Hnew.
      { by rewrite Htrace2, Htrace1, <-!app_assoc. }
      rewrite (new_events_app _ _ _ Hnew), requests_of_app, Hreq1, Hreq2, !app_nil_r,
        !length_replicate.
      split_and!; [done|by apply Forall_replicate|by apply Forall_replicate|done|lia|lia
                  |lia|simpl; lia|done|done]. }
  destruct (report_findings_requests env (Kaizen.view self) (DomainDict.view domain)
              research_output analysis_output s3)
    as (new3 & Htrace3 & Hphase3 & Hlen3 & Hok3).
  cbn zeta in Htrace3, Hok3. cbn [inner stderr].
  destruct (report_findings env _ _ _ _ s3) as [r4 s4]; cbn [fst snd inner] in *.
  exists (replicate n1 req1), (replicate n2 req2), (requests_of new3).
  assert (trace s4 = trace (inner w) ++ (new1 ++ [ERequest req1])
                       ++ (new2 ++ [ERequest req2]) ++ new3) as Hnew.
  { by rewrite Htrace3, Htrace2, Htrace1, <-!app_assoc. }
  rewrite (new_events_app _ _ _ Hnew), (requests_of_app (new1 ++ _)), Hreq1,
    (requests_of_app (new2 ++ _)), Hreq2, !length_replicate.
  unfold MAX_RETRIES in *.
  split_and!; [done|by apply Forall_replicate|by apply Forall_replicate|done|lia|lia
              |lia|lia| |].
  - intros Hnil%(f_equal length). rewrite length_replicate in Hnil. simpl in Hnil. lia.
  - intros Hok. split; [|by apply Hok3].
    intros Hnil%(f_equal length). rewrite length_replicate in Hnil. simpl in Hnil. lia.
Qed.

Lemma run_domain_analysis_stderr env host self domain_id dry_run w :
  let out := run_domain_analysis env host self domain_id dry_run w in
  ∃ warnings, stderr out.2 = stderr w ++ warnings ∧ Forall is_warning warnings.
Proof.
  intros out. unfold out, run_domain_analysis. clear out.
  destruct (get_domain_config_dict (Kaizen.config self) domain_id) as [domain|];
    [|exists []; by rewrite app_nil_r].
  unfold mbind, P_mbind, P_bind, within.
  destruct (collect_trends env _ _ (inner w)) as [[research_output|e1] s1];
    [|exists []; by rewrite app_nil_r].
  pose proof (read_target_files_effects host (Domain.target_files (DomainDict.view domain))
                (Kaizen.content_base self) (World s1 (stderr w)))
    as [_ (warnings & Hw & Hwarn)].
  cbn zeta in Hw. exists warnings. split; [|done].
  destruct (read_target_files host _ _ (World s1 (stderr w))) as [[current_content|e2] w2];
    cbn [fst snd inner stderr] in *; [|done].
  destruct (analyze_content env _ _ _ _ (inner w2)) as [[analysis_output|e3] s3];
    cbn [fst snd inner stderr]; [|done].
  by destruct (report_findings env _ _ _ _ s3) as [r4 s4].
Qed.

(** ** [main] *)

(** X15.  [main] ends with status 1 before any request is sent and before
    anything is printed to standard output, writing the single line
    ["Error: "] with the text of the exception to standard error, in three
    cases, tried in this order: the configuration cannot be loaded, whatever
    the credentials are; a credential is missing, whatever the domain is; no
    domain of the configuration has the identifier asked for. *)
Theorem main_startup_failure env host args w e :
  let loaded := Host.load_config host (Args.config args) in
  let built config :=
    DotfilesKaizen___init__ (Host.environ host) config (Args.content_base args)
      (Args.issue_repo args) (Args.github_token args) in
  loaded = Raise e
  ∨ (∃ config, loaded = Ok config ∧ built config = Raise e)
  ∨ (∃ config self, loaded = Ok config ∧ built config = Ok self
       ∧ Forall (λ d, Domain.id (DomainDict.view d) ≠ Args.domain_id args)
           (default [] (ConfigDict.domains config))
       ∧ e = ValueError ("Domain not found: " +:+ Args.domain_id args)) →
  main env host args w = (1, World (inner w) (stderr w ++ ["Error: " +:+ str_exn e])).
Proof.
  intros loaded built Hfail. unfold main, mbind, P_mbind, P_bind, lift_P.
  fold loaded.
  destruct Hfail
    as [->|[(config & -> & Hbuilt)|(config & self & -> & Hbuilt & Hall & ->)]].
  - done.
  - fold (built config). by rewrite Hbuilt.
  - fold (built config). rewrite Hbuilt. unfold run_domain_analysis.
    rewrite (DotfilesKaizen___init___config _ _ _ _ _ _ Hbuilt).
    by rewrite (get_domain_config_dict_unknown _ _ Hall).
Qed.

Lemma main_startup_failure_witness :
  let env := sample_env (Failure offline) in
  let w := World sample_state [] in
  main env (sample_host ∅) (Args.mk "test-domain" "missing.json" "." None None) w
  = (1, World sample_state ["Error: [Errno 2] No such file or directory: 'missing.json'"])
  ∧ main env (sample_host (delete "GITHUB_TOKEN" sample_environ))
      (Args.mk "nonexistent" "config.json" "." None None) w
    = (1, World sample_state ["Error: GITHUB_TOKEN environment variable is not set"])
  ∧ main env (sample_host sample_environ)
      (Args.mk "nonexistent" "config.json" "." None None) w
    = (1, World sample_state ["Error: Domain not found: nonexistent"]).
Proof.
  intros env w. split_and!.
  - refine (main_startup_failure env (sample_host ∅)
              (Args.mk "test-domain" "missing.json" "." None None) w
              (Exception "[Errno 2] No such file or directory: 'missing.json'") _).
    left. reflexivity.
  - refine (main_startup_failure env (sample_host (delete "GITHUB_TOKEN" sample_environ))
              (Args.mk "nonexistent" "config.json" "." None None) w
              (ValueError "GITHUB_TOKEN environment variable is not set") _).
    right. left. exists sample_config_dict. split; [reflexivity|]. vm_compute. reflexivity.
  - refine (main_startup_failure env (sample_host sample_environ)
              (Args.mk "nonexistent" "config.json" "." None None) w
              (ValueError "Domain not found: nonexistent") _).
    right. right.
    exists sample_config_dict,
      (Kaizen.mk sample_config_dict (Path ".") (TavilyClient.mk "test")
         (AnthropicClient.mk "test")
         (GitHubClient.mk "test" "test/repo")).
    split_and!; [reflexivity|vm_compute; reflexivity| |reflexivity].
    repeat constructor. cbn. discriminate.
Defined.

(** X16.  The exit status of [main] is 0 or 1 and tells how the run ended.
    With status 0 the last thing printed is
    ["Analysis completed successfully."] and standard error has gained
    nothing but warnings about unreadable files.  With status 1 standard
    error has gained such warnings, if any, and then as its last line
    ["Error: "] followed by the text of the exception that ended the run. *)
Theorem main_exit_status env host args w :
  let out := main env host args w in
  ∃ warnings, Forall is_warning warnings
    ∧ ((out.1 = 0
        ∧ stderr out.2 = stderr w ++ warnings
        ∧ last (trace (inner out.2)) = Some (EPrint "Analysis completed successfully."))
       ∨ (out.1 = 1
          ∧ ∃ e, stderr out.2 = stderr w ++ warnings ++ ["Error: " +:+ str_exn e])).
Proof.
  intros out. unfold out, main, mbind, P_mbind, P_bind, lift_P. clear out.
  destruct (Host.load_config host (Args.config args)) as [config|e0].
  2:{ exists []. split; [done|]. right. cbn. eauto. }
  destruct (DotfilesKaizen___init__ _ _ _ _ _) as [kaizen_engine|e0].
  2:{ exists []. split; [done|]. right. cbn. eauto. }
  destruct (run_domain_analysis_stderr env host kaizen_engine (Args.domain_id args) false w)
    as (warnings & Hw & Hwarn).
  cbn zeta in Hw. exists warnings. split; [done|].
  destruct (run_domain_analysis env host kaizen_engine (Args.domain_id args) false w)
    as [[[]|e0] w1]; cbn [fst snd] in *.
  - left. unfold within, print, emit. cbn. split_and!; [done|done|]. apply last_snoc.
  - right. cbn. rewrite Hw, <-app_assoc. eauto.
Qed.

(** A whole run on the sample host: the search, the completion, the search
    for an issue and the new issue, one request each. *)
Example main_sample_run :
  let out := main (sample_env (Response (IssueSearch.mk 0 []))) (sample_host sample_environ)
               (Args.mk "test-domain" "config.json" "docs" None None)
               (World sample_state []) in
  out.1 = 0
  ∧ phase <$> requests_of (trace (inner out.2)) = [1; 2; 3; 3]
  ∧ stderr out.2 = [].
Proof. vm_compute. done. Qed.
